(** * ICT trading agent: pattern detection, signals, risk checks and backtest

    A shallow embedding of the Python sources
    [src/pattern_detector.py], [src/ict_agent.py], [src/risk_manager.py],
    [src/backtester.py] and the streak counter of
    [src/performance_reporter.py], and the properties of their
    specification.

    Conventions of the embedding.
    - Python floats are idealised as rationals ([Q]); rounding is not
      modelled.  Statements about numbers use [==] ([Qeq]); statements about
      copied values use Leibniz equality.  The properties of the risk
      tools, of the order blocks and of the drawdown are therefore stated
      as orderings, signs and bounds that a monotone rounding of each
      operation preserves, not as exact identities between computed
      numbers.
    - A division whose denominator is zero is outside the model (numpy
      yields inf or nan there, Python raises): functions that can raise on
      it return [option], and theorems that pass through such a division
      carry the hypothesis that the denominator is not zero.
    - Python dictionaries with a fixed set of keys are records; a key that
      may be absent is an [option] field read through the [.get] default.
    - Strings stay strings: the sources compare and search them. *)

From Stdlib Require Import String Ascii.
From Stdlib Require Import ZArith QArith Qabs Qminmax List Bool Lia Lqa Sorted.
Import ListNotations.

Local Open Scope Z_scope.
Local Open Scope Q_scope.

(** ** Python primitives used by the sources *)

Module Py.

(** Strict and large comparison of floats as booleans. *)
Definition Qlt_bool (x y : Q) : bool :=
  match x ?= y with Lt => true | _ => false end.
Definition Qgt_bool (x y : Q) : bool := Qlt_bool y x.
Definition Qge_bool (x y : Q) : bool := Qle_bool y x.

(** [int(x)]: truncation toward zero. *)
Definition int (x : Q) : Z := Z.quot (Qnum x) (Zpos (Qden x)).

(** [range(a, b)]. *)
Definition range (a b : Z) : list Z :=
  map (fun k => (a + Z.of_nat k)%Z) (seq 0 (Z.to_nat (b - a))).

(** Normalisation of a slice bound against a length [n]: a negative bound
    counts from the end, and every bound is clamped into [0, n]. *)
Definition bound (n i : Z) : Z :=
  if (i <? 0)%Z then Z.max 0 (i + n) else Z.min i n.

(** [l[start:stop]]. *)
Definition slice {A : Type} (l : list A) (start stop : Z) : list A :=
  let n := Z.of_nat (length l) in
  let s := bound n start in
  let e := bound n stop in
  firstn (Z.to_nat (e - s)) (skipn (Z.to_nat s) l).

(** [l[-k:]] for a positive [k]. *)
Definition last_n {A : Type} (k : Z) (l : list A) : list A :=
  slice l (- k) (Z.of_nat (length l)).

(** [l[i]] for an index the caller keeps within range. *)
Definition item {A : Type} (d : A) (l : list A) (i : Z) : A :=
  nth (Z.to_nat i) l d.

(** [min(l)] and [max(l)] of a sequence the caller keeps non-empty: the
    first extremal element, as the builtins return it. *)
Definition min_list (l : list Q) : Q :=
  match l with
  | [] => 0
  | x :: r => fold_left Qmin r x
  end.
Definition max_list (l : list Q) : Q :=
  match l with
  | [] => 0
  | x :: r => fold_left Qmax r x
  end.

Definition sum (l : list Q) : Q := fold_left Qplus l 0.

(** [Series.mean()]: nan ([None]) on an empty series. *)
Definition mean (l : list Q) : option Q :=
  match l with
  | [] => None
  | _ => Some (sum l / inject_Z (Z.of_nat (length l)))
  end.

(** [x > m * k] where [m] may be nan: a comparison with nan is false. *)
Definition gt_scaled (x : Q) (m : option Q) (k : Q) : bool :=
  match m with
  | Some a => Qgt_bool x (a * k)
  | None => false
  end.

(** [all(p(x) for x in l)]. *)
Definition all {A : Type} (p : A -> bool) (l : list A) : bool := forallb p l.

(** [all(rel(l[i], l[i-1]) for i in range(1, len(l)))]. *)
Fixpoint all_adjacent {A : Type} (rel : A -> A -> bool) (l : list A) : bool :=
  match l with
  | [] => true
  | x :: r =>
      match r with
      | [] => true
      | y :: _ => rel y x && all_adjacent rel r
      end
  end.

(** [s.upper()] on ASCII strings.  Python's [upper] also maps letters
    outside ASCII; the directions that the program itself writes are
    ASCII, and the properties of functions that take a direction from
    their caller assume an ASCII string. *)
Definition upper_ascii (c : ascii) : ascii :=
  let n := nat_of_ascii c in
  if (Nat.leb 97 n && Nat.leb n 122)%bool then ascii_of_nat (n - 32) else c.
Fixpoint upper (s : string) : string :=
  match s with
  | EmptyString => EmptyString
  | String c r => String (upper_ascii c) (upper r)
  end.

(** [needle in hay] on strings: the substring test. *)
Fixpoint contains (needle hay : string) : bool :=
  String.prefix needle hay ||
  match hay with
  | EmptyString => false
  | String _ r => contains needle r
  end.

(** [x or y] on an optional float: [None] and [0.0] are falsy. *)
Definition or_float (x : option Q) (y : Q) : Q :=
  match x with
  | Some v => if Qeq_bool v 0 then y else v
  | None => y
  end.

(** [x or y] on an optional list: [None] and [[]] are falsy. *)
Definition or_list {A : Type} (x : option (list A)) (y : list A) : list A :=
  match x with
  | Some (a :: r) => a :: r
  | _ => y
  end.

End Py.

(** ** Price data *)

(** One row of the OHLCV frame; [timestamp] is the row's index label. *)
Record Bar := mkBar {
  timestamp : Z;
  Open : Q;
  High : Q;
  Low : Q;
  Close : Q;
  Volume : Q
}.

(** A frame: its rows, and whether it has a ['Volume'] column. *)
Record DataFrame := mkDF {
  rows : list Bar;
  has_volume : bool
}.

Definition len (df : DataFrame) : Z := Z.of_nat (length (rows df)).
Definition empty (df : DataFrame) : bool :=
  match rows df with [] => true | _ => false end.

Definition nobar : Bar := mkBar 0 0 0 0 0 0.
Definition iloc (df : DataFrame) (i : Z) : Bar := Py.item nobar (rows df) i.
Definition iloc_slice (df : DataFrame) (a b : Z) : list Bar := Py.slice (rows df) a b.

(** The bar invariants of the data model. *)
Definition bar_ok (b : Bar) : Prop :=
  Qmax (Open b) (Close b) <= High b /\ Low b <= Qmin (Open b) (Close b).
Fixpoint increasing (l : list Z) : Prop :=
  match l with
  | [] => True
  | x :: r => match r with [] => True | y :: _ => (x < y)%Z /\ increasing r end
  end.
Definition bars_ok (df : DataFrame) : Prop :=
  Forall bar_ok (rows df) /\ increasing (map timestamp (rows df)).

(** Prices are positive. *)
Definition positive_prices (df : DataFrame) : Prop :=
  Forall (fun b => 0 < High b /\ 0 < Close b) (rows df).

(** ** Configuration *)

(** The agent's configuration dictionary.  The detectors read their three
    keys through [.get] with a default, so these may be absent. *)
Record Config := mkConfig {
  lookback_period : Z;
  fvg_min_size : option Q;
  orderblock_strength : option Z;
  liquidity_threshold : option Q
}.

Definition get {A : Type} (field : option A) (default : A) : A :=
  match field with Some v => v | None => default end.

(** [ICTTradingAgent._default_config]. *)
Definition default_config : Config :=
  mkConfig 100 (Some (1 # 1000)) (Some 3%Z) (Some (5 # 100)).

(** ** Pattern records *)

(** A gap or order-block dictionary.  [p_high] and [p_low] are the keys
    [gap_high]/[gap_low] or [block_high]/[block_low]; [p_gap_size] exists on
    gaps only; [p_resolved] is the key [filled] or [tested].  No detector
    sets [volume_confirmation]. *)
Record Pattern := mkPattern {
  p_type : string;
  p_direction : string;
  p_timestamp : Z;
  p_high : Q;
  p_low : Q;
  p_gap_size : option Q;
  p_entry_price : Q;
  p_stop_loss : Q;
  p_take_profit : Q;
  p_strength : option Q;
  p_resolved : bool;
  p_volume_confirmation : option bool
}.

(** A liquidity-pool dictionary. *)
Record LiquidityPool := mkPool {
  lp_type : string;
  lp_level_type : string;
  lp_price_level : Q;
  lp_timestamp : Z;
  lp_touches : Z;
  lp_strength : Q;
  lp_direction : string
}.

(** ** [pattern_detector.py] *)

Module PatternDetector.

Import Py.

(** [_calculate_fvg_strength]. *)
Definition _calculate_fvg_strength (df : DataFrame) (index : Z) (gap_size : Q) : Q :=
  let strength := Qmin (gap_size * 100) (1 # 2) in
  let strength :=
    if (has_volume df && (index <? len df)%Z)%bool then
      let avg_volume := mean (map Volume (iloc_slice df (index - 10) index)) in
      let current_volume := Volume (iloc df index) in
      if gt_scaled current_volume avg_volume (3 # 2)
      then strength + (1 # 5) else strength
    else strength in
  let strength :=
    if (3 <=? index)%Z then
      let recent_closes := map Close (iloc_slice df (index - 3) (index + 1)) in
      if (3 <=? Z.of_nat (length recent_closes))%Z then
        let momentum :=
          (last recent_closes 0 - hd 0 recent_closes) / hd 0 recent_closes in
        strength + Qabs momentum * 5
      else strength
    else strength in
  Qmin strength 1.

(** The body of the gap loop at index [i]: at most one pattern. *)
Definition fvg_step (cfg : Config) (df : DataFrame) (i : Z) : option Pattern :=
  let min_gap_size := get (fvg_min_size cfg) (1 # 1000) in
  let prev_candle := iloc df (i - 1) in
  let current_candle := iloc df i in
  let next_candle := iloc df (i + 1) in
  if (Qgt_bool (Low prev_candle) (High next_candle)
      && Qgt_bool (Close current_candle) (Open current_candle))%bool then
    let gap_size := (Low prev_candle - High next_candle) / High next_candle in
    if Qge_bool gap_size min_gap_size then
      Some (mkPattern "Fair Value Gap" "BULLISH" (timestamp current_candle)
              (Low prev_candle) (High next_candle) (Some gap_size)
              (High next_candle)
              (Low prev_candle - Low prev_candle * (1 # 1000))
              (Low prev_candle + gap_size * Low prev_candle * 2)
              (Some (_calculate_fvg_strength df i gap_size))
              false None)
    else None
  else if (Qlt_bool (High prev_candle) (Low next_candle)
           && Qlt_bool (Close current_candle) (Open current_candle))%bool then
    let gap_size := (Low next_candle - High prev_candle) / High prev_candle in
    if Qge_bool gap_size min_gap_size then
      Some (mkPattern "Fair Value Gap" "BEARISH" (timestamp current_candle)
              (Low next_candle) (High prev_candle) (Some gap_size)
              (High prev_candle)
              (Low next_candle + Low next_candle * (1 # 1000))
              (Low next_candle - gap_size * Low next_candle * 2)
              (Some (_calculate_fvg_strength df i gap_size))
              false None)
    else None
  else None.

Definition opt_list {A : Type} (o : option A) : list A :=
  match o with Some x => [x] | None => [] end.

(** [detect_fair_value_gaps]. *)
Definition detect_fair_value_gaps (cfg : Config) (df : DataFrame) : list Pattern :=
  if (len df <? 3)%Z then []
  else flat_map (fun i => opt_list (fvg_step cfg df i)) (range 1 (len df - 1)).

(** [_is_strong_bullish_move] and [_is_strong_bearish_move]. *)
Definition _is_strong_bullish_move (df : DataFrame) (index min_strength : Z) : bool :=
  if ((index <? min_strength)%Z || (len df <=? index)%Z)%bool then false
  else
    let closes := map Close (iloc_slice df (index - min_strength) (index + 1)) in
    all_adjacent (fun c p => Qgt_bool c p) closes.

Definition _is_strong_bearish_move (df : DataFrame) (index min_strength : Z) : bool :=
  if ((index <? min_strength)%Z || (len df <=? index)%Z)%bool then false
  else
    let closes := map Close (iloc_slice df (index - min_strength) (index + 1)) in
    all_adjacent (fun c p => Qlt_bool c p) closes.

(** [_calculate_orderblock_strength]. *)
Definition _calculate_orderblock_strength (df : DataFrame) (index : Z) : Q :=
  if ((index <? 5)%Z || (len df - 5 <=? index)%Z)%bool then 1 # 2
  else
    let pre_move := map Close (iloc_slice df (index - 5) index) in
    let post_move := map Close (iloc_slice df index (index + 5)) in
    match pre_move, post_move with
    | [], _ | _, [] => 1 # 2
    | pre0 :: _, _ :: _ =>
        let price_change := Qabs (last post_move 0 - pre0) / pre0 in
        let strength := Qmin (price_change * 10) (8 # 10) in
        let strength :=
          if has_volume df then
            let avg_volume := mean (map Volume (iloc_slice df (index - 20) index)) in
            let peak_volume := Volume (iloc df index) in
            if gt_scaled peak_volume avg_volume (3 # 2)
            then strength + (1 # 5) else strength
          else strength in
        Qmin strength 1
    end.

(** The body of the order-block loop at index [i].  The stop and the
    target are exact here and rounded in the source, where the reward is
    six times the risk only up to rounding. *)
Definition ob_step (cfg : Config) (df : DataFrame) (i : Z) : option Pattern :=
  let min_strength := get (orderblock_strength cfg) 3%Z in
  let ob_low := min_list (map Low (iloc_slice df (i - 5) (i + 1))) in
  let ob_high := max_list (map High (iloc_slice df (i - 5) (i + 1))) in
  if _is_strong_bullish_move df i min_strength then
    Some (mkPattern "Order Block" "BULLISH" (timestamp (iloc df i))
            ob_high ob_low None
            ob_low
            (ob_low - (ob_high - ob_low) * (1 # 2))
            (ob_high + (ob_high - ob_low) * 2)
            (Some (_calculate_orderblock_strength df i))
            false None)
  else if _is_strong_bearish_move df i min_strength then
    Some (mkPattern "Order Block" "BEARISH" (timestamp (iloc df i))
            ob_high ob_low None
            ob_high
            (ob_high + (ob_high - ob_low) * (1 # 2))
            (ob_low - (ob_high - ob_low) * 2)
            (Some (_calculate_orderblock_strength df i))
            false None)
  else None.

(** [detect_order_blocks]. *)
Definition detect_order_blocks (cfg : Config) (df : DataFrame) : list Pattern :=
  if (len df <? 20)%Z then []
  else flat_map (fun i => opt_list (ob_step cfg df i)) (range 10 (len df - 10)).

(** The inner loop of the pool detector: the indices [j] of the window
    [i-20 .. i+20], [j <> i], whose level is within [tolerance] of the
    base level. *)
Definition equal_levels (levels : list Q) (tolerance : Q) (i : Z) : list Z :=
  let base := item 0 levels i in
  filter (fun j => (negb (j =? i)%Z
                    && Qle_bool (Qabs (item 0 levels j - base) / base) tolerance)%bool)
         (range (i - 20) (i + 21)).

Definition pool_step (df : DataFrame) (levels : list Q) (tolerance : Q)
           (level_type direction : string) (i : Z) : option LiquidityPool :=
  let equal := equal_levels levels tolerance i in
  if (2 <=? Z.of_nat (length equal))%Z then
    Some (mkPool "Liquidity Pool" level_type (item 0 levels i)
            (timestamp (iloc df i))
            (Z.of_nat (length equal) + 1)
            (inject_Z (Z.of_nat (length equal)) / 10)
            direction)
  else None.

(** [detect_liquidity_pools]: resistance pools over the highs, then
    support pools over the lows. *)
Definition detect_liquidity_pools (cfg : Config) (df : DataFrame) : list LiquidityPool :=
  if (len df <? 50)%Z then []
  else
    let tolerance := get (liquidity_threshold cfg) (5 # 100) in
    let highs := map High (rows df) in
    let lows := map Low (rows df) in
    flat_map (fun i => opt_list (pool_step df highs tolerance "RESISTANCE" "BEARISH" i))
             (range 20 (Z.of_nat (length highs) - 20))
    ++
    flat_map (fun i => opt_list (pool_step df lows tolerance "SUPPORT" "BULLISH" i))
             (range 20 (Z.of_nat (length lows) - 20)).

End PatternDetector.

(** ** The external collaborators: data provider and wall clock *)

(** [DataHandler]: the provider's answers during one run.
    [get_price_data symbol days] is the frame returned for
    [period = f"{days}d"], a live query for the trailing window that
    ends when it is asked; [get_historical_data symbol start_date end_date
    interval] the frame for a date range.  Both return an empty frame on
    failure.  A run at another time, when the trailing window has moved,
    is a run against another value of this record. *)
Record DataHandler := mkDataHandler {
  get_price_data : string -> Z -> DataFrame;
  get_historical_data : string -> string -> string -> string -> DataFrame
}.

(** [datetime.now().isoformat()]: the [k]-th reading of the clock. *)
Definition Clock := nat -> string.

(** Computations that read the clock: the state is the number of readings
    made so far. *)
Definition M (A : Type) : Type := nat -> A * nat.
Definition ret {A : Type} (x : A) : M A := fun t => (x, t).
Definition bind {A B : Type} (m : M A) (k : A -> M B) : M B :=
  fun t => let (x, t') := m t in k x t'.
Definition now (clock : Clock) : M string := fun t => (clock t, S t).

Declare Scope clock_scope.
Delimit Scope clock_scope with clock.
Notation "x <- m ;; k" := (bind m (fun x => k))
  (at level 61, m at next level, right associativity) : clock_scope.

(** ** [ict_agent.py] *)

Module ICTTradingAgent.

Import Py.

Record SwingPoint := mkSwing {
  sp_index : Z;
  sp_price : Q;
  sp_timestamp : Z
}.

Record SwingPoints := mkSwings {
  highs : list SwingPoint;
  lows : list SwingPoint
}.

(** The result of [analyze_market_structure]: an error dictionary, or
    the analysis. *)
Inductive MarketStructure :=
| MSError (reason : string)
| MSAnalysis (symbol trend_direction : string) (swing_points : SwingPoints)
             (break_of_structure change_of_character : list Z)
             (analysis_timestamp : string).

(** [market_structure.get("trend_direction", "SIDEWAYS")]. *)
Definition trend_of (ms : MarketStructure) : string :=
  match ms with
  | MSError _ => "SIDEWAYS"
  | MSAnalysis _ trend _ _ _ _ => trend
  end.

Record Signal := mkSignal {
  s_type : string;
  s_direction : string;
  s_price : Q;
  s_stop_loss : Q;
  s_take_profit : Q;
  s_strength : Q;
  s_timestamp : string;
  s_pattern : string
}.

(** [_identify_swing_points]. *)
Definition is_swing (df : DataFrame) (level : Bar -> Q) (rel : Q -> Q -> bool)
           (window i : Z) : bool :=
  all (fun j => rel (level (iloc df i)) (level (iloc df j)))
      (filter (fun j => negb (j =? i)%Z) (range (i - window) (i + window + 1))).

Definition swing_at (df : DataFrame) (level : Bar -> Q) (i : Z) : SwingPoint :=
  mkSwing i (level (iloc df i)) (timestamp (iloc df i)).

Definition _identify_swing_points (df : DataFrame) (window : Z) : SwingPoints :=
  let candidates := range window (len df - window) in
  mkSwings
    (map (swing_at df High) (filter (is_swing df High Qgt_bool window) candidates))
    (map (swing_at df Low) (filter (is_swing df Low Qlt_bool window) candidates)).

(** [_determine_trend]. *)
Definition _determine_trend (df : DataFrame) (swing_points : SwingPoints) : string :=
  let hs := last_n 5 (highs swing_points) in
  let ls := last_n 5 (lows swing_points) in
  if ((Z.of_nat (length hs) <? 2)%Z || (Z.of_nat (length ls) <? 2)%Z)%bool
  then "SIDEWAYS"
  else
    let higher_highs := all_adjacent (fun c p => Qgt_bool (sp_price c) (sp_price p)) hs in
    let higher_lows := all_adjacent (fun c p => Qgt_bool (sp_price c) (sp_price p)) ls in
    if (higher_highs && higher_lows)%bool then "UPTREND"
    else
      let lower_highs := all_adjacent (fun c p => Qlt_bool (sp_price c) (sp_price p)) hs in
      let lower_lows := all_adjacent (fun c p => Qlt_bool (sp_price c) (sp_price p)) ls in
      if (lower_highs && lower_lows)%bool then "DOWNTREND" else "SIDEWAYS".

(** [_detect_break_of_structure] and [_detect_change_of_character]
    return empty lists. *)
Definition _detect_break_of_structure (df : DataFrame) (sp : SwingPoints) : list Z := [].
Definition _detect_change_of_character (df : DataFrame) (sp : SwingPoints) : list Z := [].

(** [analyze_market_structure]. *)
Definition analyze_market_structure (clock : Clock) (dh : DataHandler) (cfg : Config)
           (symbol : string) : M MarketStructure :=
  let df := get_price_data dh symbol (lookback_period cfg) in
  if empty df then ret (MSError "No data available")
  else
    let swing_points := _identify_swing_points df 5 in
    let trend := _determine_trend df swing_points in
    let bos_points := _detect_break_of_structure df swing_points in
    let choch_points := _detect_change_of_character df swing_points in
    (stamp <- now clock ;;
     ret (MSAnalysis symbol trend swing_points bos_points choch_points stamp))%clock.

(** [detect_fair_value_gaps], [detect_order_blocks] and
    [detect_liquidity_pools]: each fetches the provider's frame for the
    look-back period and runs the detector on it. *)
Definition detect_fair_value_gaps (dh : DataHandler) (cfg : Config) (symbol : string)
  : list Pattern :=
  PatternDetector.detect_fair_value_gaps cfg (get_price_data dh symbol (lookback_period cfg)).

Definition detect_order_blocks (dh : DataHandler) (cfg : Config) (symbol : string)
  : list Pattern :=
  PatternDetector.detect_order_blocks cfg (get_price_data dh symbol (lookback_period cfg)).

Definition detect_liquidity_pools (dh : DataHandler) (cfg : Config) (symbol : string)
  : list LiquidityPool :=
  PatternDetector.detect_liquidity_pools cfg (get_price_data dh symbol (lookback_period cfg)).

(** [_is_valid_fvg_signal] and [_is_valid_orderblock_signal]. *)
Definition _is_valid_fvg_signal (fvg : Pattern) (ms : MarketStructure) : bool :=
  let trend := trend_of ms in
  if (String.eqb trend "UPTREND" && String.eqb (p_direction fvg) "BULLISH")%bool then true
  else if (String.eqb trend "DOWNTREND" && String.eqb (p_direction fvg) "BEARISH")%bool
       then true
       else false.

Definition _is_valid_orderblock_signal (orderblock : Pattern) (ms : MarketStructure) : bool :=
  let trend := trend_of ms in
  if (String.eqb trend "UPTREND" && String.eqb (p_direction orderblock) "BULLISH")%bool
  then true
  else if (String.eqb trend "DOWNTREND" && String.eqb (p_direction orderblock) "BEARISH")%bool
       then true
       else false.

(** [_calculate_signal_strength]. *)
Definition _calculate_signal_strength (pattern : Pattern) (ms : MarketStructure) : Q :=
  let base_strength := get (p_strength pattern) (1 # 2) in
  let trend := trend_of ms in
  let base_strength :=
    if (negb (String.eqb trend "SIDEWAYS")
        && contains (upper (p_direction pattern)) trend)%bool
    then base_strength + (2 # 10) else base_strength in
  let base_strength :=
    if get (p_volume_confirmation pattern) false
    then base_strength + (1 # 10) else base_strength in
  Qmin base_strength 1.

(** [sorted(signals, key=strength, reverse=True)]: descending and stable. *)
Fixpoint insert_desc (x : Signal) (l : list Signal) : list Signal :=
  match l with
  | [] => [x]
  | y :: r =>
      if Qle_bool (s_strength y) (s_strength x) then x :: l
      else y :: insert_desc x r
  end.
Definition sorted_desc (l : list Signal) : list Signal := fold_right insert_desc [] l.

(** One loop of [generate_signals]: a signal, stamped with the clock, for
    each pattern the validity test accepts. *)
Fixpoint signals_of (clock : Clock) (valid : Pattern -> MarketStructure -> bool)
         (type label : string) (ms : MarketStructure) (patterns : list Pattern)
  : M (list Signal) :=
  match patterns with
  | [] => ret []
  | p :: r =>
      if valid p ms then
        (stamp <- now clock ;;
         rest <- signals_of clock valid type label ms r ;;
         ret (mkSignal type (p_direction p) (p_entry_price p) (p_stop_loss p)
                (p_take_profit p) (_calculate_signal_strength p ms) stamp label
              :: rest))%clock
      else signals_of clock valid type label ms r
  end.

(** [generate_signals]. *)
Definition generate_signals (clock : Clock) (dh : DataHandler) (cfg : Config)
           (symbol : string) : M (list Signal) :=
  let fvgs := detect_fair_value_gaps dh cfg symbol in
  let order_blocks := detect_order_blocks dh cfg symbol in
  (market_structure <- analyze_market_structure clock dh cfg symbol ;;
   from_fvgs <- signals_of clock _is_valid_fvg_signal "FVG_ENTRY" "Fair Value Gap"
                  market_structure fvgs ;;
   from_obs <- signals_of clock _is_valid_orderblock_signal "ORDERBLOCK_ENTRY"
                 "Order Block" market_structure order_blocks ;;
   ret (sorted_desc (from_fvgs ++ from_obs)))%clock.

End ICTTradingAgent.

(** ** [risk_manager.py] *)

Module RiskManager.

Import Py.

(** The [Position] dataclass. *)
Record Position := mkPosition {
  symbol : string;
  direction : string;
  entry_price : Q;
  quantity : Z;
  stop_loss : Q;
  take_profit : Q;
  entry_date : string
}.

(** The risk configuration dictionary. *)
Record RiskConfig := mkRiskConfig {
  risk_per_trade : Q;
  max_positions : Z;
  max_portfolio_risk : Q;
  max_position_size : Q;
  stop_loss_atr_multiplier : Q;
  take_profit_ratio : Q;
  max_daily_loss : Q;
  max_drawdown : Q
}.

(** [_default_config]. *)
Definition default_config : RiskConfig :=
  mkRiskConfig (2 # 100) 3 (6 # 100) (3 # 10) 2 2 (5 # 100) (20 # 100).

(** A [RiskManager] object: its configuration and its position registry
    [self.positions]. *)
Record t := mkRiskManager {
  config : RiskConfig;
  positions : list Position
}.

(** The keys [validate_trade] reads from a signal dictionary, each
    through [.get(key, 0)]. *)
Record SignalDict := mkSignalDict {
  price : option Q;
  sd_stop_loss : option Q;
  sd_take_profit : option Q
}.

(** The reasons [validate_trade] returns:
    "Maximum number of positions reached",
    "Insufficient capital for position",
    "Would exceed maximum portfolio risk",
    "Risk/reward ratio {rr_ratio:.2f} below minimum {min_rr}" and
    "Trade validated". *)
Inductive Reason :=
| MaxPositionsReached
| InsufficientCapital
| ExceedsPortfolioRisk
| RiskRewardBelow (rr_ratio min_rr : Q)
| TradeValidated.

(** [calculate_position_size].  [None] is the [ZeroDivisionError] of
    the divisions by [entry_price]. *)
Definition calculate_position_size (self : t) (capital entry_price stop_loss : Q)
           (risk_per_trade_arg : option Q) : option Z :=
  let risk_pct := or_float risk_per_trade_arg (risk_per_trade (config self)) in
  let risk_amount := capital * risk_pct in
  let price_risk := Qabs (entry_price - stop_loss) in
  if Qle_bool price_risk 0 then Some 0%Z
  else
    let position_size := int (risk_amount / price_risk) in
    if Qeq_bool entry_price 0 then None
    else
      let max_position := int ((capital * max_position_size (config self)) / entry_price) in
      let position_size := Z.min position_size max_position in
      let total_cost := inject_Z position_size * entry_price in
      if Qgt_bool total_cost capital
      then Some (int (capital / entry_price))
      else Some position_size.

(** [_calculate_portfolio_risk]. *)
Definition _calculate_portfolio_risk (positions : list Position) (capital : Q) : Q :=
  fold_left
    (fun total_risk position =>
       let risk := Qabs (entry_price position - stop_loss position)
                   * inject_Z (quantity position) in
       let risk_pct := if Qgt_bool capital 0 then risk / capital else 0 in
       total_risk + risk_pct)
    positions 0.

(** [validate_trade].  [None] is an exception raised by the sizing. *)
Definition validate_trade (self : t) (signal : SignalDict) (capital : Q)
           (current_positions : option (list Position)) : option (bool * Reason) :=
  let positions := or_list current_positions (positions self) in
  if (max_positions (config self) <=? Z.of_nat (length positions))%Z
  then Some (false, MaxPositionsReached)
  else
    let entry_price := get (price signal) 0 in
    let stop_loss := get (sd_stop_loss signal) 0 in
    match calculate_position_size self capital entry_price stop_loss None with
    | None => None
    | Some position_size =>
        if (position_size <=? 0)%Z then Some (false, InsufficientCapital)
        else
          let current_risk := _calculate_portfolio_risk positions capital in
          let new_risk := risk_per_trade (config self) in
          if Qgt_bool (current_risk + new_risk) (max_portfolio_risk (config self))
          then Some (false, ExceedsPortfolioRisk)
          else
            let risk := Qabs (entry_price - stop_loss) in
            let reward := Qabs (get (sd_take_profit signal) 0 - entry_price) in
            if Qgt_bool risk 0 then
              let rr_ratio := reward / risk in
              let min_rr := take_profit_ratio (config self) in
              if Qlt_bool rr_ratio min_rr
              then Some (false, RiskRewardBelow rr_ratio min_rr)
              else Some (true, TradeValidated)
            else Some (true, TradeValidated)
    end.

(** [direction.upper() in ['LONG', 'BULLISH']]: membership in the list. *)
Definition is_long (direction : string) : bool :=
  existsb (String.eqb (upper direction)) ["LONG"%string; "BULLISH"%string].

(** [calculate_stop_loss].  An absent or zero [support_resistance] is
    falsy and leaves the ATR stop.  The arithmetic is exact here and
    rounded in the source, where a small ATR distance can be absorbed by
    a large entry price. *)
Definition calculate_stop_loss (self : t) (entry_price : Q) (direction : string) (atr : Q)
           (support_resistance : option Q) : Q :=
  let atr_multiplier := stop_loss_atr_multiplier (config self) in
  if is_long direction then
    let atr_stop := entry_price - atr * atr_multiplier in
    match support_resistance with
    | Some level =>
        if (negb (Qeq_bool level 0) && Qlt_bool level entry_price)%bool
        then Qmax atr_stop level
        else atr_stop
    | None => atr_stop
    end
  else
    let atr_stop := entry_price + atr * atr_multiplier in
    match support_resistance with
    | Some level =>
        if (negb (Qeq_bool level 0) && Qgt_bool level entry_price)%bool
        then Qmin atr_stop level
        else atr_stop
    | None => atr_stop
    end.

(** [calculate_take_profit].  The arithmetic is exact here and rounded
    in the source: the distance of the target is the ratio times the
    risk only up to rounding. *)
Definition calculate_take_profit (self : t) (entry_price stop_loss : Q) (direction : string)
           (rr_ratio : option Q) : Q :=
  let ratio := or_float rr_ratio (take_profit_ratio (config self)) in
  let risk := Qabs (entry_price - stop_loss) in
  let reward := risk * ratio in
  if is_long direction then entry_price + reward else entry_price - reward.

(** [check_daily_loss_limit], without its log line.  The quotient is
    exact here and rounded in the source, which decides the comparison
    for a loss that equals the limit. *)
Definition check_daily_loss_limit (self : t) (starting_capital current_capital : Q)
  : bool * Q :=
  let loss := starting_capital - current_capital in
  let loss_pct := if Qgt_bool starting_capital 0 then loss / starting_capital else 0 in
  let limit_reached := Qge_bool loss_pct (max_daily_loss (config self)) in
  (limit_reached, loss_pct).

(** [check_drawdown_limit], without its log line; the quotient as in
    [check_daily_loss_limit]. *)
Definition check_drawdown_limit (self : t) (peak_capital current_capital : Q) : bool * Q :=
  let drawdown :=
    if Qgt_bool peak_capital 0 then (peak_capital - current_capital) / peak_capital else 0 in
  let limit_reached := Qge_bool drawdown (max_drawdown (config self)) in
  (limit_reached, drawdown).

(** [calculate_kelly_criterion].  [None] is the [ZeroDivisionError] of the
    division by a zero win/loss ratio.  The arithmetic is exact here and
    rounded in the source, which decides the sign of the fraction when
    the expected win equals the expected loss. *)
Definition calculate_kelly_criterion (self : t) (win_rate avg_win avg_loss : Q) : option Q :=
  if Qle_bool avg_loss 0 then Some 0
  else
    let win_loss_ratio := avg_win / Qabs avg_loss in
    if Qeq_bool win_loss_ratio 0 then None
    else
      let kelly_pct := (win_rate * win_loss_ratio - (1 - win_rate)) / win_loss_ratio in
      let fractional_kelly := kelly_pct * (25 # 100) in
      Some (Qmax 0 (Qmin fractional_kelly (max_position_size (config self)))).

End RiskManager.

(** ** [backtester.py] *)

Module Backtester.

Import Py.

(** A [Backtester] object.  Its agent is built with the default
    configuration; agent and backtester query the same provider. *)
Record t := mkBacktester {
  initial_capital : Q;
  commission : Q;
  slippage : Q;
  data_handler : DataHandler
}.

(** An open position of the simulation. *)
Record Position := mkPosition {
  entry_date : Z;
  entry_price : Q;
  direction : string;
  quantity : Z;
  stop_loss : Q;
  take_profit : Q;
  pattern : string
}.

Record Trade := mkTrade {
  t_entry_date : Z;
  t_exit_date : Z;
  t_entry_price : Q;
  t_exit_price : Q;
  t_direction : string;
  t_quantity : Z;
  t_pnl : Q;
  t_exit_reason : string
}.

Record EquitySample := mkEquity {
  date : Z;
  equity : Q;
  cash : Q;
  positions_value : Q
}.

(** The loop's variables, and the number of clock readings so far. *)
Record State := mkState {
  capital : Q;
  positions : list Position;
  trades : list Trade;
  equity_curve : list EquitySample;
  ticks : nat
}.

(** [_check_exit_signal]; [None] is Python's [None].  [df] is the frame up
    to the current bar; the function does not read it. *)
Definition _check_exit_signal (df : DataFrame) (position : Position) (current_price : Q)
  : option string :=
  if String.eqb (direction position) "LONG" then
    if Qle_bool current_price (stop_loss position) then Some "Stop Loss"%string
    else if Qge_bool current_price (take_profit position) then Some "Take Profit"%string
    else None
  else
    if Qge_bool current_price (stop_loss position) then Some "Stop Loss"%string
    else if Qle_bool current_price (take_profit position) then Some "Take Profit"%string
    else None.

(** [_calculate_position_size], with its default [risk_per_trade = 0.02].
    [None] is the exception of the division by a zero entry price. *)
Definition _calculate_position_size (capital entry_price stop_loss : Q) : option Z :=
  let risk_amount := capital * (2 # 100) in
  let price_risk := Qabs (entry_price - stop_loss) in
  if Qle_bool price_risk 0 then Some 0%Z
  else
    let position_size := int (risk_amount / price_risk) in
    if Qeq_bool entry_price 0 then None
    else
      let max_position := int ((capital * (3 # 10)) / entry_price) in
      Some (Z.min position_size max_position).

(** [_calculate_pnl]. *)
Definition _calculate_pnl (position : Position) (exit_price : Q) : Q :=
  if String.eqb (direction position) "LONG"
  then (exit_price - entry_price position) * inject_Z (quantity position)
  else (entry_price position - exit_price) * inject_Z (quantity position).

(** The execution price of an exit at [price]. *)
Definition exit_price_of (self : t) (position : Position) (price : Q) : Q :=
  price * (if String.eqb (direction position) "LONG"
           then 1 - slippage self else 1 + slippage self).

Definition trade_of (position : Position) (exit_date : Z) (exit_price pnl : Q)
           (reason : string) : Trade :=
  mkTrade (entry_date position) exit_date (entry_price position) exit_price
          (direction position) (quantity position) pnl reason.

(** Equality of two position dictionaries, as [list.remove] tests it. *)
Definition position_eqb (a b : Position) : bool :=
  ((entry_date a =? entry_date b)%Z
   && Qeq_bool (entry_price a) (entry_price b)
   && String.eqb (direction a) (direction b)
   && (quantity a =? quantity b)%Z
   && Qeq_bool (stop_loss a) (stop_loss b)
   && Qeq_bool (take_profit a) (take_profit b)
   && String.eqb (pattern a) (pattern b))%bool.

(** [positions.remove(position)]: the first equal element goes. *)
Fixpoint remove (position : Position) (l : list Position) : list Position :=
  match l with
  | [] => []
  | p :: r => if position_eqb p position then r else p :: remove position r
  end.

(** Closing [position] at [price]: lines 89-105 of the loop. *)
Definition close_position (self : t) (current_date : Z) (price : Q)
           (reason : string) (position : Position) (st : State) : State :=
  let exit_price := exit_price_of self position price in
  let pnl := _calculate_pnl position exit_price in
  mkState (capital st + (pnl - commission self))
          (remove position (positions st))
          (trades st ++ [trade_of position current_date exit_price pnl reason])
          (equity_curve st) (ticks st).

(** [df.iloc[:i+1]]. *)
Definition up_to (df : DataFrame) (i : Z) : DataFrame :=
  mkDF (iloc_slice df 0 (i + 1)) (has_volume df).

(** The exit loop over the copy [positions[:]]. *)
Definition check_exits (self : t) (df : DataFrame) (i : Z) (current_date : Z)
           (current_price : Q) (st : State) : State :=
  fold_left
    (fun st position =>
       match _check_exit_signal (up_to df i) position current_price with
       | Some reason => close_position self current_date current_price reason position st
       | None => st
       end)
    (positions st) st.

(** Opening a position for [signal] with [position_size] units: lines
    121-135 of the loop. *)
Definition open_position (self : t) (current_date : Z)
           (signal : ICTTradingAgent.Signal) (position_size : Z) (st : State) : State :=
  let entry_price := ICTTradingAgent.s_price signal * (1 + slippage self) in
  let cost := inject_Z position_size * entry_price + commission self in
  if Qle_bool cost (capital st) then
    mkState (capital st - cost)
            (positions st ++
             [mkPosition current_date entry_price (ICTTradingAgent.s_direction signal)
                position_size (ICTTradingAgent.s_stop_loss signal)
                (ICTTradingAgent.s_take_profit signal)
                (ICTTradingAgent.s_pattern signal)])
            (trades st) (equity_curve st) (ticks st)
  else st.

(** The body of [for signal in signals[:1]]. *)
Definition admit_signal (self : t) (current_date : Z) (signal : ICTTradingAgent.Signal)
           (st : State) : option State :=
  if Qge_bool (ICTTradingAgent.s_strength signal) (6 # 10) then
    match _calculate_position_size (capital st) (ICTTradingAgent.s_price signal)
            (ICTTradingAgent.s_stop_loss signal) with
    | None => None
    | Some position_size =>
        if (0 <? position_size)%Z
        then Some (open_position self current_date signal position_size st)
        else Some st
    end
  else Some st.

(** Step 3 of the loop: new signals when there is capacity. *)
Definition enter_signals (clock : Clock) (self : t) (symbol : string) (current_date : Z)
           (st : State) : option State :=
  if (Z.of_nat (length (positions st)) <? 3)%Z then
    let (signals, ticks') :=
      ICTTradingAgent.generate_signals clock (data_handler self) default_config symbol
        (ticks st) in
    let st := mkState (capital st) (positions st) (trades st) (equity_curve st) ticks' in
    match Py.slice signals 0 1 with
    | signal :: _ => admit_signal self current_date signal st
    | [] => Some st
    end
  else Some st.

(** [sum(pos['quantity'] * current_price for pos in positions)]. *)
Definition position_value (current_price : Q) (positions : list Position) : Q :=
  Py.sum (map (fun pos => inject_Z (quantity pos) * current_price) positions).

(** Step 1 of the loop: the equity sample. *)
Definition record_equity (current_date : Z) (current_price : Q) (st : State) : State :=
  let position_value := position_value current_price (positions st) in
  let total_equity := capital st + position_value in
  mkState (capital st) (positions st) (trades st)
          (equity_curve st ++ [mkEquity current_date total_equity (capital st) position_value])
          (ticks st).

(** One iteration of the simulation loop at bar index [i]. *)
Definition step (clock : Clock) (self : t) (symbol : string) (df : DataFrame) (i : Z)
           (st : State) : option State :=
  let current_date := timestamp (iloc df i) in
  let current_price := Close (iloc df i) in
  let st := record_equity current_date current_price st in
  let st := check_exits self df i current_date current_price st in
  enter_signals clock self symbol current_date st.

(** The loop over a list of indices; [None] once an iteration raised. *)
Fixpoint loop (clock : Clock) (self : t) (symbol : string) (df : DataFrame)
         (indices : list Z) (st : State) : option State :=
  match indices with
  | [] => Some st
  | i :: r =>
      match step clock self symbol df i st with
      | Some st' => loop clock self symbol df r st'
      | None => None
      end
  end.

(** Closing what is left at the end: lines 137-154.  The positions stay
    in the list. *)
Definition close_remaining (self : t) (df : DataFrame) (st : State) : State :=
  let last_bar := last (rows df) nobar in
  let final_price := Close last_bar in
  fold_left
    (fun st position =>
       let exit_price := exit_price_of self position final_price in
       let pnl := _calculate_pnl position exit_price in
       mkState (capital st + (pnl - commission self)) (positions st)
               (trades st ++ [trade_of position (timestamp last_bar) exit_price pnl
                                "End of backtest"])
               (equity_curve st) (ticks st))
    (positions st) st.

(** The result dictionary, without the metrics derived from the trade log
    and the equity curve. *)
Record Result := mkResult {
  r_symbol : string;
  r_start_date : string;
  r_end_date : string;
  r_initial_capital : Q;
  final_capital : Q;
  r_trades : list Trade;
  r_equity_curve : list EquitySample
}.

Inductive Outcome :=
| Error (reason : string)
| Completed (result : Result)
| Raised.

(** [_calculate_max_drawdown].  The quotient is exact here and rounded
    in the source, where it can reach 1 for a trough that is tiny
    against its peak. *)
Definition drawdown_step (acc : Q * Q) (value : Q) : Q * Q :=
  let (peak, max_dd) := acc in
  let peak := if Qgt_bool value peak then value else peak in
  let dd := (peak - value) / peak in
  (peak, if Qgt_bool dd max_dd then dd else max_dd).

Definition _calculate_max_drawdown (equity_values : list Q) : Q :=
  match equity_values with
  | [] => 0
  | first :: _ => snd (fold_left drawdown_step equity_values (first, 0))
  end.

(** The dictionary of [_calculate_metrics], without its Sharpe ratio (a
    square root).  With no trade the source's dictionary has no
    ['winning_trades'] and ['losing_trades'] keys. *)
Record Metrics := mkMetrics {
  total_return : Q;
  win_rate : Q;
  profit_factor : Q;
  m_max_drawdown : Q;
  average_win : Q;
  average_loss : Q;
  total_trades : Z;
  winning_trades : option Z;
  losing_trades : option Z
}.

Definition count {A : Type} (l : list A) : Q := inject_Z (Z.of_nat (length l)).

(** [_calculate_metrics]. *)
Definition _calculate_metrics (self : t) (trades : list Trade)
           (equity_curve : list EquitySample) : Metrics :=
  match trades with
  | [] => mkMetrics 0 0 0 0 0 0 0 None None
  | _ =>
      let total_pnl := Py.sum (map t_pnl trades) in
      let total_return := total_pnl / initial_capital self in
      let winning := filter (fun t => Qgt_bool (t_pnl t) 0) trades in
      let losing := filter (fun t => Qle_bool (t_pnl t) 0) trades in
      let win_rate := count winning / count trades in
      let gross_profit := Py.sum (map t_pnl winning) in
      let gross_loss := Qabs (Py.sum (map t_pnl losing)) in
      let profit_factor := if Qgt_bool gross_loss 0 then gross_profit / gross_loss else 0 in
      let avg_win := match winning with [] => 0 | _ => gross_profit / count winning end in
      let avg_loss := match losing with [] => 0 | _ => gross_loss / count losing end in
      let max_drawdown := _calculate_max_drawdown (map equity equity_curve) in
      mkMetrics total_return win_rate profit_factor max_drawdown avg_win avg_loss
                (Z.of_nat (length trades))
                (Some (Z.of_nat (length winning))) (Some (Z.of_nat (length losing)))
  end.

Definition initial_state (self : t) : State :=
  mkState (initial_capital self) [] [] [] 0.

(** The state after the iterations for the bar indices [100 .. i]. *)
Definition state_after (clock : Clock) (self : t) (symbol : string) (df : DataFrame)
           (i : Z) : option State :=
  loop clock self symbol df (range 100 (i + 1)) (initial_state self).

(** [run_backtest]. *)
Definition run_backtest (clock : Clock) (self : t)
           (symbol start_date end_date interval : string) : Outcome :=
  let df := get_historical_data (data_handler self) symbol start_date end_date interval in
  if empty df then Error "No data available"
  else
    match loop clock self symbol df (range 100 (len df)) (initial_state self) with
    | None => Raised
    | Some st =>
        let st := close_remaining self df st in
        Completed (mkResult symbol start_date end_date (initial_capital self)
                     (capital st) (trades st) (equity_curve st))
    end.

End Backtester.

(** ** [performance_reporter.py] *)

Module PerformanceReporter.

Import Py.

(** The loop variables of [_calculate_streaks]. *)
Record Streaks := mkStreaks {
  win_streak : nat;
  loss_streak : nat;
  current_win : nat;
  current_loss : nat
}.

Definition streak_step (st : Streaks) (pnl : Q) : Streaks :=
  if Qgt_bool pnl 0 then
    mkStreaks (Nat.max (win_streak st) (S (current_win st))) (loss_streak st)
              (S (current_win st)) 0
  else if Qlt_bool pnl 0 then
    mkStreaks (win_streak st) (Nat.max (loss_streak st) (S (current_loss st)))
              0 (S (current_loss st))
  else st.

(** [_calculate_streaks]: the longest winning and losing runs. *)
Definition _calculate_streaks (pnl_series : list Q) : nat * nat :=
  let st := fold_left streak_step pnl_series (mkStreaks 0 0 0 0) in
  (win_streak st, loss_streak st).

End PerformanceReporter.

(** ** Specification-side definitions *)

Module Spec.

Import RiskManager.

(** The checks of [validateTrade] as the specification lists them: each
    is a failure test with its rejection reason; the first failing check
    decides, and a trade that fails none is validated. *)
Definition first_failure (checks : list (bool * Reason)) : bool * Reason :=
  match find fst checks with
  | Some (_, reason) => (false, reason)
  | None => (true, TradeValidated)
  end.

Definition checks (self : RiskManager.t) (signal : SignalDict) (capital : Q)
           (open_positions : list Position) (position_size : Z) : list (bool * Reason) :=
  let entry := get (price signal) 0 in
  let stop := get (sd_stop_loss signal) 0 in
  let target := get (sd_take_profit signal) 0 in
  let ratio := Qabs (target - entry) / Qabs (entry - stop) in
  [ ((max_positions (config self) <=? Z.of_nat (length open_positions))%Z,
     MaxPositionsReached);
    ((position_size <=? 0)%Z, InsufficientCapital);
    (Py.Qgt_bool (_calculate_portfolio_risk open_positions capital
                  + risk_per_trade (config self))
                 (max_portfolio_risk (config self)),
     ExceedsPortfolioRisk);
    (Py.Qlt_bool ratio (take_profit_ratio (config self)),
     RiskRewardBelow ratio (take_profit_ratio (config self))) ].

(** The position size is non-increasing in the price risk
    [|entry_price - stop_loss|], everything else fixed. *)
Definition antitone_in_price_risk (self : RiskManager.t) : Prop :=
  forall capital entry stop1 stop2 size1 size2,
    Qabs (entry - stop1) <= Qabs (entry - stop2) ->
    calculate_position_size self capital entry stop1 None = Some size1 ->
    calculate_position_size self capital entry stop2 None = Some size2 ->
    (size2 <= size1)%Z.

End Spec.

(** ** Example markets *)

Module Scenario.

(** A bar whose four prices are [p], with volume 1000, at index [i]. *)
Definition tick (i p : Z) : Bar :=
  mkBar i (inject_Z p) (inject_Z p) (inject_Z p) (inject_Z p) 1000.

Definition number (start : Z) (prices : list Z) : list Bar :=
  map (fun '(k, p) => tick (start + Z.of_nat k) p) (combine (seq 0 (length prices)) prices).

(** [n] bars at the price 100. *)
Definition flat_frame (n : Z) : DataFrame :=
  mkDF (map (fun i => tick i 100) (Py.range 0 n)) true.

(** A zigzag with rising peaks (106, 107) and rising troughs (101, 102). *)
Definition zigzag : list Z :=
  [101; 102; 103; 104; 105; 106; 105; 104; 103; 102; 101; 102; 103; 104;
   105; 106; 107; 106; 105; 104; 103; 102; 103; 104; 105; 106; 107; 108]%Z.

(** The bar at [at_index] becomes a rising candle (open 102, close 103) on
    a volume of 5000; it sits in a falling leg between a low of 104 and a
    high of 102. *)
Definition surge (at_index : Z) (b : Bar) : Bar :=
  if (timestamp b =? at_index)%Z
  then mkBar at_index 102 (High b) 102 (Close b) 5000
  else b.

(** 28 bars: the zigzag with the surge candle at index 8. *)
Definition uptrend_gap : DataFrame :=
  mkDF (map (surge 8) (number 0 zigzag)) true.

(** 129 bars: 101 bars at 100, then the zigzag with its surge candle. *)
Definition calm_then_gap : DataFrame :=
  mkDF (rows (flat_frame 101) ++ map (surge 109) (number 101 zigzag)) true.

(** 129 bars at 100. *)
Definition calm : DataFrame := flat_frame 129.

(** A provider that answers every query for the symbol with [df]. *)
Definition provider (df : DataFrame) : DataHandler :=
  mkDataHandler (fun _ _ => df) (fun _ _ _ _ => df).

Definition backtester (df : DataFrame) : Backtester.t :=
  Backtester.mkBacktester 10000 2 (1 # 1000) (provider df).

Definition midnight : Clock := fun _ => "2024-01-01T00:00:00"%string.

(** An accepted pattern: a bullish gap of strength 0.5 in an uptrend. *)
Definition bullish_gap : Pattern :=
  mkPattern "Fair Value Gap" "BULLISH" 1 110 100 (Some (1 # 10)) 100
            (10989 # 100) 132 (Some (1 # 2)) false None.

Definition uptrend : ICTTradingAgent.MarketStructure :=
  ICTTradingAgent.MSAnalysis "NQ=F" "UPTREND" (ICTTradingAgent.mkSwings [] []) [] []
                             "2024-01-01T00:00:00".

(** A risk manager with the default configuration and three registered
    positions. *)
Definition held : RiskManager.Position :=
  RiskManager.mkPosition "SYM1" "LONG" 100 10 95 110 "2023-01-01".
Definition full_manager : RiskManager.t :=
  RiskManager.mkRiskManager RiskManager.default_config [held; held; held].
Definition fresh_manager : RiskManager.t :=
  RiskManager.mkRiskManager RiskManager.default_config [].
Definition long_signal : RiskManager.SignalDict :=
  RiskManager.mkSignalDict (Some 100) (Some 95) (Some 110).

(** Three bars around a falling gap: the low of the first is 110, the
    second closes above its open, the high of the third is 100. *)
Definition three_bars : DataFrame :=
  mkDF [mkBar 0 112 115 110 111 1000; mkBar 1 104 109 103 108 1000;
        mkBar 2 99 100 95 96 1000] true.

(** Fifty bars at 100, and the first pool the detector finds there. *)
Definition fifty_flat : DataFrame := flat_frame 50.
Definition full_pool : LiquidityPool :=
  mkPool "Liquidity Pool" "RESISTANCE" 100 20 41 (40 # 10) "BEARISH".

(** The strongest signal of [uptrend_gap]. *)
Definition first_signal : ICTTradingAgent.Signal :=
  hd (ICTTradingAgent.mkSignal "" "" 0 0 0 0 "" "")
     (fst (ICTTradingAgent.generate_signals midnight (provider uptrend_gap)
             default_config "NQ=F" 0%nat)).

(** A signal to open ten units at 100, on a backtester whose provider
    serves three flat bars. *)
Definition opening_signal : ICTTradingAgent.Signal :=
  ICTTradingAgent.mkSignal "FVG_ENTRY" "BULLISH" 100 (10989 # 100) 132 (7 # 10)
                           "2024-01-01T00:00:00" "Fair Value Gap".
Definition small_backtester : Backtester.t := backtester (flat_frame 3).

(** The position that the backtest of [calm_then_gap] opens at index 100:
    its prices come from the bars 108 and 110. *)
Definition opened_at_100 : Backtester.Position :=
  Backtester.mkPosition 100 (102102 # 1000) "BULLISH" 29 (103896 # 1000) (11024 # 102)
                        "Fair Value Gap".

(** The backtest of [calm_then_gap] against a provider that serves the 
    same frame. *)
Definition replay : Backtester.Outcome :=
  Backtester.run_backtest midnight (backtester calm_then_gap) "NQ=F" "2024-01-01"
                          "2024-04-10" "1h".

End Scenario.

(** ** A signal without its wall-clock stamp *)

Definition unstamped (s : ICTTradingAgent.Signal) : ICTTradingAgent.Signal :=
  ICTTradingAgent.mkSignal
    (ICTTradingAgent.s_type s) (ICTTradingAgent.s_direction s) (ICTTradingAgent.s_price s)
    (ICTTradingAgent.s_stop_loss s) (ICTTradingAgent.s_take_profit s)
    (ICTTradingAgent.s_strength s) "" (ICTTradingAgent.s_pattern s).

(** ** Further predicates and measures *)

(** Highs are positive. *)
Definition positive_highs (df : DataFrame) : Prop :=
  Forall (fun b => 0 < High b) (rows df).

(** Lows are positive and no low is above its high. *)
Definition sound_bars (df : DataFrame) : Prop :=
  Forall (fun b => 0 < Low b /\ Low b <= High b) (rows df).

(** Reward and risk of a pattern, as [validate_trade] measures them on a
    signal. *)
Definition reward (p : Pattern) : Q := Qabs (p_take_profit p - p_entry_price p).
Definition risk (p : Pattern) : Q := Qabs (p_entry_price p - p_stop_loss p).

(** The keys that [validate_trade] reads, on the signal that
    [generate_signals] builds from a pattern. *)
Definition pattern_signal (p : Pattern) : RiskManager.SignalDict :=
  RiskManager.mkSignalDict (Some (p_entry_price p)) (Some (p_stop_loss p))
                           (Some (p_take_profit p)).

(** The string has ASCII characters only. *)
Definition ascii_only (s : string) : bool :=
  forallb (fun c => Nat.ltb (nat_of_ascii c) 128) (list_ascii_of_string s).

(** [a] is at least as strong as [b]. *)
Definition stronger (a b : ICTTradingAgent.Signal) : Prop :=
  ICTTradingAgent.s_strength b <= ICTTradingAgent.s_strength a.

(** The position that [open_position] appends for a signal. *)
Definition position_of (self : Backtester.t) (date : Z) (s : ICTTradingAgent.Signal)
           (size : Z) : Backtester.Position :=
  Backtester.mkPosition date (ICTTradingAgent.s_price s * (1 + Backtester.slippage self))
                        (ICTTradingAgent.s_direction s) size (ICTTradingAgent.s_stop_loss s)
                        (ICTTradingAgent.s_take_profit s) (ICTTradingAgent.s_pattern s).

(** A position that is not "LONG" and whose stop is not above its target. *)
Definition closes_at_once (p : Backtester.Position) : Prop :=
  String.eqb (Backtester.direction p) "LONG" = false
  /\ Backtester.stop_loss p <= Backtester.take_profit p.

(** The fractional decline from [peak] to [value]. *)
Definition decline (peak value : Q) : Q := (peak - value) / peak.

(** ** Further example inputs *)

Module Cases.

(** Three bars around a rising gap: the high of the first is 100, the
    second closes below its open, the low of the third is 110. *)
Definition rising_bars : DataFrame :=
  mkDF [mkBar 0 97 100 95 99 1000; mkBar 1 108 109 103 104 1000;
        mkBar 2 111 115 110 112 1000] true.

Definition no_pattern : Pattern :=
  mkPattern "" "" 0 0 0 None 0 0 0 None false None.

(** The gap of [three_bars], the gap of [rising_bars] and the first order
    block of [uptrend_gap]. *)
Definition falling_gap : Pattern :=
  hd no_pattern (PatternDetector.detect_fair_value_gaps default_config Scenario.three_bars).
Definition rising_gap : Pattern :=
  hd no_pattern (PatternDetector.detect_fair_value_gaps default_config rising_bars).
Definition first_block : Pattern :=
  hd no_pattern (PatternDetector.detect_order_blocks default_config Scenario.uptrend_gap).

(** The first and the last swing high of [uptrend_gap]. *)
Definition swing_highs : list ICTTradingAgent.SwingPoint :=
  ICTTradingAgent.highs (ICTTradingAgent._identify_swing_points Scenario.uptrend_gap 5).
Definition no_swing : ICTTradingAgent.SwingPoint := ICTTradingAgent.mkSwing 0 0 0.
Definition first_high : ICTTradingAgent.SwingPoint := hd no_swing swing_highs.
Definition last_high : ICTTradingAgent.SwingPoint := last swing_highs no_swing.

(** A state that holds the position opened at index 100 of the replay. *)
Definition holding : Backtester.State :=
  Backtester.mkState 7000 [Scenario.opened_at_100] [] [] 0.

(** The state of the replay after index 105, and its result. *)
Definition state_105 : Backtester.State :=
  match Backtester.state_after Scenario.midnight
          (Scenario.backtester Scenario.calm_then_gap) "NQ=F" Scenario.calm_then_gap 105 with
  | Some st => st
  | None => holding
  end.
Definition replay_result : Backtester.Result :=
  match Scenario.replay with
  | Backtester.Completed result => result
  | _ => Backtester.mkResult "" "" "" 0 0 [] []
  end.

(** A provider whose live look-back query answers [lookback] and whose
    date-range query answers [bars]; the backtest of the flat frame
    [calm] against such a provider; and its results when the look-back
    query answers [calm] and when it answers [calm_then_gap]. *)
Definition live_provider (lookback bars : DataFrame) : DataHandler :=
  mkDataHandler (fun _ _ => lookback) (fun _ _ _ _ => bars).
Definition run_on_calm (lookback : DataFrame) : Backtester.Outcome :=
  Backtester.run_backtest Scenario.midnight
    (Backtester.mkBacktester 10000 2 (1 # 1000) (live_provider lookback Scenario.calm))
    "NQ=F" "2024-01-01" "2024-04-10" "1h".
Definition result_of (o : Backtester.Outcome) : Backtester.Result :=
  match o with
  | Backtester.Completed result => result
  | _ => Backtester.mkResult "" "" "" 0 0 [] []
  end.
Definition quiet_result : Backtester.Result := result_of (run_on_calm Scenario.calm).
Definition busy_result : Backtester.Result :=
  result_of (run_on_calm Scenario.calm_then_gap).

(** An equity curve that peaks at 11000 and then falls to 9000. *)
Definition equity_example : list Q := [10000; 11000; 9000; 9500].

End Cases.

(** * Properties *)

(** ** Comparisons and truncation *)

Lemma Qlt_bool_iff (x y : Q) : Py.Qlt_bool x y = true <-> x < y.
Proof.
  unfold Py.Qlt_bool. rewrite Qlt_alt. destruct (x ?= y); split; congruence.
Qed.

Lemma Qgt_bool_iff (x y : Q) : Py.Qgt_bool x y = true <-> y < x.
Proof. apply Qlt_bool_iff. Qed.

Lemma Qge_bool_iff (x y : Q) : Py.Qge_bool x y = true <-> y <= x.
Proof. apply Qle_bool_iff. Qed.

Lemma Qle_bool_false (x y : Q) : Qle_bool x y = false <-> y < x.
Proof.
  rewrite <- not_true_iff_false, Qle_bool_iff.
  split; [apply Qnot_le_lt | apply Qlt_not_le].
Qed.

Lemma Qlt_bool_false (x y : Q) : Py.Qlt_bool x y = false <-> y <= x.
Proof.
  rewrite <- not_true_iff_false, Qlt_bool_iff.
  split; [apply Qnot_lt_le | apply Qle_not_lt].
Qed.

Lemma Qeq_bool_false_iff (x y : Q) : Qeq_bool x y = false <-> ~ x == y.
Proof. rewrite <- not_true_iff_false, Qeq_bool_iff. reflexivity. Qed.

Lemma int_inject_Z (z : Z) : Py.int (inject_Z z) = z.
Proof. unfold Py.int; simpl. apply Z.quot_1_r. Qed.

(** Truncation toward zero is monotone: both quotients are taken over the
    common denominator. *)
Lemma int_mono (x y : Q) : x <= y -> (Py.int x <= Py.int y)%Z.
Proof.
  unfold Qle, Py.int. destruct x as [p d], y as [p' d']; simpl. intros H.
  rewrite <- (Z.quot_mul_cancel_r p (Zpos d) (Zpos d')) by lia.
  rewrite <- (Z.quot_mul_cancel_r p' (Zpos d') (Zpos d)) by lia.
  rewrite (Z.mul_comm (Zpos d') (Zpos d)).
  apply Z.quot_le_mono; lia.
Qed.

Lemma Qdiv_le_mono_num (x y z : Q) : 0 < z -> x <= y -> x / z <= y / z.
Proof.
  intros Hz H. unfold Qdiv. apply Qmult_le_compat_r; [assumption|].
  apply Qinv_le_0_compat, Qlt_le_weak, Hz.
Qed.

Lemma Qdiv_le_anti_den (x y z : Q) : 0 <= x -> 0 < y -> y <= z -> x / z <= x / y.
Proof.
  intros Hx Hy H.
  assert (Hz : 0 < z) by (eapply Qlt_le_trans; eassumption).
  apply Qle_shift_div_l; [assumption|].
  assert (E : x / z * y == x * (y / z))
    by (field; intros E; rewrite E in Hz; discriminate).
  rewrite E. rewrite <- (Qmult_1_r x) at 2.
  destruct (Qle_lt_or_eq _ _ Hx) as [Hp | Hq].
  - apply Qmult_le_l; [assumption|]. apply Qle_shift_div_r; [assumption|].
    rewrite Qmult_1_l. assumption.
  - rewrite <- Hq. rewrite !Qmult_0_l. apply Qle_refl.
Qed.

Lemma fold_Qplus_shift (l : list Q) (a : Q) :
  fold_left Qplus l a == a + fold_left Qplus l 0.
Proof.
  revert a. induction l as [|x r IH]; intros a; simpl.
  - ring.
  - rewrite (IH (a + x)), (IH (0 + x)). ring.
Qed.

Lemma sum_cons (x : Q) (l : list Q) : Py.sum (x :: l) == x + Py.sum l.
Proof. unfold Py.sum. simpl. rewrite fold_Qplus_shift. ring. Qed.

Lemma sum_app (l r : list Q) : Py.sum (l ++ r) == Py.sum l + Py.sum r.
Proof. unfold Py.sum. rewrite fold_left_app, fold_Qplus_shift. reflexivity. Qed.

Lemma in_range (a b j : Z) : In j (Py.range a b) <-> (a <= j < b)%Z.
Proof.
  unfold Py.range. rewrite in_map_iff. split.
  - intros (k & <- & Hk). apply in_seq in Hk. lia.
  - intros H. exists (Z.to_nat (j - a)). split; [lia|]. apply in_seq. lia.
Qed.

Lemma slice_first {A : Type} (l : list A) :
  Py.slice l 0 1 = match l with [] => [] | x :: _ => [x] end.
Proof.
  unfold Py.slice, Py.bound.
  change (0 <? 0)%Z with false. change (1 <? 0)%Z with false. cbv iota.
  destruct l as [|x r]; [reflexivity|].
  assert (H : (1 <= Z.of_nat (length (x :: r)))%Z) by (simpl length; lia).
  rewrite (Z.min_l 0) by lia. rewrite (Z.min_l 1) by exact H.
  reflexivity.
Qed.

(** ** Risk manager: position size *)

Section PositionSize.

Import RiskManager.

Variable self : RiskManager.t.

(** The size at equal entry and stop prices. *)
Lemma size_at_zero_risk (capital x : Q) (arg : option Q) :
  calculate_position_size self capital x x arg = Some 0%Z.
Proof.
  unfold calculate_position_size.
  assert (E : Qle_bool (Qabs (x - x)) 0 = true).
  { apply Qle_bool_iff. assert (E0 : x - x == 0) by ring. rewrite E0. discriminate. }
  rewrite E. reflexivity.
Qed.

(** With a positive price risk and a positive entry price, the size is
    the least of three truncated bounds: risk budget over price risk,
    size cap over entry price, capital over entry price. *)
Lemma size_is_least_bound (capital entry stop : Q) (arg : option Q) :
  0 < entry -> 0 < Qabs (entry - stop) ->
  calculate_position_size self capital entry stop arg =
  Some (Z.min (Z.min (Py.int (capital * Py.or_float arg (risk_per_trade (config self))
                              / Qabs (entry - stop)))
                     (Py.int (capital * max_position_size (config self) / entry)))
              (Py.int (capital / entry))).
Proof.
  intros He Hr. unfold calculate_position_size.
  apply Qle_bool_false in Hr. rewrite Hr.
  assert (E0 : Qeq_bool entry 0 = false).
  { apply Qeq_bool_false_iff. intros E. rewrite E in He. discriminate. }
  rewrite E0.
  set (s := Z.min _ _).
  destruct (Py.Qgt_bool (inject_Z s * entry) capital) eqn:Hc.
  - apply Qgt_bool_iff in Hc. f_equal. symmetry. apply Z.min_r.
    rewrite <- (int_inject_Z s). apply int_mono, Qlt_le_weak.
    apply Qlt_shift_div_r; assumption.
  - apply Qlt_bool_false in Hc. f_equal. symmetry. apply Z.min_l.
    rewrite <- (int_inject_Z s) at 1. apply int_mono.
    apply Qle_shift_div_l; assumption.
Qed.

Lemma positive_size_positive_risk (capital entry stop : Q) (arg : option Q) (size : Z) :
  calculate_position_size self capital entry stop arg = Some size ->
  (0 < size)%Z -> Py.Qgt_bool (Qabs (entry - stop)) 0 = true.
Proof.
  unfold calculate_position_size. intros H Hs.
  destruct (Qle_bool (Qabs (entry - stop)) 0) eqn:E.
  - injection H as <-. lia.
  - apply Qgt_bool_iff. apply Qle_bool_false. exact E.
Qed.

End PositionSize.

(** The sizing examples of the unit tests and of the specification:
    a 5-point stop on 10000 gives the 30 units of the size cap, and so
    does the stop at 99.999 with a risk of 0.02. *)
Example position_size_examples :
  RiskManager.calculate_position_size Scenario.fresh_manager 10000 100 95 None = Some 30%Z
  /\ RiskManager.calculate_position_size Scenario.fresh_manager 10000 100 (99999 # 1000)
       (Some (2 # 100)) = Some 30%Z
  /\ RiskManager.calculate_position_size Scenario.fresh_manager 10000 100 100 None
     = Some 0%Z
  /\ RiskManager.calculate_position_size Scenario.fresh_manager 10000 0 95 None = None.
Proof. repeat split. Qed.

(** C7, as the specification states it, fails: the size is not
    non-increasing in [|entry_price - stop_loss|] over all price risks.  With
    capital 10000 and entry 100, the stop 100 (price risk 0) gives 0 units
    and the stop 95 (price risk 5) gives 30 units. *)
Lemma position_size_rises_from_zero_risk :
  ~ Spec.antitone_in_price_risk Scenario.fresh_manager.
Proof.
  intros H.
  specialize (H 10000 100 100 95 0%Z 30%Z).
  assert (C : (30 <= 0)%Z).
  { apply H; [vm_compute; discriminate | reflexivity | reflexivity]. }
  lia.
Qed.

(** C7, amended.  For a non-negative risk fraction and size cap:
    [calculate_position_size] returns 0 whenever entry and stop are equal,
    for every capital and price; for a positive entry price it returns a
    size that is non-decreasing in the capital; and for a positive entry
    price and a non-negative capital it returns a size that is
    non-increasing in [|entry_price - stop_loss|] over the strictly positive
    price risks. *)
Theorem position_size_monotone (self : RiskManager.t) (arg : option Q) :
  0 <= Py.or_float arg (RiskManager.risk_per_trade (RiskManager.config self)) ->
  0 <= RiskManager.max_position_size (RiskManager.config self) ->
  (forall capital x,
      RiskManager.calculate_position_size self capital x x arg = Some 0%Z)
  /\ (forall capital1 capital2 entry stop,
         0 < entry -> capital1 <= capital2 ->
         exists size1 size2,
           RiskManager.calculate_position_size self capital1 entry stop arg = Some size1
           /\ RiskManager.calculate_position_size self capital2 entry stop arg = Some size2
           /\ (size1 <= size2)%Z)
  /\ (forall capital entry stop1 stop2,
         0 < entry -> 0 <= capital ->
         0 < Qabs (entry - stop1) -> Qabs (entry - stop1) <= Qabs (entry - stop2) ->
         exists size1 size2,
           RiskManager.calculate_position_size self capital entry stop1 arg = Some size1
           /\ RiskManager.calculate_position_size self capital entry stop2 arg = Some size2
           /\ (size2 <= size1)%Z).
Proof.
  intros Hr Hm. split; [|split].
  - intros. apply size_at_zero_risk.
  - intros c1 c2 e s He Hc.
    destruct (Qlt_le_dec 0 (Qabs (e - s))) as [Hp | Hz].
    + rewrite !size_is_least_bound by assumption.
      do 2 eexists. split; [reflexivity | split; [reflexivity|]].
      repeat apply Z.min_le_compat; apply int_mono.
      * apply Qdiv_le_mono_num; [assumption|]. apply Qmult_le_compat_r; assumption.
      * apply Qdiv_le_mono_num; [assumption|]. apply Qmult_le_compat_r; assumption.
      * apply Qdiv_le_mono_num; assumption.
    + exists 0%Z, 0%Z. unfold RiskManager.calculate_position_size.
      apply Qle_bool_iff in Hz. rewrite Hz. repeat split. lia.
  - intros c e s1 s2 He Hc Hp Hle.
    assert (Hp2 : 0 < Qabs (e - s2)) by (eapply Qlt_le_trans; eassumption).
    rewrite !size_is_least_bound by assumption.
    do 2 eexists. split; [reflexivity | split; [reflexivity|]].
    apply Z.min_le_compat; [|lia]. apply Z.min_le_compat; [|lia].
    apply int_mono, Qdiv_le_anti_den; try assumption.
    apply Qmult_le_0_compat; assumption.
Qed.

Lemma position_size_monotone_witness :
  exists size1 size2,
    RiskManager.calculate_position_size Scenario.fresh_manager 10000 100 95 None
    = Some size1
    /\ RiskManager.calculate_position_size Scenario.fresh_manager 10000 100 90 None
       = Some size2
    /\ (size2 <= size1)%Z.
Proof.
  apply (proj2 (proj2 (position_size_monotone Scenario.fresh_manager None
                         ltac:(vm_compute; discriminate)
                         ltac:(vm_compute; discriminate)))).
  all: vm_compute; congruence.
Defined.

(** ** Risk manager: trade validation *)

(** C8.  [validate_trade] returns the reason of the first failing check, in
    the order max-positions, position size, portfolio risk, risk/reward:
    a full position list rejects with the positions-exceeded reason whatever
    the other checks would say (and before the sizing is computed); when
    the sizing returns a size, the result is the first failure of the
    specification's ordered list of checks, or the validation when none
    fails; and with three positions passed and [max_positions = 3] the
    result is the positions-exceeded rejection for every signal and
    capital. *)
Theorem validate_trade_first_failure (self : RiskManager.t) :
  (forall signal capital current_positions,
      (RiskManager.max_positions (RiskManager.config self)
       <= Z.of_nat (length (Py.or_list current_positions (RiskManager.positions self))))%Z ->
      RiskManager.validate_trade self signal capital current_positions
      = Some (false, RiskManager.MaxPositionsReached))
  /\ (forall signal capital current_positions size,
         RiskManager.calculate_position_size self capital
           (get (RiskManager.price signal) 0) (get (RiskManager.sd_stop_loss signal) 0) None
         = Some size ->
         RiskManager.validate_trade self signal capital current_positions
         = Some (Spec.first_failure
                   (Spec.checks self signal capital
                      (Py.or_list current_positions (RiskManager.positions self)) size)))
  /\ (forall signal capital p1 p2 p3,
         RiskManager.max_positions (RiskManager.config self) = 3%Z ->
         RiskManager.validate_trade self signal capital (Some [p1; p2; p3])
         = Some (false, RiskManager.MaxPositionsReached)).
Proof.
  assert (First : forall signal capital current_positions,
      (RiskManager.max_positions (RiskManager.config self)
       <= Z.of_nat (length (Py.or_list current_positions (RiskManager.positions self))))%Z ->
      RiskManager.validate_trade self signal capital current_positions
      = Some (false, RiskManager.MaxPositionsReached)).
  { intros signal capital cp H. unfold RiskManager.validate_trade.
    apply Z.leb_le in H. rewrite H. reflexivity. }
  split; [exact First | split].
  - intros signal capital cp size Hsize.
    unfold RiskManager.validate_trade, Spec.first_failure, Spec.checks. cbn [find fst].
    destruct (RiskManager.max_positions (RiskManager.config self) <=? _)%Z; [reflexivity|].
    rewrite Hsize.
    destruct (size <=? 0)%Z eqn:Hs; [reflexivity|].
    destruct (Py.Qgt_bool (_ + _) _); [reflexivity|].
    rewrite (positive_size_positive_risk _ _ _ _ _ _ Hsize)
      by (apply Z.leb_gt in Hs; lia).
    destruct (Py.Qlt_bool _ _); reflexivity.
  - intros signal capital p1 p2 p3 H3. apply First. rewrite H3. simpl. lia.
Qed.

Lemma validate_trade_first_failure_witness :
  RiskManager.validate_trade Scenario.full_manager Scenario.long_signal 10000
    (Some [Scenario.held; Scenario.held; Scenario.held])
  = Some (false, RiskManager.MaxPositionsReached).
Proof.
  apply (proj2 (proj2 (validate_trade_first_failure Scenario.full_manager))).
  reflexivity.
Defined.

(** The example of the unit tests: a 1:2 trade on an empty portfolio is
    validated, a 1:0.4 trade is rejected on its risk/reward ratio. *)
Example validate_trade_examples :
  RiskManager.validate_trade Scenario.fresh_manager Scenario.long_signal 10000 (Some [])
  = Some (true, RiskManager.TradeValidated)
  /\ fst (Spec.first_failure
            (Spec.checks Scenario.fresh_manager
               (RiskManager.mkSignalDict (Some 100) (Some 95) (Some 102)) 10000 [] 30))
     = false.
Proof. split; reflexivity. Qed.

(** C9.  An explicitly empty [current_positions] is not an empty
    portfolio: it is replaced by the registry [self.positions], exactly as
    an omitted argument is, so the checks run against the registry; when
    the registry holds [max_positions] positions or more, the call with
    [[]] rejects with the positions-exceeded reason. *)
Theorem empty_list_uses_registry (self : RiskManager.t) (signal : RiskManager.SignalDict)
        (capital : Q) :
  RiskManager.validate_trade self signal capital (Some [])
  = RiskManager.validate_trade self signal capital None
  /\ RiskManager.validate_trade self signal capital (Some [])
     = RiskManager.validate_trade self signal capital (Some (RiskManager.positions self))
  /\ ((RiskManager.max_positions (RiskManager.config self)
       <= Z.of_nat (length (RiskManager.positions self)))%Z ->
      RiskManager.validate_trade self signal capital (Some [])
      = Some (false, RiskManager.MaxPositionsReached)).
Proof.
  split; [reflexivity | split].
  - unfold RiskManager.validate_trade. destruct (RiskManager.positions self); reflexivity.
  - intros H. unfold RiskManager.validate_trade. cbn [Py.or_list].
    apply Z.leb_le in H. rewrite H. reflexivity.
Qed.

Lemma empty_list_uses_registry_witness :
  RiskManager.validate_trade Scenario.full_manager Scenario.long_signal 10000 (Some [])
  = Some (false, RiskManager.MaxPositionsReached).
Proof.
  apply (proj2 (proj2 (empty_list_uses_registry Scenario.full_manager
                         Scenario.long_signal 10000))).
  vm_compute. discriminate.
Defined.

(** ** Pattern detector: fair value gaps *)

Section GapDetection.

Import PatternDetector.

Variable cfg : Config.
Variable df : DataFrame.

Lemma in_opt_list {A : Type} (o : option A) (x : A) : In x (opt_list o) <-> o = Some x.
Proof. destruct o; simpl; intuition congruence. Qed.

(** The detector's output is what the loop body emits over the interior
    indices. *)
Lemma in_detect_fair_value_gaps (p : Pattern) :
  In p (detect_fair_value_gaps cfg df)
  <-> exists j, (1 <= j <= len df - 2)%Z /\ fvg_step cfg df j = Some p.
Proof.
  unfold detect_fair_value_gaps. destruct (len df <? 3)%Z eqn:E.
  - apply Z.ltb_lt in E. split; [intros [] | intros (j & H & _); lia].
  - rewrite in_flat_map. split.
    + intros (j & Hj & Hp). apply in_range in Hj. apply in_opt_list in Hp.
      exists j. split; [lia | assumption].
    + intros (j & Hj & Hp). exists j.
      split; [apply in_range; lia | apply in_opt_list, Hp].
Qed.

(** Case analysis of a loop body that returned a pattern. *)
Ltac emitted H :=
  repeat match type of H with
         | (if ?c then _ else _) = _ => destruct c
         end;
  try discriminate; injection H as <-.

Lemma fvg_step_timestamp (j : Z) (p : Pattern) :
  fvg_step cfg df j = Some p -> p_timestamp p = timestamp (iloc df j).
Proof. unfold fvg_step. intros H. emitted H; reflexivity. Qed.

Lemma timestamp_injective (i j : Z) :
  NoDup (map timestamp (rows df)) ->
  (0 <= i < len df)%Z -> (0 <= j < len df)%Z ->
  timestamp (iloc df i) = timestamp (iloc df j) -> i = j.
Proof.
  unfold iloc, Py.item, len. intros ND Hi Hj E.
  assert (T : forall k, timestamp (nth k (rows df) nobar)
                        = nth k (map timestamp (rows df)) 0%Z).
  { intros k. symmetry. apply (map_nth timestamp (rows df) nobar k). }
  rewrite !T in E.
  apply (proj1 (NoDup_nth (map timestamp (rows df)) 0%Z) ND) in E;
    rewrite ?length_map; lia.
Qed.

(** The loop body at [i] emits a bullish pattern exactly under the three
    conditions, and then with the next bar's high as entry price. *)
Lemma fvg_step_bullish (i : Z) :
  let prev := iloc df (i - 1) in
  let mid := iloc df i in
  let next := iloc df (i + 1) in
  ((exists p, fvg_step cfg df i = Some p /\ p_direction p = "BULLISH"%string)
   <-> (High next < Low prev /\ Open mid < Close mid
        /\ get (fvg_min_size cfg) (1 # 1000) <= (Low prev - High next) / High next))
  /\ (forall p, fvg_step cfg df i = Some p -> p_direction p = "BULLISH"%string ->
                p_entry_price p = High next /\ p_timestamp p = timestamp mid).
Proof.
  intros prev mid next. unfold fvg_step. fold prev mid next.
  destruct (Py.Qgt_bool (Low prev) (High next)) eqn:G; simpl.
  - apply Qgt_bool_iff in G.
    destruct (Py.Qgt_bool (Close mid) (Open mid)) eqn:B; simpl.
    + apply Qgt_bool_iff in B.
      destruct (Py.Qge_bool _ _) eqn:S.
      * apply Qge_bool_iff in S. split.
        -- split; [tauto|]. intros _. eexists. split; reflexivity.
        -- intros p [= <-] _. split; reflexivity.
      * split.
        -- split; [intros (p & H & _); discriminate|].
           intros (_ & _ & H). apply Qge_bool_iff in H. congruence.
        -- intros p H; discriminate.
    + apply Qlt_bool_false in B. split.
      * split.
        -- intros (p & H & D). exfalso. emitted H. discriminate.
        -- intros (_ & H & _). exfalso. apply (Qlt_not_le _ _ H B).
      * intros p H D. exfalso. emitted H. discriminate.
  - apply Qlt_bool_false in G. split.
    + split.
      * intros (p & H & D). exfalso. emitted H. discriminate.
      * intros (H & _). exfalso. apply (Qlt_not_le _ _ H G).
    + intros p H D. exfalso. emitted H. discriminate.
Qed.

End GapDetection.

(** C6.  On a frame with pairwise distinct timestamps, at an interior index
    [i] (1 <= i <= n-2) whose next bar has a non-zero high,
    [detect_fair_value_gaps] emits a bullish pattern anchored at bar [i] if
    and only if bar[i-1].low > bar[i+1].high, the middle bar's close exceeds
    its open, and (bar[i-1].low - bar[i+1].high) / bar[i+1].high is at least
    the configured minimum; the entry price of such a pattern is
    bar[i+1].high.  The division of the model is total; the hypothesis on
    the high keeps the statement where it agrees with the source's. *)
Theorem bullish_gap_iff (cfg : Config) (df : DataFrame) (i : Z) :
  NoDup (map timestamp (rows df)) ->
  (1 <= i <= len df - 2)%Z ->
  ~ High (iloc df (i + 1)) == 0 ->
  let prev := iloc df (i - 1) in
  let mid := iloc df i in
  let next := iloc df (i + 1) in
  ((exists p, In p (PatternDetector.detect_fair_value_gaps cfg df)
              /\ p_direction p = "BULLISH"%string /\ p_timestamp p = timestamp mid)
   <-> (High next < Low prev /\ Open mid < Close mid
        /\ get (fvg_min_size cfg) (1 # 1000) <= (Low prev - High next) / High next))
  /\ (forall p, In p (PatternDetector.detect_fair_value_gaps cfg df) ->
                p_direction p = "BULLISH"%string -> p_timestamp p = timestamp mid ->
                p_entry_price p = High next).
Proof.
  intros ND Hi _ prev mid next.
  destruct (fvg_step_bullish cfg df i) as [Iff Entry]. fold prev mid next in Iff, Entry.
  assert (Here : forall p, In p (PatternDetector.detect_fair_value_gaps cfg df) ->
                           p_timestamp p = timestamp mid ->
                           PatternDetector.fvg_step cfg df i = Some p).
  { intros p Hin Ht. apply in_detect_fair_value_gaps in Hin. destruct Hin as (j & Hj & Hp).
    pose proof (fvg_step_timestamp _ _ _ _ Hp) as Tj. rewrite Ht in Tj.
    apply timestamp_injective in Tj; [subst j; exact Hp | exact ND | lia | lia]. }
  split.
  - rewrite <- Iff. split.
    + intros (p & Hin & D & T). exists p. split; [apply Here|]; assumption.
    + intros (p & Hp & D). exists p. split; [|split].
      * apply in_detect_fair_value_gaps. exists i. split; assumption.
      * exact D.
      * apply (Entry p Hp D).
  - intros p Hin D T. apply (Entry p (Here p Hin T) D).
Qed.

Lemma bullish_gap_iff_witness :
  exists p, In p (PatternDetector.detect_fair_value_gaps default_config Scenario.three_bars)
            /\ p_direction p = "BULLISH"%string /\ p_timestamp p = 1%Z.
Proof.
  apply (proj1 (bullish_gap_iff default_config Scenario.three_bars 1
                  ltac:(repeat constructor; simpl; intuition discriminate)
                  ltac:(vm_compute; split; discriminate)
                  ltac:(vm_compute; discriminate))).
  vm_compute. repeat split; discriminate.
Defined.

(** The example of the specification: previous low 110, next high 100,
    gap size 0.10, entry 100. *)
Example gap_entry_is_next_high :
  map (fun p => (p_direction p, p_entry_price p, p_gap_size p))
      (PatternDetector.detect_fair_value_gaps default_config Scenario.three_bars)
  = [("BULLISH"%string, High (iloc Scenario.three_bars 2), Some ((110 - 100) / 100))]
  /\ High (iloc Scenario.three_bars 2) == 100
  /\ Low (iloc Scenario.three_bars 0) == 110.
Proof. repeat split. Qed.

(** ** Pattern detector: strength of gaps and order blocks *)

Lemma in_firstn {A : Type} (n : nat) (l : list A) (x : A) : In x (firstn n l) -> In x l.
Proof.
  revert l. induction n as [|n IH]; intros [|y l]; simpl; try tauto.
  intros [-> | H]; [left; reflexivity | right; apply IH, H].
Qed.

Lemma in_skipn {A : Type} (n : nat) (l : list A) (x : A) : In x (skipn n l) -> In x l.
Proof.
  revert l. induction n as [|n IH]; intros [|y l]; simpl; try tauto.
  intros H. right. apply IH, H.
Qed.

Lemma in_slice {A : Type} (l : list A) (a b : Z) (x : A) : In x (Py.slice l a b) -> In x l.
Proof. unfold Py.slice. intros H. eapply in_skipn, in_firstn, H. Qed.

Lemma in_iloc (df : DataFrame) (j : Z) :
  (0 <= j < len df)%Z -> In (iloc df j) (rows df).
Proof. unfold iloc, Py.item, len. intros H. apply nth_In. lia. Qed.

Lemma bonus_nonneg (c : bool) (s b : Q) : 0 <= s -> 0 <= b -> 0 <= (if c then s + b else s).
Proof.
  intros Hs Hb. destruct c; lra.
Qed.

(** The gap strength is capped at 1, and non-negative for a non-negative
    gap size. *)
Lemma fvg_strength_bounds (df : DataFrame) (index : Z) (gap_size : Q) :
  0 <= gap_size ->
  0 <= PatternDetector._calculate_fvg_strength df index gap_size <= 1.
Proof.
  intros Hg. unfold PatternDetector._calculate_fvg_strength. split; [|apply Q.le_min_r].
  apply Q.min_glb; [|discriminate].
  assert (H0 : 0 <= Qmin (gap_size * 100) (1 # 2)).
  { apply Q.min_glb; [|discriminate]. apply Qmult_le_0_compat; [assumption | discriminate]. }
  set (s0 := Qmin (gap_size * 100) (1 # 2)) in *.
  assert (H1 : 0 <= (if (has_volume df && (index <? len df)%Z)%bool
                     then if Py.gt_scaled (Volume (iloc df index))
                               (Py.mean (map Volume (iloc_slice df (index - 10) index)))
                               (3 # 2)
                          then s0 + (1 # 5) else s0
                     else s0)).
  { destruct (_ && _)%bool; [|assumption]. apply bonus_nonneg; [assumption | discriminate]. }
  set (s1 := if (has_volume df && _)%bool then _ else _) in *.
  destruct (3 <=? index)%Z; [|assumption].
  destruct (3 <=? _)%Z; [|assumption].
  apply (bonus_nonneg true); [assumption|].
  apply Qmult_le_0_compat; [apply Qabs_nonneg | discriminate].
Qed.

(** The order-block strength is capped at 1, and non-negative on positive
    closes. *)
Lemma orderblock_strength_bounds (df : DataFrame) (index : Z) :
  positive_prices df ->
  0 <= PatternDetector._calculate_orderblock_strength df index <= 1.
Proof.
  intros Hp. unfold PatternDetector._calculate_orderblock_strength.
  destruct (_ || _)%bool; [split; discriminate|].
  destruct (map Close (iloc_slice df (index - 5) index)) as [|pre0 pre] eqn:Epre;
    [split; discriminate|].
  destruct (map Close (iloc_slice df index (index + 5))) as [|post0 post] eqn:Epost;
    [split; discriminate|].
  split; [|apply Q.le_min_r].
  assert (Hpre : 0 < pre0).
  { assert (I : In pre0 (map Close (iloc_slice df (index - 5) index)))
      by (rewrite Epre; left; reflexivity).
    apply in_map_iff in I. destruct I as (b & <- & Hb).
    apply in_slice in Hb. unfold positive_prices in Hp.
    rewrite Forall_forall in Hp. apply (Hp b Hb). }
  apply Q.min_glb; [|discriminate].
  assert (H0 : 0 <= Qmin (Qabs (last (post0 :: post) 0 - pre0) / pre0 * 10) (8 # 10)).
  { apply Q.min_glb; [|discriminate].
    apply Qmult_le_0_compat; [|discriminate].
    apply Qle_shift_div_l; [assumption|]. rewrite Qmult_0_l. apply Qabs_nonneg. }
  destruct (has_volume df); [|assumption].
  apply bonus_nonneg; [assumption | discriminate].
Qed.

Lemma Qdiv_nonneg (x y : Q) : 0 <= x -> 0 < y -> 0 <= x / y.
Proof.
  intros Hx Hy. apply Qle_shift_div_l; [assumption|]. rewrite Qmult_0_l. assumption.
Qed.

(** Every gap pattern on positive prices has a strength in [0, 1]. *)
Lemma gap_strength_in_unit (cfg : Config) (df : DataFrame) (p : Pattern) :
  positive_prices df ->
  In p (PatternDetector.detect_fair_value_gaps cfg df) ->
  exists s, p_strength p = Some s /\ 0 <= s <= 1.
Proof.
  intros Hp Hin. unfold PatternDetector.detect_fair_value_gaps in Hin.
  destruct (len df <? 3)%Z; [destruct Hin|].
  apply in_flat_map in Hin. destruct Hin as (j & Hj & Hin).
  unfold Py.range in Hj. apply in_map_iff in Hj. destruct Hj as (k & <- & Hk).
  apply in_seq in Hk.
  set (j := (1 + Z.of_nat k)%Z) in *.
  assert (Hprev : 0 < High (iloc df (j - 1)))
    by (unfold positive_prices in Hp; rewrite Forall_forall in Hp;
        apply Hp, in_iloc; lia).
  assert (Hnext : 0 < High (iloc df (j + 1)))
    by (unfold positive_prices in Hp; rewrite Forall_forall in Hp;
        apply Hp, in_iloc; lia).
  destruct (PatternDetector.fvg_step cfg df j) as [q|] eqn:E; [|destruct Hin].
  destruct Hin as [<- | []].
  unfold PatternDetector.fvg_step in E.
  destruct (_ && _)%bool eqn:C1 in E.
  - apply andb_true_iff in C1. destruct C1 as [C1 _].
    destruct (Py.Qge_bool _ _) in E; [|discriminate]. injection E as <-.
    eexists. split; [reflexivity|]. apply fvg_strength_bounds.
    apply Qdiv_nonneg; [|assumption].
    unfold Py.Qgt_bool, Py.Qlt_bool in C1. 
    destruct (High (iloc df (j + 1)) ?= Low (iloc df (j - 1))) eqn:Cmp; try discriminate.
    apply Qlt_alt in Cmp. lra.
  - destruct (_ && _)%bool eqn:C2 in E; [|discriminate].
    apply andb_true_iff in C2. destruct C2 as [C2 _].
    destruct (Py.Qge_bool _ _) in E; [|discriminate]. injection E as <-.
    eexists. split; [reflexivity|]. apply fvg_strength_bounds.
    apply Qdiv_nonneg; [|assumption].
    unfold Py.Qlt_bool in C2.
    destruct (High (iloc df (j - 1)) ?= Low (iloc df (j + 1))) eqn:Cmp; try discriminate.
    apply Qlt_alt in Cmp. lra.
Qed.

Lemma block_strength_in_unit (cfg : Config) (df : DataFrame) (p : Pattern) :
  positive_prices df ->
  In p (PatternDetector.detect_order_blocks cfg df) ->
  exists s, p_strength p = Some s /\ 0 <= s <= 1.
Proof.
  intros Hp Hin. unfold PatternDetector.detect_order_blocks in Hin.
  destruct (len df <? 20)%Z; [destruct Hin|].
  apply in_flat_map in Hin. destruct Hin as (j & _ & Hin).
  destruct (PatternDetector.ob_step cfg df j) as [q|] eqn:E; [|destruct Hin].
  destruct Hin as [<- | []].
  unfold PatternDetector.ob_step in E.
  destruct (PatternDetector._is_strong_bullish_move _ _ _); [|destruct (PatternDetector._is_strong_bearish_move _ _ _)];
    try discriminate; injection E as <-;
    (eexists; split; [reflexivity | apply orderblock_strength_bounds, Hp]).
Qed.


(** ** Pattern detector: strength of liquidity pools *)

Lemma tick_ok (i p : Z) : bar_ok (Scenario.tick i p).
Proof.
  unfold bar_ok, Scenario.tick; simpl. split.
  - apply Q.max_lub; apply Qle_refl.
  - apply Q.min_glb; apply Qle_refl.
Qed.

Lemma fifty_flat_ok : bars_ok Scenario.fifty_flat.
Proof.
  split.
  - unfold Scenario.fifty_flat, Scenario.flat_frame. cbn [rows].
    apply Forall_forall. intros b Hb.
    apply in_map_iff in Hb. destruct Hb as (i & <- & _). apply tick_ok.
  - vm_compute. repeat split.
Qed.

(** C3 fails on the liquidity pools.  Fifty bars at the price 100 satisfy
    the bar invariants; at index 20 all 40 neighbours match, and the
    detector emits a pool of 41 touches whose strength is 40 / 10 = 4,
    above 1. *)
Lemma pool_strength_exceeds_one :
  bars_ok Scenario.fifty_flat
  /\ hd_error (PatternDetector.detect_liquidity_pools default_config Scenario.fifty_flat)
     = Some Scenario.full_pool
  /\ lp_strength Scenario.full_pool == 4
  /\ ~ lp_strength Scenario.full_pool <= 1.
Proof.
  split; [exact fifty_flat_ok|].
  split; [vm_compute; reflexivity|].
  split; [reflexivity|]. vm_compute. intros H; apply H; reflexivity.
Qed.

(** ** Signal generator *)

Section Signals.

Import ICTTradingAgent.

Lemma in_insert_desc (x s : Signal) (l : list Signal) :
  In s (insert_desc x l) <-> s = x \/ In s l.
Proof.
  induction l as [|y r IH]; simpl.
  - intuition congruence.
  - destruct (Qle_bool (s_strength y) (s_strength x)); simpl.
    + intuition congruence.
    + rewrite IH. intuition congruence.
Qed.

Lemma in_sorted_desc (s : Signal) (l : list Signal) :
  In s (sorted_desc l) <-> In s l.
Proof.
  induction l as [|x r IH]; simpl; [reflexivity|].
  rewrite in_insert_desc, IH. intuition congruence.
Qed.

(** A signal of one loop copies the prices of an accepted pattern and
    carries the loop's label. *)
Lemma signals_of_origin clock valid type label ms patterns :
  forall t s,
    In s (fst (signals_of clock valid type label ms patterns t)) ->
    s_pattern s = label /\ s_type s = type
    /\ exists p, In p patterns /\ valid p ms = true
                 /\ s_direction s = p_direction p
                 /\ s_price s = p_entry_price p
                 /\ s_stop_loss s = p_stop_loss p
                 /\ s_take_profit s = p_take_profit p
                 /\ s_strength s = _calculate_signal_strength p ms.
Proof.
  induction patterns as [|p r IH]; intros t s; simpl.
  - intros [].
  - destruct (valid p ms) eqn:V.
    + unfold bind, now, ret.
      destruct (signals_of clock valid type label ms r (S t)) as [rest t'] eqn:E.
      simpl. intros [<- | Hin].
      * simpl. repeat split. exists p. repeat split; auto.
      * specialize (IH (S t) s). rewrite E in IH.
        destruct (IH Hin) as (A & B & q & C & D).
        repeat split; auto. exists q. split; [right|]; assumption.
    + intros Hin. destruct (IH t s Hin) as (A & B & q & C & D).
      repeat split; auto. exists q. split; [right|]; assumption.
Qed.

(** The substring test of the trend bonus never succeeds: neither
    "BULLISH" nor "BEARISH" occurs in "UPTREND" or "DOWNTREND". *)
Lemma direction_not_in_trend (d trend : string) :
  d = "BULLISH"%string \/ d = "BEARISH"%string ->
  trend = "UPTREND"%string \/ trend = "DOWNTREND"%string ->
  Py.contains (Py.upper d) trend = false.
Proof. intros [-> | ->] [-> | ->]; reflexivity. Qed.

Lemma accepted_alignment (valid : Pattern -> MarketStructure -> bool) p ms :
  valid = _is_valid_fvg_signal \/ valid = _is_valid_orderblock_signal ->
  valid p ms = true ->
  (trend_of ms = "UPTREND"%string /\ p_direction p = "BULLISH"%string)
  \/ (trend_of ms = "DOWNTREND"%string /\ p_direction p = "BEARISH"%string).
Proof.
  intros V H.
  destruct V as [-> | ->];
    unfold _is_valid_fvg_signal, _is_valid_orderblock_signal in H;
    destruct (_ && _)%bool eqn:E1 in H.
  1,3: apply andb_true_iff in E1; destruct E1 as [E1 E2];
       apply String.eqb_eq in E1, E2; auto.
  all: destruct (_ && _)%bool eqn:E2 in H; [|discriminate];
       apply andb_true_iff in E2; destruct E2 as [E2 E3];
       apply String.eqb_eq in E2, E3; auto.
Qed.

(** What the code computes for every accepted pattern: the pattern's
    strength, plus 0.1 under the volume flag, capped at 1; the
    trend-alignment bonus is absent. *)
Lemma accepted_strength (valid : Pattern -> MarketStructure -> bool) p ms :
  valid = _is_valid_fvg_signal \/ valid = _is_valid_orderblock_signal ->
  valid p ms = true ->
  _calculate_signal_strength p ms
  = Qmin (if get (p_volume_confirmation p) false
          then get (p_strength p) (1 # 2) + (1 # 10)
          else get (p_strength p) (1 # 2)) 1.
Proof.
  intros V H. pose proof (accepted_alignment valid p ms V H) as A.
  unfold _calculate_signal_strength.
  rewrite direction_not_in_trend by tauto.
  rewrite andb_false_r. reflexivity.
Qed.

End Signals.

(** The signal strength is capped at 1, and non-negative for a
    non-negative pattern strength. *)
Lemma signal_strength_bounds (p : Pattern) (ms : ICTTradingAgent.MarketStructure) :
  0 <= get (p_strength p) (1 # 2) ->
  0 <= ICTTradingAgent._calculate_signal_strength p ms <= 1.
Proof.
  intros H. unfold ICTTradingAgent._calculate_signal_strength. split; [|apply Q.le_min_r].
  apply Q.min_glb; [|discriminate].
  apply bonus_nonneg; [|discriminate]. apply bonus_nonneg; [assumption | discriminate].
Qed.


(** The detectors emit the directions "BULLISH" and "BEARISH" only. *)
Lemma pattern_direction (cfg : Config) (df : DataFrame) (p : Pattern) :
  In p (PatternDetector.detect_fair_value_gaps cfg df)
  \/ In p (PatternDetector.detect_order_blocks cfg df) ->
  p_direction p = "BULLISH"%string \/ p_direction p = "BEARISH"%string.
Proof.
  intros [Hin | Hin].
  - apply in_detect_fair_value_gaps in Hin. destruct Hin as (j & _ & E).
    unfold PatternDetector.fvg_step in E.
    repeat match type of E with
           | (if ?c then _ else _) = _ => destruct c
           end; try discriminate; injection E as <-; auto.
  - unfold PatternDetector.detect_order_blocks in Hin.
    destruct (len df <? 20)%Z; [destruct Hin|].
    apply in_flat_map in Hin. destruct Hin as (j & _ & Hin).
    apply in_opt_list in Hin. unfold PatternDetector.ob_step in Hin.
    repeat match type of Hin with
           | (if ?c then _ else _) = _ => destruct c
           end; try discriminate; injection Hin as <-; auto.
Qed.

(** No signal has the direction "LONG": the positions that the backtest
    opens from signals take the other branch of [_check_exit_signal],
    [_calculate_pnl] and the exit slippage. *)
Lemma signal_never_long clock dh cfg symbol t s :
  In s (fst (ICTTradingAgent.generate_signals clock dh cfg symbol t)) ->
  String.eqb (ICTTradingAgent.s_direction s) "LONG" = false.
Proof.
  unfold ICTTradingAgent.generate_signals, bind, ret.
  destruct (ICTTradingAgent.analyze_market_structure clock dh cfg symbol t) as [ms t1].
  destruct (ICTTradingAgent.signals_of clock ICTTradingAgent._is_valid_fvg_signal
              _ _ ms _ t1) as [from_fvgs t2] eqn:E1.
  destruct (ICTTradingAgent.signals_of clock ICTTradingAgent._is_valid_orderblock_signal
              _ _ ms _ t2) as [from_obs t3] eqn:E2.
  simpl. rewrite in_sorted_desc, in_app_iff. intros [Hin | Hin].
  - pose proof (signals_of_origin clock ICTTradingAgent._is_valid_fvg_signal "FVG_ENTRY"
                  "Fair Value Gap" ms
                  (ICTTradingAgent.detect_fair_value_gaps dh cfg symbol) t1 s) as O.
    rewrite E1 in O. destruct (O Hin) as (_ & _ & p & Hin' & _ & -> & _).
    destruct (pattern_direction cfg _ p (or_introl Hin')) as [-> | ->]; reflexivity.
  - pose proof (signals_of_origin clock ICTTradingAgent._is_valid_orderblock_signal
                  "ORDERBLOCK_ENTRY" "Order Block" ms
                  (ICTTradingAgent.detect_order_blocks dh cfg symbol) t2 s) as O.
    rewrite E2 in O. destruct (O Hin) as (_ & _ & p & Hin' & _ & -> & _).
    destruct (pattern_direction cfg _ p (or_intror Hin')) as [-> | ->]; reflexivity.
Qed.

(** Every signal built from a provider frame with positive prices has a
    strength in [0, 1]. *)
Lemma signal_strength_in_unit clock dh cfg symbol t s :
  positive_prices (get_price_data dh symbol (lookback_period cfg)) ->
  In s (fst (ICTTradingAgent.generate_signals clock dh cfg symbol t)) ->
  0 <= ICTTradingAgent.s_strength s <= 1.
Proof.
  intros Hp. unfold ICTTradingAgent.generate_signals, bind, ret.
  destruct (ICTTradingAgent.analyze_market_structure clock dh cfg symbol t) as [ms t1].
  destruct (ICTTradingAgent.signals_of clock ICTTradingAgent._is_valid_fvg_signal
              _ _ ms _ t1) as [from_fvgs t2] eqn:E1.
  destruct (ICTTradingAgent.signals_of clock ICTTradingAgent._is_valid_orderblock_signal
              _ _ ms _ t2) as [from_obs t3] eqn:E2.
  simpl. rewrite in_sorted_desc, in_app_iff. intros [Hin | Hin].
  - pose proof (signals_of_origin clock ICTTradingAgent._is_valid_fvg_signal "FVG_ENTRY"
                  "Fair Value Gap" ms
                  (ICTTradingAgent.detect_fair_value_gaps dh cfg symbol) t1 s) as O.
    rewrite E1 in O. destruct (O Hin) as (_ & _ & p & Hin' & _ & _ & _ & _ & _ & ->).
    apply signal_strength_bounds.
    destruct (gap_strength_in_unit cfg _ p Hp Hin') as (x & -> & Hx). apply Hx.
  - pose proof (signals_of_origin clock ICTTradingAgent._is_valid_orderblock_signal
                  "ORDERBLOCK_ENTRY" "Order Block" ms
                  (ICTTradingAgent.detect_order_blocks dh cfg symbol) t2 s) as O.
    rewrite E2 in O. destruct (O Hin) as (_ & _ & p & Hin' & _ & _ & _ & _ & _ & ->).
    apply signal_strength_bounds.
    destruct (block_strength_in_unit cfg _ p Hp Hin') as (x & -> & Hx). apply Hx.
Qed.

(** C2 fails on the code.  A bullish gap of strength 0.5 without the
    volume flag is accepted in an uptrend, and its signal has strength 0.5,
    not min(0.5 + 0.2, 1.0) = 0.7. *)
Lemma trend_bonus_not_applied :
  ICTTradingAgent._is_valid_fvg_signal Scenario.bullish_gap Scenario.uptrend = true
  /\ get (p_strength Scenario.bullish_gap) (1 # 2) == 1 # 2
  /\ get (p_volume_confirmation Scenario.bullish_gap) false = false
  /\ ICTTradingAgent._calculate_signal_strength Scenario.bullish_gap Scenario.uptrend
     == 1 # 2
  /\ ~ ICTTradingAgent._calculate_signal_strength Scenario.bullish_gap Scenario.uptrend
       == Qmin ((1 # 2) + (2 # 10)) 1.
Proof.
  repeat split; vm_compute; congruence.
Qed.

(** C10.  Every signal of [generate_signals] carries the label of a fair
    value gap or of an order block and copies its entry price and direction
    from a pattern of that detector; none carries the liquidity-pool
    label. *)
Theorem signals_only_from_gaps_and_blocks clock dh cfg symbol t s :
  In s (fst (ICTTradingAgent.generate_signals clock dh cfg symbol t)) ->
  ICTTradingAgent.s_pattern s <> "Liquidity Pool"%string
  /\ ((ICTTradingAgent.s_pattern s = "Fair Value Gap"%string
       /\ exists p, In p (ICTTradingAgent.detect_fair_value_gaps dh cfg symbol)
                    /\ ICTTradingAgent.s_price s = p_entry_price p
                    /\ ICTTradingAgent.s_direction s = p_direction p)
      \/ (ICTTradingAgent.s_pattern s = "Order Block"%string
          /\ exists p, In p (ICTTradingAgent.detect_order_blocks dh cfg symbol)
                       /\ ICTTradingAgent.s_price s = p_entry_price p
                       /\ ICTTradingAgent.s_direction s = p_direction p)).
Proof.
  unfold ICTTradingAgent.generate_signals, bind, ret.
  destruct (ICTTradingAgent.analyze_market_structure clock dh cfg symbol t) as [ms t1].
  destruct (ICTTradingAgent.signals_of clock ICTTradingAgent._is_valid_fvg_signal
              _ _ ms _ t1) as [from_fvgs t2] eqn:E1.
  destruct (ICTTradingAgent.signals_of clock ICTTradingAgent._is_valid_orderblock_signal
              _ _ ms _ t2) as [from_obs t3] eqn:E2.
  simpl. rewrite in_sorted_desc, in_app_iff. intros [Hin | Hin].
  - pose proof (signals_of_origin clock ICTTradingAgent._is_valid_fvg_signal "FVG_ENTRY"
                  "Fair Value Gap" ms
                  (ICTTradingAgent.detect_fair_value_gaps dh cfg symbol) t1 s) as O.
    rewrite E1 in O. destruct (O Hin) as (L & _ & p & Hp & _ & D & P & _).
    split; [rewrite L; discriminate|]. left. split; [exact L|]. exists p. auto.
  - pose proof (signals_of_origin clock ICTTradingAgent._is_valid_orderblock_signal
                  "ORDERBLOCK_ENTRY" "Order Block" ms
                  (ICTTradingAgent.detect_order_blocks dh cfg symbol) t2 s) as O.
    rewrite E2 in O. destruct (O Hin) as (L & _ & p & Hp & _ & D & P & _).
    split; [rewrite L; discriminate|]. right. split; [exact L|]. exists p. auto.
Qed.

Lemma signals_only_from_gaps_and_blocks_witness :
  ICTTradingAgent.s_pattern Scenario.first_signal <> "Liquidity Pool"%string.
Proof.
  apply (signals_only_from_gaps_and_blocks Scenario.midnight
           (Scenario.provider Scenario.uptrend_gap) default_config "NQ=F" 0%nat
           Scenario.first_signal).
  vm_compute. left. reflexivity.
Defined.

(** ** Backtest: cash accounting *)

Section Accounting.

Import Backtester.

Variable self : Backtester.t.

Lemma position_value_nil (price : Q) : position_value price [] == 0.
Proof. reflexivity. Qed.

Lemma position_value_cons (price : Q) (p : Position) (l : list Position) :
  position_value price (p :: l)
  == inject_Z (quantity p) * price + position_value price l.
Proof. unfold position_value. simpl map. apply sum_cons. Qed.

Lemma position_value_app (price : Q) (l r : list Position) :
  position_value price (l ++ r) == position_value price l + position_value price r.
Proof. unfold position_value. rewrite map_app. apply sum_app. Qed.

Lemma position_eqb_refl (p : Position) : position_eqb p p = true.
Proof.
  unfold position_eqb.
  rewrite !Z.eqb_refl, !String.eqb_refl, !Qeq_bool_refl. reflexivity.
Qed.

Lemma position_eqb_quantity (a b : Position) :
  position_eqb a b = true -> quantity a = quantity b.
Proof.
  unfold position_eqb. intros H.
  repeat (apply andb_true_iff in H; destruct H as [H ?]).
  apply Z.eqb_eq. assumption.
Qed.

(** Removing a position that was appended leaves the value of the rest,
    also when [remove] hits an equal position further up the list. *)
Lemma position_value_remove_appended (price : Q) (p : Position) (l : list Position) :
  position_value price (remove p (l ++ [p])) == position_value price l.
Proof.
  induction l as [|x l IH]; simpl.
  - rewrite position_eqb_refl. reflexivity.
  - destruct (position_eqb x p) eqn:E.
    + rewrite position_value_app, !position_value_cons, position_value_nil.
      rewrite (position_eqb_quantity _ _ E). ring.
    + rewrite !position_value_cons, IH. reflexivity.
Qed.

(** The end-of-run closing credits each remaining position's P&L less the
    commission, and nothing else. *)
Lemma closing_fold (final_date : Z) (final_price : Q) (l : list Position) (st : State) :
  capital
    (fold_left
       (fun st position =>
          let exit_price := exit_price_of self position final_price in
          let pnl := _calculate_pnl position exit_price in
          mkState (capital st + (pnl - commission self)) (positions st)
                  (trades st ++ [trade_of position final_date exit_price pnl
                                   "End of backtest"])
                  (equity_curve st) (ticks st)) l st)
  == capital st
     + Py.sum (map (fun p => _calculate_pnl p (exit_price_of self p final_price)
                             - commission self) l).
Proof.
  revert st. induction l as [|p l IH]; intros st.
  - simpl. unfold Py.sum. simpl. ring.
  - cbn [fold_left map]. rewrite IH, sum_cons. cbn [capital]. ring.
Qed.

Lemma capital_close_remaining (df : DataFrame) (st : State) :
  capital (close_remaining self df st)
  == capital st
     + Py.sum (map (fun p => _calculate_pnl p
                               (exit_price_of self p (Close (last (rows df) nobar)))
                             - commission self) (positions st)).
Proof. unfold close_remaining. apply closing_fold. Qed.

End Accounting.

(** C4.  When the cost [quantity * entry_price + commission], with
    [entry_price = price * (1 + slippage)], fits the cash, opening debits
    the cash by that cost and appends the position.  Closing that position
    in the loop (Stop Loss or Take Profit) credits the realised P&L minus the
    commission, where the P&L is (exit - entry) * quantity for "LONG" and
    (entry - exit) * quantity otherwise: after the round trip the cash is
    the cash before less quantity * entry_price and two commissions, plus
    the P&L, so a break-even trade loses the principal; the next equity
    sample, cash plus the value of the open positions, is lower by the same
    amount; and the closing at the end of the backtest credits the same
    P&L minus commission, never the principal. *)
Theorem round_trip_loses_principal (self : Backtester.t) (date : Z)
        (signal : ICTTradingAgent.Signal) (size : Z) (st : Backtester.State) :
  let entry := ICTTradingAgent.s_price signal * (1 + Backtester.slippage self) in
  inject_Z size * entry + Backtester.commission self <= Backtester.capital st ->
  let opened := Backtester.open_position self date signal size st in
  let position :=
    Backtester.mkPosition date entry (ICTTradingAgent.s_direction signal) size
      (ICTTradingAgent.s_stop_loss signal) (ICTTradingAgent.s_take_profit signal)
      (ICTTradingAgent.s_pattern signal) in
  Backtester.positions opened = Backtester.positions st ++ [position]
  /\ Backtester.capital opened
     == Backtester.capital st - (inject_Z size * entry + Backtester.commission self)
  /\ (forall exit_date price reason,
         let closed := Backtester.close_position self exit_date price reason position opened in
         let exit := Backtester.exit_price_of self position price in
         let pnl := Backtester._calculate_pnl position exit in
         pnl == (if String.eqb (ICTTradingAgent.s_direction signal) "LONG"
                 then (exit - entry) * inject_Z size
                 else (entry - exit) * inject_Z size)
         /\ Backtester.capital closed
            == Backtester.capital opened + (pnl - Backtester.commission self)
         /\ Backtester.capital closed
            == Backtester.capital st - inject_Z size * entry
               - 2 * Backtester.commission self + pnl
         /\ (exit == entry ->
             Backtester.capital closed
             == Backtester.capital st - inject_Z size * entry
                - 2 * Backtester.commission self)
         /\ (forall date' close',
                Backtester.equity_curve (Backtester.record_equity date' close' closed)
                = Backtester.equity_curve closed
                  ++ [Backtester.mkEquity date'
                        (Backtester.capital closed
                         + Backtester.position_value close' (Backtester.positions closed))
                        (Backtester.capital closed)
                        (Backtester.position_value close' (Backtester.positions closed))]
                /\ Backtester.capital closed
                   + Backtester.position_value close' (Backtester.positions closed)
                   == Backtester.capital st
                      + Backtester.position_value close' (Backtester.positions st)
                      - inject_Z size * entry - 2 * Backtester.commission self + pnl))
  /\ (forall df,
         let exit := Backtester.exit_price_of self position (Close (last (rows df) nobar)) in
         let pnl := Backtester._calculate_pnl position exit in
         Backtester.capital (Backtester.close_remaining self df opened)
         == Backtester.capital (Backtester.close_remaining self df st)
            - inject_Z size * entry - 2 * Backtester.commission self + pnl).
Proof.
  intros entry Hcost opened position.
  assert (Open_eq :
            opened
            = Backtester.mkState
                (Backtester.capital st - (inject_Z size * entry + Backtester.commission self))
                (Backtester.positions st ++ [position]) (Backtester.trades st)
                (Backtester.equity_curve st) (Backtester.ticks st)).
  { unfold opened, Backtester.open_position. fold entry.
    apply Qle_bool_iff in Hcost. rewrite Hcost. reflexivity. }
  assert (Pnl : forall exit,
             Backtester._calculate_pnl position exit
             = if String.eqb (ICTTradingAgent.s_direction signal) "LONG"
               then (exit - entry) * inject_Z size
               else (entry - exit) * inject_Z size) by reflexivity.
  split; [rewrite Open_eq; reflexivity|].
  split; [rewrite Open_eq; reflexivity|].
  split.
  - intros exit_date price reason closed exit pnl.
    assert (Cap : Backtester.capital closed
                  == Backtester.capital st - inject_Z size * entry
                     - 2 * Backtester.commission self + pnl).
    { unfold closed, Backtester.close_position. fold exit pnl. rewrite Open_eq. simpl. ring. }
    split; [unfold pnl; rewrite Pnl; reflexivity|].
    split; [reflexivity|].
    split; [exact Cap|].
    split.
    + intros Hexit. rewrite Cap. unfold pnl. rewrite Pnl.
      destruct (String.eqb _ _); rewrite Hexit; ring.
    + intros date' close'. split; [reflexivity|].
      rewrite Cap.
      assert (V : Backtester.position_value close' (Backtester.positions closed)
                  == Backtester.position_value close' (Backtester.positions st)).
      { unfold closed, Backtester.close_position. rewrite Open_eq. simpl.
        apply position_value_remove_appended. }
      rewrite V. ring.
  - intros df exit pnl.
    rewrite !capital_close_remaining. rewrite Open_eq. simpl.
    rewrite map_app, sum_app. simpl. fold exit pnl.
    unfold Py.sum at 2. simpl. ring.
Qed.

Lemma round_trip_loses_principal_witness :
  Backtester.capital
    (Backtester.open_position Scenario.small_backtester 100 Scenario.opening_signal 10
       (Backtester.initial_state Scenario.small_backtester))
  == Backtester.capital (Backtester.initial_state Scenario.small_backtester)
     - (inject_Z 10
        * (ICTTradingAgent.s_price Scenario.opening_signal
           * (1 + Backtester.slippage Scenario.small_backtester))
        + Backtester.commission Scenario.small_backtester).
Proof.
  exact (proj1 (proj2 (round_trip_loses_principal Scenario.small_backtester 100
                         Scenario.opening_signal 10
                         (Backtester.initial_state Scenario.small_backtester)
                         ltac:(vm_compute; discriminate)))).
Defined.

(** The replay of [calm_then_gap]: eleven trades whose P&L sums to -60.06
    and whose commissions sum to 44 leave 298.352 of the 10000 at the
    start. *)
Example replay_loses_principal :
  match Scenario.replay with
  | Backtester.Completed result =>
      length (Backtester.r_trades result) = 11%nat
      /\ Py.sum (map Backtester.t_pnl (Backtester.r_trades result)) == - (6006 # 100)
      /\ Backtester.r_initial_capital result == 10000
      /\ Backtester.final_capital result == 298352 # 1000
  | _ => False
  end.
Proof. vm_compute. repeat split. Qed.

(** ** Backtest: independence of the wall clock *)

Section TwoClocks.

Import ICTTradingAgent.

Variables clock1 clock2 : Clock.

Lemma insert_desc_unstamped (x : Signal) (l : list Signal) :
  map unstamped (insert_desc x l) = insert_desc (unstamped x) (map unstamped l).
Proof.
  induction l as [|y r IH]; simpl; [reflexivity|].
  destruct (Qle_bool (s_strength y) (s_strength x)); simpl; congruence.
Qed.

Lemma sorted_desc_unstamped (l : list Signal) :
  map unstamped (sorted_desc l) = sorted_desc (map unstamped l).
Proof.
  induction l as [|x r IH]; simpl; [reflexivity|].
  rewrite insert_desc_unstamped, IH. reflexivity.
Qed.

(** The two clocks are read equally often, and the signals differ in their
    stamps only. *)
Lemma signals_of_two_clocks valid type label ms1 ms2 patterns :
  (forall p, valid p ms1 = valid p ms2) ->
  (forall p, _calculate_signal_strength p ms1 = _calculate_signal_strength p ms2) ->
  forall t,
    map unstamped (fst (signals_of clock1 valid type label ms1 patterns t))
    = map unstamped (fst (signals_of clock2 valid type label ms2 patterns t))
    /\ snd (signals_of clock1 valid type label ms1 patterns t)
       = snd (signals_of clock2 valid type label ms2 patterns t).
Proof.
  intros Hv Hs. induction patterns as [|p r IH]; intros t; simpl.
  - split; reflexivity.
  - rewrite <- Hv. destruct (valid p ms1).
    + unfold bind, now, ret. specialize (IH (S t)).
      destruct (signals_of clock1 valid type label ms1 r (S t)) as [l1 t1].
      destruct (signals_of clock2 valid type label ms2 r (S t)) as [l2 t2].
      simpl in *. destruct IH as [IH1 IH2]. split; [|assumption].
      rewrite IH1, Hs. reflexivity.
    + apply IH.
Qed.

Lemma analyze_two_clocks dh cfg symbol t :
  trend_of (fst (analyze_market_structure clock1 dh cfg symbol t))
  = trend_of (fst (analyze_market_structure clock2 dh cfg symbol t))
  /\ snd (analyze_market_structure clock1 dh cfg symbol t)
     = snd (analyze_market_structure clock2 dh cfg symbol t).
Proof.
  unfold analyze_market_structure.
  destruct (empty _); split; reflexivity.
Qed.

(** Validity and strength read the market structure through its trend. *)
Lemma valid_by_trend ms1 ms2 :
  trend_of ms1 = trend_of ms2 ->
  (forall p, _is_valid_fvg_signal p ms1 = _is_valid_fvg_signal p ms2)
  /\ (forall p, _is_valid_orderblock_signal p ms1 = _is_valid_orderblock_signal p ms2)
  /\ (forall p, _calculate_signal_strength p ms1 = _calculate_signal_strength p ms2).
Proof.
  intros E. unfold _is_valid_fvg_signal, _is_valid_orderblock_signal,
              _calculate_signal_strength.
  rewrite E. repeat split.
Qed.

Lemma generate_signals_two_clocks dh cfg symbol t :
  map unstamped (fst (generate_signals clock1 dh cfg symbol t))
  = map unstamped (fst (generate_signals clock2 dh cfg symbol t))
  /\ snd (generate_signals clock1 dh cfg symbol t)
     = snd (generate_signals clock2 dh cfg symbol t).
Proof.
  unfold generate_signals, bind, ret.
  destruct (analyze_two_clocks dh cfg symbol t) as [Tr Tk].
  destruct (analyze_market_structure clock1 dh cfg symbol t) as [ms1 a1].
  destruct (analyze_market_structure clock2 dh cfg symbol t) as [ms2 a2].
  simpl in Tr, Tk. subst a2.
  destruct (valid_by_trend ms1 ms2 Tr) as (Vf & Vo & St).
  destruct (signals_of_two_clocks _is_valid_fvg_signal "FVG_ENTRY" "Fair Value Gap"
              ms1 ms2 (detect_fair_value_gaps dh cfg symbol) Vf St a1) as [F1 F2].
  destruct (signals_of clock1 _is_valid_fvg_signal _ _ ms1 _ a1) as [f1 b1].
  destruct (signals_of clock2 _is_valid_fvg_signal _ _ ms2 _ a1) as [f2 b2].
  simpl in F1, F2. subst b2.
  destruct (signals_of_two_clocks _is_valid_orderblock_signal "ORDERBLOCK_ENTRY"
              "Order Block" ms1 ms2 (detect_order_blocks dh cfg symbol) Vo St b1)
    as [O1 O2].
  destruct (signals_of clock1 _is_valid_orderblock_signal _ _ ms1 _ b1) as [o1 c1].
  destruct (signals_of clock2 _is_valid_orderblock_signal _ _ ms2 _ b1) as [o2 c2].
  simpl in O1, O2 |- *. split; [|assumption].
  rewrite !sorted_desc_unstamped, !map_app, F1, O1. reflexivity.
Qed.

(** The admission reads no stamp. *)
Lemma admit_signal_unstamped self date s st :
  Backtester.admit_signal self date s st
  = Backtester.admit_signal self date (unstamped s) st.
Proof. reflexivity. Qed.

Lemma enter_signals_two_clocks self symbol date st :
  Backtester.enter_signals clock1 self symbol date st
  = Backtester.enter_signals clock2 self symbol date st.
Proof.
  unfold Backtester.enter_signals. destruct (_ <? 3)%Z; [|reflexivity].
  destruct (generate_signals_two_clocks (Backtester.data_handler self) default_config
              symbol (Backtester.ticks st)) as [S T].
  destruct (generate_signals clock1 _ _ _ _) as [l1 t1].
  destruct (generate_signals clock2 _ _ _ _) as [l2 t2].
  simpl in S, T. subst t2. rewrite !slice_first.
  destruct l1 as [|x1 r1], l2 as [|x2 r2]; try discriminate; [reflexivity|].
  assert (Hd : unstamped x1 = unstamped x2) by (simpl in S; congruence).
  rewrite (admit_signal_unstamped self date x1), (admit_signal_unstamped self date x2).
  rewrite Hd. reflexivity.
Qed.

Lemma loop_two_clocks self symbol df indices :
  forall st,
    Backtester.loop clock1 self symbol df indices st
    = Backtester.loop clock2 self symbol df indices st.
Proof.
  induction indices as [|i r IH]; intros st; simpl; [reflexivity|].
  unfold Backtester.step. rewrite enter_signals_two_clocks.
  destruct (Backtester.enter_signals clock2 _ _ _ _); [apply IH | reflexivity].
Qed.

End TwoClocks.

(** The wall clock does not reach the outcome: with the provider's
    answers fixed, two runs return the same outcome whatever the clock
    reads during either run. *)
Lemma run_backtest_two_clocks (clock1 clock2 : Clock) (self : Backtester.t)
      (symbol start_date end_date interval : string) :
  Backtester.run_backtest clock1 self symbol start_date end_date interval
  = Backtester.run_backtest clock2 self symbol start_date end_date interval.
Proof.
  unfold Backtester.run_backtest.
  rewrite (loop_two_clocks clock1 clock2). reflexivity.
Qed.

(** C5 fails on the code.  Two runs with identical bar input (the frame
    [calm], which satisfies the bar invariants, is the answer of the
    date-range query in both) and identical configuration (capital
    10000, commission 2, slippage 0.1%, default agent configuration)
    return different trade logs and equity curves: [run_backtest] asks
    the provider's live look-back query at every bar, and when that
    query answers [calm] the run makes no trade and keeps its capital,
    while when it answers [calm_then_gap] the run makes twelve trades
    and ends with a capital of 242.3. *)
Lemma same_bars_different_trade_logs :
  (forall lookback symbol start_date end_date interval,
      get_historical_data (Cases.live_provider lookback Scenario.calm) symbol start_date
        end_date interval
      = Scenario.calm)
  /\ bars_ok Scenario.calm
  /\ Cases.run_on_calm Scenario.calm = Backtester.Completed Cases.quiet_result
  /\ Cases.run_on_calm Scenario.calm_then_gap = Backtester.Completed Cases.busy_result
  /\ Backtester.r_trades Cases.quiet_result = []
  /\ length (Backtester.r_trades Cases.busy_result) = 12%nat
  /\ Backtester.final_capital Cases.quiet_result == 10000
  /\ Backtester.final_capital Cases.busy_result == 2423 # 10
  /\ map Backtester.equity (Backtester.r_equity_curve Cases.quiet_result)
     <> map Backtester.equity (Backtester.r_equity_curve Cases.busy_result).
Proof.
  split; [reflexivity|].
  split; [split; [|vm_compute; repeat split];
          repeat (constructor; [vm_compute; split; discriminate|]); constructor|].
  split; [vm_compute; reflexivity|].
  split; [vm_compute; reflexivity|].
  split; [vm_compute; reflexivity|].
  split; [vm_compute; reflexivity|].
  split; [vm_compute; reflexivity|].
  split; [vm_compute; reflexivity|].
  vm_compute. discriminate.
Qed.

(** ** Backtest: what step 3 reads *)

(** An iteration reads the frame at its own index only: with the provider
    fixed, the frame's later bars do not reach it. *)
Lemma step_reads_current_bar clock self symbol df1 df2 i st :
  iloc df1 i = iloc df2 i ->
  Backtester.step clock self symbol df1 i st = Backtester.step clock self symbol df2 i st.
Proof.
  unfold Backtester.step, Backtester.check_exits, Backtester._check_exit_signal.
  intros ->. reflexivity.
Qed.

(** The signals of step 3 are those of the provider's whole look-back
    frame, at every index. *)
Lemma step3_signals_of_whole_frame clock self symbol date st :
  (Z.of_nat (length (Backtester.positions st)) < 3)%Z ->
  Backtester.enter_signals clock self symbol date st
  = let (signals, ticks') :=
      ICTTradingAgent.generate_signals clock (Backtester.data_handler self)
        default_config symbol (Backtester.ticks st) in
    match signals with
    | [] => Some (Backtester.mkState (Backtester.capital st) (Backtester.positions st)
                    (Backtester.trades st) (Backtester.equity_curve st) ticks')
    | signal :: _ =>
        Backtester.admit_signal self date signal
          (Backtester.mkState (Backtester.capital st) (Backtester.positions st)
             (Backtester.trades st) (Backtester.equity_curve st) ticks')
    end.
Proof.
  intros H. unfold Backtester.enter_signals.
  apply Z.ltb_lt in H. rewrite H.
  destruct (ICTTradingAgent.generate_signals _ _ _ _ _) as [signals ticks'].
  rewrite slice_first. destruct signals; reflexivity.
Qed.

(** The two frames of the replay satisfy the bar invariants. *)
Lemma replay_frames_ok : bars_ok Scenario.calm /\ bars_ok Scenario.calm_then_gap.
Proof.
  split; split.
  1,3: repeat (constructor; [vm_compute; split; discriminate|]); constructor.
  all: vm_compute; repeat split.
Qed.

(** C1 fails on the code.  The frames [calm] and [calm_then_gap] satisfy
    the bar invariants and agree on the indices 0..100.  With a provider
    that serves the backtested frame, the iteration at index 100 opens
    nothing on [calm], and on [calm_then_gap] it opens a position from a
    gap whose bars are 108, 109 and 110: its entry price is the high of
    bar 110 with slippage, its stop the low of bar 108 less 0.1%. *)
Lemma lookahead_at_index_100 :
  (bars_ok Scenario.calm /\ bars_ok Scenario.calm_then_gap)
  /\ firstn 101 (rows Scenario.calm) = firstn 101 (rows Scenario.calm_then_gap)
  /\ option_map Backtester.positions
       (Backtester.state_after Scenario.midnight (Scenario.backtester Scenario.calm)
          "NQ=F" Scenario.calm 100)
     = Some []
  /\ option_map Backtester.positions
       (Backtester.state_after Scenario.midnight
          (Scenario.backtester Scenario.calm_then_gap) "NQ=F" Scenario.calm_then_gap 100)
     = Some [Scenario.opened_at_100]
  /\ Backtester.entry_price Scenario.opened_at_100
     == High (iloc Scenario.calm_then_gap 110) * (1 + (1 # 1000))
  /\ Backtester.stop_loss Scenario.opened_at_100
     == Low (iloc Scenario.calm_then_gap 108) * (999 # 1000).
Proof.
  split; [exact replay_frames_ok|].
  split; [vm_compute; reflexivity|].
  split; [vm_compute; reflexivity|].
  split; [vm_compute; reflexivity|].
  split; vm_compute; reflexivity.
Qed.

(** ** Pattern detector: zones, rewards and risks *)

Section Gaps.

Variable cfg : Config.
Variable df : DataFrame.

(** What a step of the gap loop emits, case by case. *)
Lemma fvg_step_cases (i : Z) (p : Pattern) :
  PatternDetector.fvg_step cfg df i = Some p ->
  let prev := iloc df (i - 1) in
  let next := iloc df (i + 1) in
  (p_direction p = "BULLISH"%string
   /\ High next < Low prev
   /\ p_high p = Low prev /\ p_low p = High next
   /\ p_stop_loss p = Low prev - Low prev * (1 # 1000)
   /\ p_take_profit p = Low prev + (Low prev - High next) / High next * Low prev * 2
   /\ p_gap_size p = Some ((Low prev - High next) / High next)
   /\ get (fvg_min_size cfg) (1 # 1000) <= (Low prev - High next) / High next
   /\ p_entry_price p = High next /\ p_type p = "Fair Value Gap"%string)
  \/ (p_direction p = "BEARISH"%string
      /\ High prev < Low next
      /\ p_high p = Low next /\ p_low p = High prev
      /\ p_stop_loss p = Low next + Low next * (1 # 1000)
      /\ p_take_profit p = Low next - (Low next - High prev) / High prev * Low next * 2
      /\ p_gap_size p = Some ((Low next - High prev) / High prev)
      /\ get (fvg_min_size cfg) (1 # 1000) <= (Low next - High prev) / High prev
      /\ p_entry_price p = High prev /\ p_type p = "Fair Value Gap"%string).
Proof.
  intros H prev next. unfold PatternDetector.fvg_step in H. fold prev next in H.
  destruct (_ && _)%bool eqn:C1 in H.
  - apply andb_true_iff in C1. destruct C1 as [C1 _]. apply Qgt_bool_iff in C1.
    destruct (Py.Qge_bool _ _) eqn:G in H; [|discriminate].
    apply Qge_bool_iff in G. injection H as <-. left. cbn. repeat split; assumption.
  - destruct (_ && _)%bool eqn:C2 in H; [|discriminate].
    apply andb_true_iff in C2. destruct C2 as [C2 _]. apply Qlt_bool_iff in C2.
    destruct (Py.Qge_bool _ _) eqn:G in H; [|discriminate].
    apply Qge_bool_iff in G. injection H as <-. right. cbn. repeat split; assumption.
Qed.

(** X1.  Every pattern that [detect_fair_value_gaps] returns is a proper
    zone: its low edge is strictly below its high edge, its entry price is
    the low edge whatever its direction, its recorded gap size is the
    width of the zone relative to the low edge and reaches the configured
    minimum, and it is a "Fair Value Gap" that is bullish or bearish. *)
Theorem gap_zone (p : Pattern) :
  In p (PatternDetector.detect_fair_value_gaps cfg df) ->
  p_low p < p_high p
  /\ p_entry_price p = p_low p
  /\ p_gap_size p = Some ((p_high p - p_low p) / p_low p)
  /\ get (fvg_min_size cfg) (1 # 1000) <= (p_high p - p_low p) / p_low p
  /\ p_type p = "Fair Value Gap"%string
  /\ (p_direction p = "BULLISH"%string \/ p_direction p = "BEARISH"%string).
Proof.
  intros Hin. apply in_detect_fair_value_gaps in Hin. destruct Hin as (j & _ & E).
  destruct (fvg_step_cases j p E)
    as [(D & Lt & Hh & Hl & _ & _ & Gs & Gm & En & Ty)
       | (D & Lt & Hh & Hl & _ & _ & Gs & Gm & En & Ty)];
    rewrite Hh, Hl, En, Gs; repeat split; auto.
Qed.

End Gaps.

Lemma gap_zone_witness :
  p_low Cases.rising_gap < p_high Cases.rising_gap
  /\ p_entry_price Cases.rising_gap = p_low Cases.rising_gap.
Proof.
  pose proof (gap_zone default_config Cases.rising_bars Cases.rising_gap
                ltac:(vm_compute; left; reflexivity)) as H.
  exact (conj (proj1 H) (proj1 (proj2 H))).
Defined.

Lemma in_detect_order_blocks (cfg : Config) (df : DataFrame) (p : Pattern) :
  In p (PatternDetector.detect_order_blocks cfg df)
  <-> exists j, (10 <= j < len df - 10)%Z /\ PatternDetector.ob_step cfg df j = Some p.
Proof.
  unfold PatternDetector.detect_order_blocks. destruct (len df <? 20)%Z eqn:E.
  - apply Z.ltb_lt in E. split; [intros [] | intros (j & H & _); lia].
  - rewrite in_flat_map. split.
    + intros (j & Hj & Hp). apply in_range in Hj. apply in_opt_list in Hp.
      exists j. split; assumption.
    + intros (j & Hj & Hp). exists j.
      split; [apply in_range; lia | apply in_opt_list, Hp].
Qed.

(** What a step of the order-block loop emits, case by case. *)
Lemma ob_step_cases (cfg : Config) (df : DataFrame) (i : Z) (p : Pattern) :
  PatternDetector.ob_step cfg df i = Some p ->
  let lo := Py.min_list (map Low (iloc_slice df (i - 5) (i + 1))) in
  let hi := Py.max_list (map High (iloc_slice df (i - 5) (i + 1))) in
  p_high p = hi /\ p_low p = lo /\ p_type p = "Order Block"%string
  /\ ((p_direction p = "BULLISH"%string /\ p_entry_price p = lo
       /\ p_stop_loss p = lo - (hi - lo) * (1 # 2)
       /\ p_take_profit p = hi + (hi - lo) * 2)
      \/ (p_direction p = "BEARISH"%string /\ p_entry_price p = hi
          /\ p_stop_loss p = hi + (hi - lo) * (1 # 2)
          /\ p_take_profit p = lo - (hi - lo) * 2)).
Proof.
  intros H lo hi. unfold PatternDetector.ob_step in H. fold lo hi in H.
  destruct (PatternDetector._is_strong_bullish_move _ _ _);
    [|destruct (PatternDetector._is_strong_bearish_move _ _ _); [|discriminate]];
    injection H as <-; cbn; repeat split; auto.
Qed.

(** A signal whose reward reaches the required multiple of its risk is not
    rejected for its risk/reward ratio. *)
Lemma enough_reward_passes (self : RiskManager.t) (signal : RiskManager.SignalDict)
      (capital : Q) (current_positions : option (list RiskManager.Position)) :
  let entry := get (RiskManager.price signal) 0 in
  RiskManager.take_profit_ratio (RiskManager.config self)
  * Qabs (entry - get (RiskManager.sd_stop_loss signal) 0)
  <= Qabs (get (RiskManager.sd_take_profit signal) 0 - entry) ->
  forall rr_ratio min_rr,
    RiskManager.validate_trade self signal capital current_positions
    <> Some (false, RiskManager.RiskRewardBelow rr_ratio min_rr).
Proof.
  intros entry H rr m. unfold RiskManager.validate_trade. fold entry.
  destruct (_ <=? _)%Z; [discriminate|].
  destruct (RiskManager.calculate_position_size _ _ _ _ _) as [size|]; [|discriminate].
  destruct (size <=? 0)%Z; [discriminate|].
  destruct (Py.Qgt_bool (_ + _) _); [discriminate|].
  destruct (Py.Qgt_bool (Qabs (entry - _)) 0) eqn:R; [|discriminate].
  apply Qgt_bool_iff in R.
  assert (L : Py.Qlt_bool
                (Qabs (get (RiskManager.sd_take_profit signal) 0 - entry)
                 / Qabs (entry - get (RiskManager.sd_stop_loss signal) 0))
                (RiskManager.take_profit_ratio (RiskManager.config self)) = false).
  { apply Qlt_bool_false. apply Qle_shift_div_l; assumption. }
  rewrite L. discriminate.
Qed.

(** X2.  Every order block that [detect_order_blocks] returns, bullish or
    bearish and on any bars, offers a reward of at least twice its risk
    (the stop lies half a block height from the entry, the target three
    block heights), so [validate_trade] never rejects its signal for the
    risk/reward ratio when the required ratio is at most 2, as in the
    default risk configuration. *)
Theorem order_block_reward_covers_two_risks (cfg : Config) (df : DataFrame) (p : Pattern) :
  In p (PatternDetector.detect_order_blocks cfg df) ->
  2 * risk p <= reward p
  /\ (forall self capital current_positions rr_ratio min_rr,
         RiskManager.take_profit_ratio (RiskManager.config self) <= 2 ->
         RiskManager.validate_trade self (pattern_signal p) capital current_positions
         <> Some (false, RiskManager.RiskRewardBelow rr_ratio min_rr)).
Proof.
  intros Hin.
  assert (H2 : 2 * risk p <= reward p).
  { apply in_detect_order_blocks in Hin. destruct Hin as (j & _ & E).
    destruct (ob_step_cases cfg df j p E) as (_ & _ & _ & C).
    unfold reward, risk.
    set (lo := Py.min_list _) in *. set (hi := Py.max_list _) in *.
    pose proof (Qabs_nonneg (hi - lo)) as Hh.
    destruct C as [(_ & -> & -> & ->) | (_ & -> & -> & ->)].
    - assert (E1 : hi + (hi - lo) * 2 - lo == 3 * (hi - lo)) by ring.
      assert (E2 : lo - (lo - (hi - lo) * (1 # 2)) == (1 # 2) * (hi - lo)) by ring.
      rewrite E1, E2, !Qabs_Qmult.
      change (Qabs 3) with 3. change (Qabs (1 # 2)) with (1 # 2). lra.
    - assert (E1 : lo - (hi - lo) * 2 - hi == (- (3)) * (hi - lo)) by ring.
      assert (E2 : hi - (hi + (hi - lo) * (1 # 2)) == (- (1 # 2)) * (hi - lo)) by ring.
      rewrite E1, E2, !Qabs_Qmult.
      change (Qabs (- (3))) with 3. change (Qabs (- (1 # 2))) with (1 # 2). lra. }
  split; [exact H2|].
  intros self capital cp rr m Hm. apply enough_reward_passes.
  cbn [pattern_signal get RiskManager.price RiskManager.sd_stop_loss
       RiskManager.sd_take_profit].
  fold (risk p). fold (reward p).
  apply (Qle_trans _ (2 * risk p)); [|exact H2].
  apply Qmult_le_compat_r; [exact Hm | apply Qabs_nonneg].
Qed.

Lemma order_block_reward_covers_two_risks_witness :
  2 * risk Cases.first_block <= reward Cases.first_block.
Proof.
  exact (proj1 (order_block_reward_covers_two_risks default_config Scenario.uptrend_gap
                  Cases.first_block ltac:(vm_compute; left; reflexivity))).
Defined.

(** A signal whose reward is below the required multiple of its risk is
    never validated. *)
Lemma low_reward_never_validated (self : RiskManager.t) (p : Pattern) :
  0 < risk p -> reward p < RiskManager.take_profit_ratio (RiskManager.config self) * risk p ->
  forall capital current_positions reason,
    RiskManager.validate_trade self (pattern_signal p) capital current_positions
    <> Some (true, reason).
Proof.
  intros Hr Hw capital cp reason. unfold RiskManager.validate_trade.
  cbn [pattern_signal get RiskManager.price RiskManager.sd_stop_loss
       RiskManager.sd_take_profit].
  destruct (_ <=? _)%Z; [discriminate|].
  destruct (RiskManager.calculate_position_size _ _ _ _ _) as [size|]; [|discriminate].
  destruct (size <=? 0)%Z; [discriminate|].
  destruct (Py.Qgt_bool (_ + _) _); [discriminate|].
  fold (risk p). fold (reward p).
  apply Qgt_bool_iff in Hr as Hb. rewrite Hb.
  assert (L : Py.Qlt_bool (reward p / risk p)
                (RiskManager.take_profit_ratio (RiskManager.config self)) = true).
  { apply Qlt_bool_iff. apply Qlt_shift_div_r; assumption. }
  rewrite L. discriminate.
Qed.

Section GapReward.

Variable cfg : Config.
Variable df : DataFrame.
Hypothesis Hpos : positive_highs df.

Lemma high_positive (j : Z) : (0 <= j < len df)%Z -> 0 < High (iloc df j).
Proof.
  intros Hj. unfold positive_highs in Hpos. rewrite Forall_forall in Hpos.
  apply Hpos, in_iloc, Hj.
Qed.

(** X3.  On bars with positive highs, a bullish gap found with a minimum
    gap size of at least 0.1% offers a reward of at least twice its
    risk. *)
Theorem bullish_gap_reward_covers_two_risks (p : Pattern) :
  1 # 1000 <= get (fvg_min_size cfg) (1 # 1000) ->
  In p (PatternDetector.detect_fair_value_gaps cfg df) ->
  p_direction p = "BULLISH"%string ->
  2 * risk p <= reward p.
Proof.
  intros Hmin Hin D. apply in_detect_fair_value_gaps in Hin. destruct Hin as (j & Hj & E).
  destruct (fvg_step_cases cfg df j p E)
    as [(_ & Lt & Hh & Hl & St & Tp & _ & Gm & En & _) | (D' & _)];
    [|rewrite D in D'; discriminate].
  unfold reward, risk. rewrite St, Tp, En.
  pose proof (high_positive (j + 1) ltac:(lia)) as HH.
  set (H := High (iloc df (j + 1))) in *. set (L := Low (iloc df (j - 1))) in *.
  set (g := (L - H) / H) in *.
  assert (gH : g * H == L - H) by (unfold g; field; lra).
  assert (G1 : 1 # 1000 <= g) by lra.
  assert (A1 : 0 <= (g - (1 # 1000)) * H) by (apply Qmult_le_0_compat; lra).
  assert (A2 : 0 <= g * (L - H)) by (apply Qmult_le_0_compat; lra).
  assert (W : Qabs (L + g * L * 2 - H) == L + g * L * 2 - H).
  { rewrite Qabs_pos by nra. reflexivity. }
  rewrite W.
  apply Qabs_case; intros; nra.
Qed.

(** X4.  On bars with positive highs, a bearish gap of relative size at
    most one half has a positive risk and offers a reward strictly below
    twice that risk (its entry is the near edge of the gap, its stop is
    taken from the far edge), so [validate_trade] never validates its
    signal for a risk manager that asks for a reward of two risks or
    more, as the default one does. *)
Theorem bearish_gap_reward_below_two_risks (p : Pattern) :
  In p (PatternDetector.detect_fair_value_gaps cfg df) ->
  p_direction p = "BEARISH"%string ->
  (p_high p - p_low p) / p_low p <= 1 # 2 ->
  (0 < risk p /\ reward p < 2 * risk p)
  /\ (forall self capital current_positions reason,
         2 <= RiskManager.take_profit_ratio (RiskManager.config self) ->
         RiskManager.validate_trade self (pattern_signal p) capital current_positions
         <> Some (true, reason)).
Proof.
  intros Hin D Hg.
  assert (Hrr : 0 < risk p /\ reward p < 2 * risk p);
    [|split; [exact Hrr|]; intros self capital cp reason Hm;
      apply low_reward_never_validated; [apply Hrr|];
      destruct Hrr as [R0 R1]; apply (Qlt_le_trans _ _ _ R1);
      apply Qmult_le_compat_r; [exact Hm | apply Qlt_le_weak, R0]].
  apply in_detect_fair_value_gaps in Hin. destruct Hin as (j & Hj & E).
  destruct (fvg_step_cases cfg df j p E)
    as [(D' & _) | (_ & Lt & Hh & Hl & St & Tp & _ & _ & En & _)];
    [rewrite D in D'; discriminate|].
  unfold reward, risk. rewrite Hh, Hl in Hg. rewrite St, Tp, En.
  pose proof (high_positive (j - 1) ltac:(lia)) as HP.
  set (P := High (iloc df (j - 1))) in *. set (N := Low (iloc df (j + 1))) in *.
  set (g := (N - P) / P) in *.
  assert (gP : g * P == N - P) by (unfold g; field; lra).
  assert (A1 : 0 <= ((1 # 2) - g) * (N - P)) by (apply Qmult_le_0_compat; lra).
  assert (G0 : 0 < g) by (unfold g; apply Qlt_shift_div_l; lra).
  assert (A2 : 0 <= g * (N - P)) by (apply Qmult_le_0_compat; lra).
  assert (R : Qabs (P - (N + N * (1 # 1000))) == N + N * (1 # 1000) - P).
  { rewrite Qabs_neg by lra. ring. }
  assert (W : Qabs (N - g * N * 2 - P) == P - N + g * N * 2).
  { rewrite Qabs_neg by nra. ring. }
  rewrite R, W. split; nra.
Qed.

End GapReward.

Lemma bullish_gap_reward_covers_two_risks_witness :
  2 * risk Cases.falling_gap <= reward Cases.falling_gap.
Proof.
  exact (bullish_gap_reward_covers_two_risks default_config Scenario.three_bars
           ltac:(repeat constructor)
           Cases.falling_gap
           ltac:(vm_compute; discriminate)
           ltac:(vm_compute; left; reflexivity)
           ltac:(reflexivity)).
Defined.

Lemma bearish_gap_reward_below_two_risks_witness :
  (0 < risk Cases.rising_gap /\ reward Cases.rising_gap < 2 * risk Cases.rising_gap)
  /\ RiskManager.validate_trade Scenario.fresh_manager (pattern_signal Cases.rising_gap)
       10000 None
     <> Some (true, RiskManager.TradeValidated).
Proof.
  pose proof (bearish_gap_reward_below_two_risks default_config Cases.rising_bars
                ltac:(repeat constructor)
                Cases.rising_gap
                ltac:(vm_compute; left; reflexivity)
                ltac:(reflexivity)
                ltac:(vm_compute; discriminate)) as H.
  exact (conj (proj1 H)
              (proj2 H Scenario.fresh_manager 10000 None RiskManager.TradeValidated
                 ltac:(vm_compute; discriminate))).
Defined.

(** ** Pattern detector: prices on sound bars *)

Lemma fold_min_le (r : list Q) (x : Q) : fold_left Qmin r x <= x.
Proof.
  revert x. induction r as [|y r IH]; intros x; simpl; [apply Qle_refl|].
  eapply Qle_trans; [apply IH | apply Q.le_min_l].
Qed.

Lemma fold_max_ge (r : list Q) (x : Q) : x <= fold_left Qmax r x.
Proof.
  revert x. induction r as [|y r IH]; intros x; simpl; [apply Qle_refl|].
  eapply Qle_trans; [apply Q.le_max_l | apply IH].
Qed.

Lemma fold_min_pos (r : list Q) (x : Q) :
  0 < x -> Forall (fun y => 0 < y) r -> 0 < fold_left Qmin r x.
Proof.
  intros Hx H. revert x Hx. induction H as [|y r Hy _ IH]; intros x Hx; simpl; [assumption|].
  apply IH. apply Q.min_glb_lt; assumption.
Qed.

Section Zone.

Variable df : DataFrame.
Hypothesis Hs : sound_bars df.

Lemma sound_in (b : Bar) : In b (rows df) -> 0 < Low b /\ Low b <= High b.
Proof. unfold sound_bars in Hs. rewrite Forall_forall in Hs. apply Hs. Qed.

Lemma sound_positive_highs : positive_highs df.
Proof.
  unfold positive_highs. apply Forall_forall. intros b Hb.
  destruct (sound_in b Hb). lra.
Qed.

(** Over any window the lowest low is not above the highest high. *)
Lemma zone_ordered (a b : Z) :
  Py.min_list (map Low (iloc_slice df a b)) <= Py.max_list (map High (iloc_slice df a b)).
Proof.
  unfold iloc_slice. destruct (Py.slice (rows df) a b) as [|x w] eqn:E; simpl; [discriminate|].
  assert (Hx : In x (rows df)) by (apply (in_slice _ a b); rewrite E; left; reflexivity).
  destruct (sound_in x Hx) as [_ Hxh].
  eapply Qle_trans; [apply fold_min_le|]. eapply Qle_trans; [exact Hxh | apply fold_max_ge].
Qed.

Lemma zone_low_positive (i : Z) :
  (10 <= i < len df - 10)%Z ->
  0 < Py.min_list (map Low (iloc_slice df (i - 5) (i + 1))).
Proof.
  intros Hi. unfold iloc_slice.
  destruct (Py.slice (rows df) (i - 5) (i + 1)) as [|x w] eqn:E.
  - exfalso. assert (L : length (Py.slice (rows df) (i - 5) (i + 1)) = 0%nat)
      by (rewrite E; reflexivity).
    unfold Py.slice, Py.bound in L. rewrite length_firstn, length_skipn in L.
    unfold len in Hi.
    destruct (i - 5 <? 0)%Z eqn:A; [apply Z.ltb_lt in A; lia|].
    destruct (i + 1 <? 0)%Z eqn:B; [apply Z.ltb_lt in B; lia|].
    lia.
  - simpl. apply fold_min_pos.
    + apply sound_in, (in_slice _ (i - 5) (i + 1)). rewrite E. left. reflexivity.
    + apply Forall_forall. intros y Hy. apply in_map_iff in Hy. destruct Hy as (b & <- & Hb).
      apply sound_in, (in_slice _ (i - 5) (i + 1)). rewrite E. right. exact Hb.
Qed.

(** On sound bars a pattern's entry price is positive, and a bullish
    pattern's stop is not above its target. *)
Lemma pattern_prices (cfg : Config) (p : Pattern) :
  In p (PatternDetector.detect_fair_value_gaps cfg df)
  \/ In p (PatternDetector.detect_order_blocks cfg df) ->
  0 < p_entry_price p
  /\ (p_direction p = "BULLISH"%string -> p_stop_loss p <= p_take_profit p).
Proof.
  intros [Hin | Hin].
  - apply in_detect_fair_value_gaps in Hin. destruct Hin as (j & Hj & E).
    pose proof (high_positive df sound_positive_highs (j - 1) ltac:(lia)) as HP.
    pose proof (high_positive df sound_positive_highs (j + 1) ltac:(lia)) as HN.
    destruct (fvg_step_cases cfg df j p E)
      as [(D & Lt & _ & _ & St & Tp & _ & _ & En & _)
         | (D & Lt & _ & _ & St & Tp & _ & _ & En & _)];
      rewrite En, St, Tp; (split; [assumption|]); intros D'; [|rewrite D in D'; discriminate].
    set (H := High (iloc df (j + 1))) in *. set (L := Low (iloc df (j - 1))) in *.
    assert (G : 0 <= (L - H) / H * L).
    { apply Qmult_le_0_compat; [|lra]. apply Qle_shift_div_l; lra. }
    lra.
  - apply in_detect_order_blocks in Hin. destruct Hin as (j & Hj & E).
    pose proof (zone_ordered (j - 5) (j + 1)) as Z.
    pose proof (zone_low_positive j Hj) as P.
    destruct (ob_step_cases cfg df j p E)
      as (_ & _ & _ & [(D & -> & -> & ->) | (D & -> & -> & ->)]).
    + split; [assumption|]. intros _. lra.
    + split; [lra|]. intros D'. rewrite D in D'. discriminate.
Qed.

End Zone.

(** ** Pattern detector: pools and output sizes *)

Lemma filter_length_le {A : Type} (f : A -> bool) (l : list A) :
  (length (filter f l) <= length l)%nat.
Proof.
  induction l as [|x l IH]; simpl; [lia|]. destruct (f x); simpl; lia.
Qed.

Lemma filter_length_lt {A : Type} (f : A -> bool) (l : list A) (x : A) :
  In x l -> f x = false -> (length (filter f l) < length l)%nat.
Proof.
  induction l as [|y l IH]; simpl; [tauto|]. intros [-> | Hin] Hx.
  - rewrite Hx. pose proof (filter_length_le f l). lia.
  - specialize (IH Hin Hx). destruct (f y); simpl; lia.
Qed.

Lemma length_range (a b : Z) : length (Py.range a b) = Z.to_nat (b - a).
Proof. unfold Py.range. rewrite length_map, length_seq. reflexivity. Qed.

Lemma length_flat_opt {A B : Type} (f : A -> option B) (l : list A) :
  (length (flat_map (fun x => PatternDetector.opt_list (f x)) l) <= length l)%nat.
Proof.
  induction l as [|x l IH]; simpl; [lia|].
  rewrite length_app. destruct (f x); simpl; lia.
Qed.

Lemma equal_levels_length (levels : list Q) (tolerance : Q) (i : Z) :
  (length (PatternDetector.equal_levels levels tolerance i) <= 40)%nat.
Proof.
  unfold PatternDetector.equal_levels.
  set (f := fun j : Z => (negb (j =? i)%Z && _)%bool).
  assert (H : (length (filter f (Py.range (i - 20) (i + 21)))
               < length (Py.range (i - 20) (i + 21)))%nat).
  { apply (filter_length_lt f _ i); [apply in_range; lia|].
    unfold f. rewrite Z.eqb_refl. reflexivity. }
  rewrite length_range in H. replace (i + 21 - (i - 20))%Z with 41%Z in H by lia.
  change (Z.to_nat 41) with 41%nat in H. lia.
Qed.

Lemma pool_step_bounds df levels tolerance level_type direction i pool :
  PatternDetector.pool_step df levels tolerance level_type direction i = Some pool ->
  (3 <= lp_touches pool <= 41)%Z
  /\ lp_strength pool == inject_Z (lp_touches pool - 1) / 10
  /\ lp_level_type pool = level_type /\ lp_direction pool = direction
  /\ lp_type pool = "Liquidity Pool"%string.
Proof.
  unfold PatternDetector.pool_step. intros H.
  pose proof (equal_levels_length levels tolerance i) as L.
  destruct (2 <=? _)%Z eqn:E in H; [|discriminate].
  apply Z.leb_le in E. injection H as <-. cbn.
  split; [lia|]. split; [|auto].
  replace (Z.of_nat (length (PatternDetector.equal_levels levels tolerance i)) + 1 - 1)%Z
    with (Z.of_nat (length (PatternDetector.equal_levels levels tolerance i))) by lia.
  reflexivity.
Qed.

(** X5.  Every pool that [detect_liquidity_pools] returns counts between
    3 and 41 touches, its strength is a tenth of the touches less one, so
    it lies between 0.2 and 4, and a resistance pool is bearish while a
    support pool is bullish. *)
Theorem pool_touches_and_strength (cfg : Config) (df : DataFrame) (pool : LiquidityPool) :
  In pool (PatternDetector.detect_liquidity_pools cfg df) ->
  (3 <= lp_touches pool <= 41)%Z
  /\ lp_strength pool == inject_Z (lp_touches pool - 1) / 10
  /\ 2 # 10 <= lp_strength pool <= 4
  /\ ((lp_level_type pool = "RESISTANCE"%string /\ lp_direction pool = "BEARISH"%string)
      \/ (lp_level_type pool = "SUPPORT"%string /\ lp_direction pool = "BULLISH"%string)).
Proof.
  unfold PatternDetector.detect_liquidity_pools.
  destruct (len df <? 50)%Z; [intros []|].
  rewrite in_app_iff, !in_flat_map.
  intros [(j & _ & H) | (j & _ & H)]; apply in_opt_list in H;
    apply pool_step_bounds in H; destruct H as (T & S & Lt & D & _).
  all: split; [exact T|]; split; [exact S|]; split; [|auto].
  all: rewrite S; split.
  1,3: apply (Qle_trans _ (inject_Z 2 / 10)); [discriminate|];
       apply Qdiv_le_mono_num; [reflexivity | rewrite <- Zle_Qle; lia].
  all: apply (Qle_trans _ (inject_Z 40 / 10)); [|discriminate];
       apply Qdiv_le_mono_num; [reflexivity | rewrite <- Zle_Qle; lia].
Qed.

Lemma pool_touches_and_strength_witness :
  (3 <= lp_touches Scenario.full_pool <= 41)%Z
  /\ lp_strength Scenario.full_pool == inject_Z (lp_touches Scenario.full_pool - 1) / 10.
Proof.
  pose proof (pool_touches_and_strength default_config Scenario.fifty_flat
                Scenario.full_pool ltac:(vm_compute; left; reflexivity)) as H.
  exact (conj (proj1 H) (proj1 (proj2 H))).
Defined.

(** X6.  The detectors return at most one pattern per interior index:
    at most [len - 2] gaps, [len - 20] order blocks and [2 * (len - 40)]
    pools; frames shorter than 3, 20 and 50 bars give no gap, no order
    block and no pool. *)
Theorem detector_output_sizes (cfg : Config) (df : DataFrame) :
  (Z.of_nat (length (PatternDetector.detect_fair_value_gaps cfg df)) <= Z.max 0 (len df - 2))%Z
  /\ (Z.of_nat (length (PatternDetector.detect_order_blocks cfg df))
      <= Z.max 0 (len df - 20))%Z
  /\ (Z.of_nat (length (PatternDetector.detect_liquidity_pools cfg df))
      <= 2 * Z.max 0 (len df - 40))%Z
  /\ ((len df < 3)%Z -> PatternDetector.detect_fair_value_gaps cfg df = [])
  /\ ((len df < 20)%Z -> PatternDetector.detect_order_blocks cfg df = [])
  /\ ((len df < 50)%Z -> PatternDetector.detect_liquidity_pools cfg df = []).
Proof.
  unfold PatternDetector.detect_fair_value_gaps, PatternDetector.detect_order_blocks,
    PatternDetector.detect_liquidity_pools.
  repeat split.
  - destruct (len df <? 3)%Z; [simpl; lia|].
    pose proof (length_flat_opt (PatternDetector.fvg_step cfg df) (Py.range 1 (len df - 1))) as L.
    rewrite length_range in L. lia.
  - destruct (len df <? 20)%Z; [simpl; lia|].
    pose proof (length_flat_opt (PatternDetector.ob_step cfg df) (Py.range 10 (len df - 10))) as L.
    rewrite length_range in L. lia.
  - destruct (len df <? 50)%Z eqn:E; [cbn [length Z.of_nat]; lia|]. apply Z.ltb_ge in E.
    rewrite length_app.
    set (tolerance := get (liquidity_threshold cfg) (5 # 100)).
    pose proof (length_flat_opt
                  (PatternDetector.pool_step df (map High (rows df)) tolerance
                     "RESISTANCE" "BEARISH")
                  (Py.range 20 (Z.of_nat (length (map High (rows df))) - 20))) as L1.
    pose proof (length_flat_opt
                  (PatternDetector.pool_step df (map Low (rows df)) tolerance
                     "SUPPORT" "BULLISH")
                  (Py.range 20 (Z.of_nat (length (map Low (rows df))) - 20))) as L2.
    rewrite length_range in L1, L2. rewrite !length_map in *. unfold len in *. lia.
  - intros H. apply Z.ltb_lt in H. rewrite H. reflexivity.
  - intros H. apply Z.ltb_lt in H. rewrite H. reflexivity.
  - intros H. apply Z.ltb_lt in H. rewrite H. reflexivity.
Qed.

(** ** Signal generator: order, direction and short frames *)

Section SignalOrder.

Import ICTTradingAgent.

Lemma insert_desc_sorted (x : Signal) (l : list Signal) :
  StronglySorted stronger l -> StronglySorted stronger (insert_desc x l).
Proof.
  induction 1 as [|y r Hs IH Hall]; simpl.
  - constructor; constructor.
  - destruct (Qle_bool (s_strength y) (s_strength x)) eqn:E.
    + apply Qle_bool_iff in E. constructor; [constructor; assumption|].
      constructor; [exact E|].
      eapply Forall_impl; [|exact Hall]. intros z Hz. unfold stronger in *.
      eapply Qle_trans; eassumption.
    + apply Qle_bool_false in E. constructor; [exact IH|].
      apply Forall_forall. intros z Hz. apply in_insert_desc in Hz.
      destruct Hz as [-> | Hz].
      * unfold stronger. apply Qlt_le_weak, E.
      * rewrite Forall_forall in Hall. apply Hall, Hz.
Qed.

Lemma sorted_desc_sorted (l : list Signal) : StronglySorted stronger (sorted_desc l).
Proof.
  induction l as [|x r IH]; simpl; [constructor|]. apply insert_desc_sorted, IH.
Qed.

(** X7.  [generate_signals] returns its signals in descending order of
    strength: every signal is at least as strong as all that follow it,
    so the first one, which is the only one the backtest reads, is a
    strongest one. *)
Theorem signals_strongest_first clock dh cfg symbol t :
  let signals := fst (generate_signals clock dh cfg symbol t) in
  StronglySorted stronger signals
  /\ (forall first rest s,
         signals = first :: rest -> In s signals -> s_strength s <= s_strength first).
Proof.
  intros signals.
  assert (S : StronglySorted stronger signals).
  { unfold signals, generate_signals, bind, ret.
    destruct (analyze_market_structure clock dh cfg symbol t) as [ms t1].
    destruct (signals_of clock _is_valid_fvg_signal _ _ ms _ t1) as [f t2].
    destruct (signals_of clock _is_valid_orderblock_signal _ _ ms _ t2) as [o t3].
    simpl. apply sorted_desc_sorted. }
  split; [exact S|].
  intros first rest s E Hin. rewrite E in S, Hin. inversion S as [|? ? _ Hall]; subst.
  destruct Hin as [<- | Hin]; [apply Qle_refl|].
  rewrite Forall_forall in Hall. apply Hall, Hin.
Qed.

(** Every signal comes from a gap or an order block that its validity
    check accepted, and copies its prices. *)
Lemma generate_signals_unfold clock dh cfg symbol t s :
  In s (fst (generate_signals clock dh cfg symbol t)) ->
  let ms := fst (analyze_market_structure clock dh cfg symbol t) in
  exists p,
    ((In p (detect_fair_value_gaps dh cfg symbol) /\ _is_valid_fvg_signal p ms = true)
     \/ (In p (detect_order_blocks dh cfg symbol) /\ _is_valid_orderblock_signal p ms = true))
    /\ s_direction s = p_direction p
    /\ s_price s = p_entry_price p
    /\ s_stop_loss s = p_stop_loss p
    /\ s_take_profit s = p_take_profit p
    /\ s_strength s = _calculate_signal_strength p ms.
Proof.
  unfold generate_signals, bind, ret.
  destruct (analyze_market_structure clock dh cfg symbol t) as [ms t1].
  destruct (signals_of clock _is_valid_fvg_signal _ _ ms _ t1) as [from_fvgs t2] eqn:E1.
  destruct (signals_of clock _is_valid_orderblock_signal _ _ ms _ t2) as [from_obs t3] eqn:E2.
  simpl. rewrite in_sorted_desc, in_app_iff. intros [Hin | Hin].
  - pose proof (signals_of_origin clock _is_valid_fvg_signal "FVG_ENTRY" "Fair Value Gap" ms
                  (detect_fair_value_gaps dh cfg symbol) t1 s) as O.
    rewrite E1 in O. destruct (O Hin) as (_ & _ & p & Hp & V & R).
    exists p. split; [left; split; assumption | exact R].
  - pose proof (signals_of_origin clock _is_valid_orderblock_signal "ORDERBLOCK_ENTRY"
                  "Order Block" ms (detect_order_blocks dh cfg symbol) t2 s) as O.
    rewrite E2 in O. destruct (O Hin) as (_ & _ & p & Hp & V & R).
    exists p. split; [right; split; assumption | exact R].
Qed.

(** A signal's direction is the one its trend admits. *)
Lemma signals_direction_by_trend clock dh cfg symbol t s :
  In s (fst (generate_signals clock dh cfg symbol t)) ->
  let trend := trend_of (fst (analyze_market_structure clock dh cfg symbol t)) in
  (trend = "UPTREND"%string /\ s_direction s = "BULLISH"%string)
  \/ (trend = "DOWNTREND"%string /\ s_direction s = "BEARISH"%string).
Proof.
  intros Hin. apply generate_signals_unfold in Hin.
  destruct Hin as (p & [[_ V] | [_ V]] & D & _); rewrite D.
  - apply (accepted_alignment _is_valid_fvg_signal p _ (or_introl eq_refl) V).
  - apply (accepted_alignment _is_valid_orderblock_signal p _ (or_intror eq_refl) V).
Qed.

Lemma no_trend_no_signal clock dh cfg symbol t :
  let trend := trend_of (fst (analyze_market_structure clock dh cfg symbol t)) in
  trend <> "UPTREND"%string -> trend <> "DOWNTREND"%string ->
  fst (generate_signals clock dh cfg symbol t) = [].
Proof.
  intros trend NU ND.
  destruct (fst (generate_signals clock dh cfg symbol t)) as [|s r] eqn:E; [reflexivity|].
  destruct (signals_direction_by_trend clock dh cfg symbol t s) as [[T _] | [T _]];
    [rewrite E; left; reflexivity | contradiction | contradiction].
Qed.

(** X8.  Signals follow the trend: an uptrend gives only bullish signals,
    a downtrend only bearish ones, so all signals of one call share one
    direction, and any other trend (sideways or undefined) gives no
    signal at all. *)
Theorem signals_follow_trend clock dh cfg symbol t :
  let trend := trend_of (fst (analyze_market_structure clock dh cfg symbol t)) in
  let signals := fst (generate_signals clock dh cfg symbol t) in
  (forall s, In s signals ->
             (trend = "UPTREND"%string /\ s_direction s = "BULLISH"%string)
             \/ (trend = "DOWNTREND"%string /\ s_direction s = "BEARISH"%string))
  /\ (forall s1 s2, In s1 signals -> In s2 signals -> s_direction s1 = s_direction s2)
  /\ (trend <> "UPTREND"%string -> trend <> "DOWNTREND"%string -> signals = []).
Proof.
  intros trend signals.
  pose proof (signals_direction_by_trend clock dh cfg symbol t) as A.
  split; [exact A | split].
  - intros s1 s2 H1 H2.
    destruct (A s1 H1) as [[T1 D1] | [T1 D1]], (A s2 H2) as [[T2 D2] | [T2 D2]];
      congruence.
  - apply no_trend_no_signal.
Qed.

End SignalOrder.

Lemma NoDup_range (a b : Z) : NoDup (Py.range a b).
Proof.
  unfold Py.range. generalize (Z.to_nat (b - a)) as n. generalize 0%nat as s.
  intros s n. revert s. induction n as [|n IH]; intros s; simpl; constructor.
  - rewrite in_map_iff. intros (k & E & Hk). apply in_seq in Hk. lia.
  - apply IH.
Qed.

(** At most one element passes a filter whose passing elements exclude
    each other. *)
Lemma filter_at_most_one {A : Type} (f : A -> bool) (l : list A) :
  NoDup l ->
  (forall x y, In x l -> In y l -> x <> y -> f x = true -> f y = true -> False) ->
  (length (filter f l) <= 1)%nat.
Proof.
  induction 1 as [|x r Hx ND IH]; intros Ex; simpl; [lia|].
  destruct (f x) eqn:Fx.
  - assert (E : filter f r = []).
    { destruct (filter f r) as [|y t] eqn:F; [reflexivity|]. exfalso.
      assert (Hy : In y (filter f r)) by (rewrite F; left; reflexivity).
      apply filter_In in Hy. destruct Hy as [Hy Fy].
      apply (Ex x y); simpl; auto. intros ->. contradiction. }
    rewrite E. simpl. lia.
  - apply IH. intros a b Ha Hb. apply Ex; simpl; auto.
Qed.

Lemma length_slice {A : Type} (l : list A) (a b : Z) :
  (length (Py.slice l a b) <= length l)%nat.
Proof.
  unfold Py.slice. rewrite length_firstn, length_skipn. lia.
Qed.

Section Swings.

Import ICTTradingAgent.

Variable df : DataFrame.
Variable level : Bar -> Q.
Variable rel : Q -> Q -> bool.
Hypothesis rel_asym : forall a b, rel a b = true -> rel b a = true -> False.

(** Two swing points of one kind lie more than a window apart. *)
Lemma swings_apart (window i j : Z) :
  is_swing df level rel window i = true ->
  is_swing df level rel window j = true ->
  i <> j -> (window < Z.abs (i - j))%Z.
Proof.
  unfold is_swing, Py.all. rewrite !forallb_forall. intros Hi Hj Ne.
  destruct (Z_lt_le_dec window (Z.abs (i - j))) as [|Hc]; [assumption|]. exfalso.
  apply (rel_asym (level (iloc df i)) (level (iloc df j))).
  - apply Hi. apply filter_In. split; [apply in_range; lia|].
    apply negb_true_iff, Z.eqb_neq. congruence.
  - apply Hj. apply filter_In. split; [apply in_range; lia|].
    apply negb_true_iff, Z.eqb_neq. congruence.
Qed.

Lemma few_bars_one_swing (window : Z) :
  (len df <= 3 * window + 1)%Z ->
  (length (filter (is_swing df level rel window) (Py.range window (len df - window))) <= 1)%nat.
Proof.
  intros Hn. apply filter_at_most_one; [apply NoDup_range|].
  intros i j Hi Hj Ne Si Sj. apply in_range in Hi, Hj.
  pose proof (swings_apart window i j Si Sj Ne). lia.
Qed.

End Swings.

Lemma gt_bool_asym (a b : Q) : Py.Qgt_bool a b = true -> Py.Qgt_bool b a = true -> False.
Proof.
  rewrite !Qgt_bool_iff. intros H1 H2.
  apply (Qlt_irrefl a). eapply Qlt_trans; eassumption.
Qed.

Lemma lt_bool_asym (a b : Q) : Py.Qlt_bool a b = true -> Py.Qlt_bool b a = true -> False.
Proof.
  rewrite !Qlt_bool_iff. intros H1 H2.
  apply (Qlt_irrefl a). eapply Qlt_trans; eassumption.
Qed.

(** X26.  Swing points of one kind keep their distance: two different
    swing highs, or two different swing lows, that
    [_identify_swing_points] returns lie more than [window] bars apart. *)
Theorem swing_points_apart (df : DataFrame) (window : Z)
        (a b : ICTTradingAgent.SwingPoint) :
  let sp := ICTTradingAgent._identify_swing_points df window in
  (In a (ICTTradingAgent.highs sp) /\ In b (ICTTradingAgent.highs sp))
  \/ (In a (ICTTradingAgent.lows sp) /\ In b (ICTTradingAgent.lows sp)) ->
  a <> b ->
  (window < Z.abs (ICTTradingAgent.sp_index a - ICTTradingAgent.sp_index b))%Z.
Proof.
  intros sp H Ne. unfold sp, ICTTradingAgent._identify_swing_points in H.
  cbn [ICTTradingAgent.highs ICTTradingAgent.lows] in H.
  destruct H as [[Ha Hb] | [Ha Hb]];
    apply in_map_iff in Ha; destruct Ha as (i & <- & Hi);
    apply in_map_iff in Hb; destruct Hb as (j & <- & Hj);
    apply filter_In in Hi; destruct Hi as [_ Si];
    apply filter_In in Hj; destruct Hj as [_ Sj];
    cbn [ICTTradingAgent.swing_at ICTTradingAgent.sp_index].
  - apply (swings_apart df High Py.Qgt_bool gt_bool_asym window i j Si Sj).
    intros E. apply Ne. rewrite E. reflexivity.
  - apply (swings_apart df Low Py.Qlt_bool lt_bool_asym window i j Si Sj).
    intros E. apply Ne. rewrite E. reflexivity.
Qed.

Lemma swing_points_apart_witness :
  (5 < Z.abs (ICTTradingAgent.sp_index Cases.first_high
              - ICTTradingAgent.sp_index Cases.last_high))%Z.
Proof.
  exact (swing_points_apart Scenario.uptrend_gap 5 Cases.first_high Cases.last_high
           ltac:(vm_compute; left; split; [left; reflexivity | right; left; reflexivity])
           ltac:(vm_compute; discriminate)).
Defined.

Section FewBars.

Import ICTTradingAgent.

(** With fewer than 17 bars at most one swing high fits, so the trend is
    sideways. *)
Lemma few_bars_sideways (df : DataFrame) :
  (len df < 17)%Z ->
  _determine_trend df (_identify_swing_points df 5) = "SIDEWAYS"%string.
Proof.
  intros Hn. unfold _determine_trend, _identify_swing_points. cbn [highs lows].
  pose proof (few_bars_one_swing df High Py.Qgt_bool gt_bool_asym 5 ltac:(lia)) as H.
  set (hs := Py.last_n 5 _).
  assert (L : (length hs <= 1)%nat).
  { unfold hs, Py.last_n. etransitivity; [apply length_slice|]. rewrite length_map. exact H. }
  assert (E : (Z.of_nat (length hs) <? 2)%Z = true) by (apply Z.ltb_lt; lia).
  rewrite E. reflexivity.
Qed.

(** X9.  When the provider serves fewer than 17 bars, [generate_signals]
    returns no signal: two swing highs with a window of 5 cannot fit, so
    no trend is found. *)
Theorem few_bars_no_signal clock dh cfg symbol t :
  (len (get_price_data dh symbol (lookback_period cfg)) < 17)%Z ->
  fst (generate_signals clock dh cfg symbol t) = [].
Proof.
  intros Hn.
  apply no_trend_no_signal; unfold analyze_market_structure;
    destruct (empty _); cbn; try discriminate;
    rewrite (few_bars_sideways _ Hn); discriminate.
Qed.

End FewBars.

Lemma few_bars_no_signal_witness :
  fst (ICTTradingAgent.generate_signals Scenario.midnight
         (Scenario.provider Scenario.three_bars) default_config "NQ=F" 0%nat) = [].
Proof.
  exact (few_bars_no_signal Scenario.midnight (Scenario.provider Scenario.three_bars)
           default_config "NQ=F" 0%nat ltac:(vm_compute; reflexivity)).
Defined.

(** ** Risk manager: size within budget *)

Lemma int_nonpos (x : Q) : x <= 0 -> (Py.int x <= 0)%Z.
Proof. intros H. apply int_mono in H. exact H. Qed.

(** Truncation does not exceed a non-negative number, and is not negative. *)
Lemma int_below (x : Q) : 0 <= x -> (0 <= Py.int x)%Z /\ inject_Z (Py.int x) <= x.
Proof.
  intros H. split.
  - change 0%Z with (Py.int 0). apply int_mono, H.
  - unfold Py.int, Qle in *. destruct x as [p d]. simpl in *.
    rewrite Z.quot_div_nonneg by lia.
    pose proof (Z.mul_div_le p (Zpos d) ltac:(lia)). lia.
Qed.

Lemma Qdiv_nonpos (x y : Q) : x <= 0 -> 0 < y -> x / y <= 0.
Proof.
  intros Hx Hy. apply Qle_shift_div_r; [assumption|]. rewrite Qmult_0_l. assumption.
Qed.

Lemma Qdiv_ge_iff (x y z : Q) : 0 < y -> (z <= x / y <-> z * y <= x).
Proof.
  intros Hy. split; intros H.
  - apply (Qmult_le_r _ _ (/ y)); [apply Qinv_lt_0_compat, Hy|].
    assert (E : z * y * / y == z) by (field; lra). rewrite E. exact H.
  - apply Qle_shift_div_l; assumption.
Qed.

Lemma Qdiv_pos_iff (x y : Q) : 0 < y -> (0 < x / y <-> 0 < x).
Proof.
  intros Hy. split; intros H.
  - apply (Qmult_lt_r _ _ (/ y)); [apply Qinv_lt_0_compat, Hy|].
    rewrite Qmult_0_l. exact H.
  - apply Qlt_shift_div_l; [assumption|]. rewrite Qmult_0_l. exact H.
Qed.

(** X10.  With non-negative capital, a positive entry price and
    non-negative risk and size fractions, [calculate_position_size]
    returns a non-negative size that stays within its three budgets: the
    loss at the stop is at most the risked share of the capital, and the
    cost of the position is at most the maximum position share of the
    capital and at most the capital itself. *)
Theorem position_size_within_budget (self : RiskManager.t) (capital entry stop : Q)
        (arg : option Q) :
  let risk_pct := Py.or_float arg (RiskManager.risk_per_trade (RiskManager.config self)) in
  let cap := RiskManager.max_position_size (RiskManager.config self) in
  0 <= capital -> 0 < entry -> 0 <= risk_pct -> 0 <= cap ->
  exists size,
    RiskManager.calculate_position_size self capital entry stop arg = Some size
    /\ (0 <= size)%Z
    /\ inject_Z size * Qabs (entry - stop) <= capital * risk_pct
    /\ inject_Z size * entry <= capital * cap
    /\ inject_Z size * entry <= capital.
Proof.
  intros risk_pct cap Hc He Hr Hm.
  destruct (Qlt_le_dec 0 (Qabs (entry - stop))) as [Hp | Hz].
  - rewrite size_is_least_bound by assumption. fold risk_pct cap.
    set (a := capital * risk_pct / Qabs (entry - stop)).
    set (b := capital * cap / entry). set (k := capital / entry).
    assert (Ha : 0 <= a) by (apply Qdiv_nonneg; [apply Qmult_le_0_compat|]; assumption).
    assert (Hb : 0 <= b) by (apply Qdiv_nonneg; [apply Qmult_le_0_compat|]; assumption).
    assert (Hk : 0 <= k) by (apply Qdiv_nonneg; assumption).
    destruct (int_below a Ha) as [A0 A1], (int_below b Hb) as [B0 B1],
      (int_below k Hk) as [K0 K1].
    eexists. split; [reflexivity|].
    set (size := Z.min (Z.min (Py.int a) (Py.int b)) (Py.int k)).
    assert (Sa : inject_Z size <= a).
    { eapply Qle_trans; [|exact A1]. rewrite <- Zle_Qle. unfold size. lia. }
    assert (Sb : inject_Z size <= b).
    { eapply Qle_trans; [|exact B1]. rewrite <- Zle_Qle. unfold size. lia. }
    assert (Sk : inject_Z size <= k).
    { eapply Qle_trans; [|exact K1]. rewrite <- Zle_Qle. unfold size. lia. }
    split; [unfold size; lia|].
    repeat split.
    + apply (Qdiv_ge_iff _ _ _ Hp). exact Sa.
    + apply (Qdiv_ge_iff _ _ _ He). exact Sb.
    + apply (Qdiv_ge_iff _ _ _ He). exact Sk.
  - exists 0%Z. unfold RiskManager.calculate_position_size.
    apply Qle_bool_iff in Hz as Hb. rewrite Hb. split; [reflexivity|]. split; [lia|].
    pose proof (Qmult_le_0_compat _ _ Hc Hr). pose proof (Qmult_le_0_compat _ _ Hc Hm).
    change (inject_Z 0) with 0. rewrite !Qmult_0_l. repeat split; assumption.
Qed.

Lemma position_size_within_budget_witness :
  exists size,
    RiskManager.calculate_position_size Scenario.fresh_manager 10000 100 95 None
    = Some size
    /\ (0 <= size)%Z
    /\ inject_Z size * Qabs (100 - 95)
       <= 10000 * Py.or_float None (RiskManager.risk_per_trade
                                      (RiskManager.config Scenario.fresh_manager))
    /\ inject_Z size * 100
       <= 10000 * RiskManager.max_position_size (RiskManager.config Scenario.fresh_manager)
    /\ inject_Z size * 100 <= 10000.
Proof.
  exact (position_size_within_budget Scenario.fresh_manager 10000 100 95 None
           ltac:(vm_compute; discriminate) ltac:(reflexivity)
           ltac:(vm_compute; discriminate) ltac:(vm_compute; discriminate)).
Defined.

(** With no capital the sizing never returns a positive size. *)
Lemma size_without_capital (self : RiskManager.t) (capital entry stop : Q) (size : Z) :
  capital <= 0 -> 0 <= entry ->
  0 <= RiskManager.risk_per_trade (RiskManager.config self) ->
  RiskManager.calculate_position_size self capital entry stop None = Some size ->
  (size <= 0)%Z.
Proof.
  intros Hc He Hr H.
  destruct (Qlt_le_dec 0 (Qabs (entry - stop))) as [Hp | Hz].
  - destruct (Qle_lt_or_eq _ _ He) as [Hpos | Hzero].
    + rewrite size_is_least_bound in H by assumption. injection H as <-.
      etransitivity; [apply Z.le_min_l|]. etransitivity; [apply Z.le_min_l|].
      apply int_nonpos, Qdiv_nonpos; [|assumption]. cbn [Py.or_float].
      assert (X : capital * RiskManager.risk_per_trade (RiskManager.config self)
                  == - ((- capital) * RiskManager.risk_per_trade (RiskManager.config self)))
        by ring.
      rewrite X.
      assert (Y : 0 <= - capital * RiskManager.risk_per_trade (RiskManager.config self))
        by (apply Qmult_le_0_compat; lra).
      lra.
    + unfold RiskManager.calculate_position_size in H.
      apply Qle_bool_false in Hp. rewrite Hp in H.
      assert (E : Qeq_bool entry 0 = true) by (apply Qeq_bool_iff; symmetry; exact Hzero).
      rewrite E in H. discriminate.
  - unfold RiskManager.calculate_position_size in H.
    apply Qle_bool_iff in Hz. rewrite Hz in H. injection H as <-. lia.
Qed.

(** X11.  Without capital no trade is validated: with capital at most
    zero, a non-negative signal price and a non-negative risk share,
    [validate_trade] never answers [True], whatever the positions and
    the other keys of the signal. *)
Theorem no_capital_never_validates (self : RiskManager.t) (signal : RiskManager.SignalDict)
        (capital : Q) (current_positions : option (list RiskManager.Position)) :
  capital <= 0 ->
  0 <= get (RiskManager.price signal) 0 ->
  0 <= RiskManager.risk_per_trade (RiskManager.config self) ->
  forall reason,
    RiskManager.validate_trade self signal capital current_positions
    <> Some (true, reason).
Proof.
  intros Hc He Hr reason. unfold RiskManager.validate_trade.
  destruct (_ <=? _)%Z; [discriminate|].
  destruct (RiskManager.calculate_position_size _ _ _ _ _) as [size|] eqn:S; [|discriminate].
  apply size_without_capital in S; try assumption.
  apply Z.leb_le in S. rewrite S. discriminate.
Qed.

Lemma no_capital_never_validates_witness :
  RiskManager.validate_trade Scenario.fresh_manager Scenario.long_signal 0 None
  <> Some (true, RiskManager.TradeValidated).
Proof.
  exact (no_capital_never_validates Scenario.fresh_manager Scenario.long_signal 0 None
           ltac:(vm_compute; discriminate) ltac:(vm_compute; discriminate)
           ltac:(vm_compute; discriminate) RiskManager.TradeValidated).
Defined.

(** ** Risk manager: stops, targets and limits *)

Section RiskTools.

Import RiskManager.

Variable self : RiskManager.t.

(** X12.  [calculate_take_profit], for a direction in ASCII: an explicit
    ratio of zero is replaced by the configured one, exactly as an
    omitted ratio is; with a non-negative ratio the target is at or
    above the entry for "LONG" and "BULLISH" in any letter case, and at
    or below it for every other direction; and a stop further from the
    entry never brings the target closer. *)
Theorem take_profit_side (entry_price stop_loss : Q) (direction : string)
        (rr_ratio : option Q) :
  ascii_only direction = true ->
  let ratio := Py.or_float rr_ratio (take_profit_ratio (config self)) in
  let target := calculate_take_profit self entry_price stop_loss direction rr_ratio in
  calculate_take_profit self entry_price stop_loss direction (Some 0)
  = calculate_take_profit self entry_price stop_loss direction None
  /\ (0 <= ratio ->
      if is_long direction then entry_price <= target else target <= entry_price)
  /\ (forall wider_stop,
         0 <= ratio ->
         Qabs (entry_price - stop_loss) <= Qabs (entry_price - wider_stop) ->
         let further :=
           calculate_take_profit self entry_price wider_stop direction rr_ratio in
         if is_long direction then target <= further else further <= target).
Proof.
  intros _ ratio target. split; [reflexivity|].
  unfold target, calculate_take_profit. fold ratio.
  pose proof (Qabs_nonneg (entry_price - stop_loss)) as Hr.
  split.
  - intros H0. pose proof (Qmult_le_0_compat _ _ Hr H0) as Hp.
    destruct (is_long direction); lra.
  - intros wider H0 Hw. cbv zeta. fold ratio.
    pose proof (Qmult_le_compat_r _ _ ratio Hw H0) as Hp.
    destruct (is_long direction); lra.
Qed.

(** X13.  A farther target never invalidates a trade: when
    [validate_trade] validates a signal, it also validates the signal
    with the same price and stop and a target at least as far from the
    price. *)
Theorem farther_target_stays_valid (signal : SignalDict) (farther : Q) (capital : Q)
        (current_positions : option (list Position)) (reason : Reason) :
  let entry := get (price signal) 0 in
  Qabs (get (sd_take_profit signal) 0 - entry) <= Qabs (farther - entry) ->
  validate_trade self signal capital current_positions = Some (true, reason) ->
  validate_trade self (mkSignalDict (price signal) (sd_stop_loss signal) (Some farther))
    capital current_positions
  = Some (true, TradeValidated).
Proof.
  intros entry Hf. unfold validate_trade. cbn [price sd_stop_loss sd_take_profit].
  fold entry. cbn [get].
  destruct (_ <=? _)%Z; [discriminate|].
  destruct (calculate_position_size _ _ _ _ _) as [size|]; [|discriminate].
  destruct (size <=? 0)%Z; [discriminate|].
  destruct (Py.Qgt_bool (_ + _) _); [discriminate|].
  destruct (Py.Qgt_bool (Qabs (entry - _)) 0) eqn:R; [|reflexivity].
  apply Qgt_bool_iff in R.
  destruct (Py.Qlt_bool (Qabs (get (sd_take_profit signal) 0 - entry) / _) _) eqn:L;
    [discriminate|]. intros _.
  apply Qlt_bool_false in L.
  assert (L' : Py.Qlt_bool (Qabs (farther - entry) / Qabs (entry - get (sd_stop_loss signal) 0))
                 (take_profit_ratio (config self)) = false).
  { apply Qlt_bool_false. eapply Qle_trans; [exact L|].
    apply Qdiv_le_mono_num; assumption. }
  rewrite L'. reflexivity.
Qed.

(** X14.  [calculate_stop_loss], for a direction in ASCII and a
    non-negative ATR distance, never puts the stop on the winning side of
    the entry nor beyond the ATR stop: for "LONG" and "BULLISH" in any
    letter case it lies between [entry - atr * multiplier] and the
    entry, and at or above a non-zero support level below the entry; for
    every other direction it lies between the entry and
    [entry + atr * multiplier], and at or below a non-zero resistance
    level above the entry. *)
Theorem stop_loss_side (entry_price : Q) (direction : string) (atr : Q)
        (support_resistance : option Q) :
  ascii_only direction = true ->
  0 <= atr * stop_loss_atr_multiplier (config self) ->
  let stop := calculate_stop_loss self entry_price direction atr support_resistance in
  if is_long direction
  then (entry_price - atr * stop_loss_atr_multiplier (config self) <= stop
        /\ stop <= entry_price)
       /\ (forall level, support_resistance = Some level -> ~ level == 0 ->
                         level < entry_price -> level <= stop)
  else (entry_price <= stop
        /\ stop <= entry_price + atr * stop_loss_atr_multiplier (config self))
       /\ (forall level, support_resistance = Some level -> ~ level == 0 ->
                         entry_price < level -> stop <= level).
Proof.
  intros _ Ha stop. unfold stop, calculate_stop_loss.
  set (d := atr * stop_loss_atr_multiplier (config self)) in *.
  destruct (is_long direction).
  - destruct support_resistance as [level|];
      [|split; [split; [apply Qle_refl | lra] | intros ? [=]]].
    destruct (negb _ && _)%bool eqn:C.
    + apply andb_true_iff in C. destruct C as [_ C]. apply Qlt_bool_iff in C.
      split; [split; [apply Q.le_max_l | apply Q.max_lub; lra]|].
      intros l [= <-] _ _. apply Q.le_max_r.
    + split; [split; [apply Qle_refl | lra]|].
      intros l [= <-] Nz Lt. exfalso.
      apply andb_false_iff in C. destruct C as [C | C].
      * apply negb_false_iff, Qeq_bool_iff in C. contradiction.
      * apply Qlt_bool_false in C. lra.
  - destruct support_resistance as [level|];
      [|split; [split; [lra | apply Qle_refl] | intros ? [=]]].
    destruct (negb _ && _)%bool eqn:C.
    + apply andb_true_iff in C. destruct C as [_ C]. apply Qgt_bool_iff in C.
      split; [split; [apply Q.min_glb; lra | apply Q.le_min_l]|].
      intros l [= <-] _ _. apply Q.le_min_r.
    + split; [split; [lra | apply Qle_refl]|].
      intros l [= <-] Nz Lt. exfalso.
      apply andb_false_iff in C. destruct C as [C | C].
      * apply negb_false_iff, Qeq_bool_iff in C. contradiction.
      * apply Qlt_bool_false in C. lra.
Qed.

(** A limit check on [(reference - current) / reference] against [limit]. *)
Lemma limit_check_facts (reference limit : Q) :
  let reached current :=
    Py.Qge_bool (if Py.Qgt_bool reference 0 then (reference - current) / reference else 0)
                limit in
  (0 < reference ->
   (forall current lower, lower <= current -> reached current = true -> reached lower = true)
   /\ (forall current, 0 < limit -> reference <= current -> reached current = false)
   /\ (forall current, limit <= 1 -> current <= 0 -> reached current = true))
  /\ (reference <= 0 -> forall current, reached current = true <-> limit <= 0).
Proof.
  intros reached. unfold reached. split.
  - intros Hp. apply Qgt_bool_iff in Hp as Hb. rewrite Hb. repeat split.
    + intros c l Hl. rewrite !Qge_bool_iff, !(Qdiv_ge_iff _ _ _ Hp). intros H. lra.
    + intros c Hl Hc. apply Qle_bool_false. apply Qlt_shift_div_r; [exact Hp|].
      pose proof (Qmult_lt_0_compat _ _ Hl Hp). lra.
    + intros c Hl Hc. apply Qge_bool_iff. apply (Qdiv_ge_iff _ _ _ Hp).
      assert (limit * reference <= 1 * reference)
        by (apply Qmult_le_compat_r; lra). lra.
  - intros Hn c. apply Qlt_bool_false in Hn as Hb. unfold Py.Qgt_bool at 1. rewrite Hb.
    rewrite Qge_bool_iff. reflexivity.
Qed.

(** X15.  The daily-loss limit and the drawdown limit are monotone in the
    current capital.  With a positive reference (the starting capital of
    the day, or the peak), a limit that is reached at some capital is
    reached at every lower capital; with a positive limit it is not
    reached while the capital is at or above the reference; with a limit
    of at most 1 it is reached once the capital is at or below zero.
    With a reference at or below zero the reported fraction is 0 and the
    limit counts as reached exactly when the configured limit is at
    most 0. *)
Theorem loss_limits_monotone :
  (forall starting_capital,
      let reached current := fst (check_daily_loss_limit self starting_capital current) in
      let limit := max_daily_loss (config self) in
      (0 < starting_capital ->
       (forall current lower,
           lower <= current -> reached current = true -> reached lower = true)
       /\ (forall current, 0 < limit -> starting_capital <= current -> reached current = false)
       /\ (forall current, limit <= 1 -> current <= 0 -> reached current = true))
      /\ (starting_capital <= 0 ->
          forall current,
            snd (check_daily_loss_limit self starting_capital current) = 0
            /\ (reached current = true <-> limit <= 0)))
  /\ (forall peak_capital,
         let reached current := fst (check_drawdown_limit self peak_capital current) in
         let limit := max_drawdown (config self) in
         (0 < peak_capital ->
          (forall current lower,
              lower <= current -> reached current = true -> reached lower = true)
          /\ (forall current, 0 < limit -> peak_capital <= current -> reached current = false)
          /\ (forall current, limit <= 1 -> current <= 0 -> reached current = true))
         /\ (peak_capital <= 0 ->
             forall current,
               snd (check_drawdown_limit self peak_capital current) = 0
               /\ (reached current = true <-> limit <= 0))).
Proof.
  split; intros reference reached limit;
    destruct (limit_check_facts reference limit) as [P N];
    (split; [exact P|]); intros Hn current; (split; [|exact (N Hn current)]);
    unfold check_daily_loss_limit, check_drawdown_limit; cbn [snd];
    apply Qlt_bool_false in Hn; unfold Py.Qgt_bool; rewrite Hn; reflexivity.
Qed.

(** X16.  With a non-negative maximum position size, the Kelly fraction
    is 0 for an average loss at or below zero (so also for a loss passed
    as a negative number); it is undefined (a division by zero) when the
    win/loss ratio [avg_win / |avg_loss|] is zero; and otherwise it lies
    between 0 and the maximum position size, is 0 for a positive ratio
    and a win rate at or below 0, and is positive for a positive ratio,
    a win rate of at least 1 and a positive maximum position size. *)
Theorem kelly_fraction_range (win_rate avg_win avg_loss : Q) :
  0 <= max_position_size (config self) ->
  let win_loss_ratio := avg_win / Qabs avg_loss in
  (avg_loss <= 0 -> calculate_kelly_criterion self win_rate avg_win avg_loss = Some 0)
  /\ (0 < avg_loss -> win_loss_ratio == 0 ->
      calculate_kelly_criterion self win_rate avg_win avg_loss = None)
  /\ (0 < avg_loss -> ~ win_loss_ratio == 0 ->
      exists k,
        calculate_kelly_criterion self win_rate avg_win avg_loss = Some k
        /\ 0 <= k <= max_position_size (config self)
        /\ (0 < win_loss_ratio -> win_rate <= 0 -> k == 0)
        /\ (0 < win_loss_ratio -> 1 <= win_rate -> 0 < max_position_size (config self) ->
            0 < k)).
Proof.
  intros Hm b. unfold calculate_kelly_criterion. fold b. split; [|split].
  - intros H. apply Qle_bool_iff in H. rewrite H. reflexivity.
  - intros Hl Hw. apply Qle_bool_false in Hl as Hb. rewrite Hb.
    apply Qeq_bool_iff in Hw. rewrite Hw. reflexivity.
  - intros Hl Hw. apply Qle_bool_false in Hl as Hb. rewrite Hb.
    apply Qeq_bool_false_iff in Hw. rewrite Hw. eexists. split; [reflexivity|].
    set (f := (win_rate * b - (1 - win_rate)) / b * (25 # 100)).
    split; [|split].
    + split; [apply Q.le_max_l|].
      apply Q.max_lub; [assumption | apply Q.le_min_r].
    + intros Hb0 Hw0.
      assert (Hf : f <= 0).
      { unfold f.
        assert (N : (win_rate * b - (1 - win_rate)) / b <= 0).
        { apply Qdiv_nonpos; [|exact Hb0].
          assert (0 <= (- win_rate) * b) by (apply Qmult_le_0_compat; lra). lra. }
        lra. }
      apply Qle_antisym; [|apply Q.le_max_l].
      apply Q.max_lub; [apply Qle_refl|].
      eapply Qle_trans; [apply Q.le_min_l | exact Hf].
    + intros Hb0 Hw1 Hc.
      assert (Hf : 0 < f).
      { unfold f.
        assert (P : 0 < (win_rate * b - (1 - win_rate)) / b).
        { apply Qdiv_pos_iff; [exact Hb0|].
          assert (0 <= (win_rate - 1) * b) by (apply Qmult_le_0_compat; lra). lra. }
        lra. }
      eapply Qlt_le_trans; [|apply Q.le_max_r].
      apply Q.min_glb_lt; assumption.
Qed.

End RiskTools.

Lemma take_profit_side_witness :
  100 <= RiskManager.calculate_take_profit Scenario.fresh_manager 100 95 "long" None.
Proof.
  exact (proj1 (proj2 (take_profit_side Scenario.fresh_manager 100 95 "long" None
                         ltac:(reflexivity)))
           ltac:(vm_compute; discriminate)).
Defined.

Lemma farther_target_stays_valid_witness :
  RiskManager.validate_trade Scenario.fresh_manager
    (RiskManager.mkSignalDict (RiskManager.price Scenario.long_signal)
       (RiskManager.sd_stop_loss Scenario.long_signal) (Some 120))
    10000 None
  = Some (true, RiskManager.TradeValidated).
Proof.
  exact (farther_target_stays_valid Scenario.fresh_manager Scenario.long_signal 120 10000
           None RiskManager.TradeValidated
           ltac:(vm_compute; discriminate) ltac:(vm_compute; reflexivity)).
Defined.

Lemma stop_loss_side_witness :
  100 - 3 * RiskManager.stop_loss_atr_multiplier (RiskManager.config Scenario.fresh_manager)
  <= RiskManager.calculate_stop_loss Scenario.fresh_manager 100 "long" 3 (Some 97)
  /\ RiskManager.calculate_stop_loss Scenario.fresh_manager 100 "long" 3 (Some 97) <= 100.
Proof.
  exact (proj1 (stop_loss_side Scenario.fresh_manager 100 "long" 3 (Some 97)
                  ltac:(reflexivity) ltac:(vm_compute; discriminate))).
Defined.

Lemma kelly_fraction_range_witness :
  RiskManager.calculate_kelly_criterion Scenario.fresh_manager (6 # 10) 150 (-100)
  = Some 0.
Proof.
  exact (proj1 (kelly_fraction_range Scenario.fresh_manager (6 # 10) 150 (-100)
                  ltac:(vm_compute; discriminate))
           ltac:(vm_compute; discriminate)).
Defined.

(** ** Risk manager and backtester: one sizing rule *)

(** X17.  For the default risk configuration and non-negative capital
    and entry price, the backtester's own [_calculate_position_size]
    computes what the risk manager's [calculate_position_size] computes,
    the division by a zero entry price included: the affordability check
    of the risk manager never changes the size. *)
Theorem backtest_sizing_agrees (self : RiskManager.t) (capital entry stop : Q) :
  RiskManager.config self = RiskManager.default_config ->
  0 <= capital -> 0 <= entry ->
  Backtester._calculate_position_size capital entry stop
  = RiskManager.calculate_position_size self capital entry stop None.
Proof.
  intros Hcfg Hc He.
  destruct (Qlt_le_dec 0 (Qabs (entry - stop))) as [Hp | Hz].
  - destruct (Qle_lt_or_eq _ _ He) as [Hpos | Hzero].
    + rewrite size_is_least_bound by assumption. rewrite Hcfg.
      unfold Backtester._calculate_position_size.
      apply Qle_bool_false in Hp. rewrite Hp.
      assert (E0 : Qeq_bool entry 0 = false).
      { apply Qeq_bool_false_iff. intros E. rewrite E in Hpos. discriminate. }
      rewrite E0. cbn [Py.or_float RiskManager.default_config RiskManager.risk_per_trade
                         RiskManager.max_position_size].
      f_equal. symmetry. apply Z.min_l.
      etransitivity; [apply Z.le_min_r|]. apply int_mono.
      apply Qdiv_le_mono_num; [assumption|]. lra.
    + unfold Backtester._calculate_position_size, RiskManager.calculate_position_size.
      apply Qle_bool_false in Hp. rewrite Hp.
      assert (E : Qeq_bool entry 0 = true) by (apply Qeq_bool_iff; symmetry; exact Hzero).
      rewrite E. reflexivity.
  - unfold Backtester._calculate_position_size, RiskManager.calculate_position_size.
    apply Qle_bool_iff in Hz. rewrite Hz. reflexivity.
Qed.

Lemma backtest_sizing_agrees_witness :
  Backtester._calculate_position_size 10000 100 95
  = RiskManager.calculate_position_size Scenario.fresh_manager 10000 100 95 None.
Proof.
  exact (backtest_sizing_agrees Scenario.fresh_manager 10000 100 95 ltac:(reflexivity)
           ltac:(vm_compute; discriminate) ltac:(vm_compute; discriminate)).
Defined.

(** ** Backtest: exits *)

Section Exits.

Import Backtester.

Variable self : Backtester.t.

(** A position that is not "LONG" and whose stop is not above its target
    leaves at every price. *)
Lemma short_branch_always_exits (df : DataFrame) (position : Position) (price : Q) :
  String.eqb (direction position) "LONG" = false ->
  stop_loss position <= take_profit position ->
  exists reason, _check_exit_signal df position price = Some reason.
Proof.
  intros D H. unfold _check_exit_signal. rewrite D.
  destruct (Py.Qge_bool price (stop_loss position)) eqn:S; [eexists; reflexivity|].
  assert (T : Qle_bool price (take_profit position) = true).
  { apply Qle_bool_iff. apply Qle_bool_false in S. lra. }
  rewrite T. eexists; reflexivity.
Qed.

(** The exit loop closes every such position. *)
Lemma check_exits_all (df : DataFrame) (i date : Z) (price : Q) (l : list Position) :
  Forall closes_at_once l ->
  forall st, positions st = l ->
    let st' :=
      fold_left
        (fun st position =>
           match _check_exit_signal (up_to df i) position price with
           | Some reason => close_position self date price reason position st
           | None => st
           end) l st in
    positions st' = []
    /\ length (trades st') = (length (trades st) + length l)%nat
    /\ equity_curve st' = equity_curve st.
Proof.
  induction 1 as [|p r [D H] _ IH]; intros st E; simpl.
  - rewrite E. repeat split. lia.
  - destruct (short_branch_always_exits (up_to df i) p price D H) as [reason R].
    rewrite R.
    specialize (IH (close_position self date price reason p st)).
    simpl in IH. rewrite E in IH. simpl in IH. rewrite position_eqb_refl in IH.
    destruct (IH eq_refl) as (P & T & Q). split; [exact P|]. split; [|exact Q].
    rewrite T. rewrite length_app. simpl. lia.
Qed.

(** X18.  A position whose direction is not "LONG" is checked on the
    short branch, and when its stop is not above its target one of the
    two exits fires at every price: the exit loop then closes all such
    positions in one pass and records one trade for each. *)
Theorem short_branch_positions_close_at_once (df : DataFrame) (i date : Z) (price : Q)
        (st : State) :
  Forall closes_at_once (positions st) ->
  positions (check_exits self df i date price st) = []
  /\ length (trades (check_exits self df i date price st))
     = (length (trades st) + length (positions st))%nat.
Proof.
  intros H. unfold check_exits.
  destruct (check_exits_all df i date price (positions st) H st eq_refl) as (P & T & _).
  split; assumption.
Qed.

End Exits.

Lemma short_branch_positions_close_at_once_witness :
  Backtester.positions
    (Backtester.check_exits (Scenario.backtester Scenario.calm_then_gap)
       Scenario.calm_then_gap 101 101 100 Cases.holding) = [].
Proof.
  exact (proj1 (short_branch_positions_close_at_once
                  (Scenario.backtester Scenario.calm_then_gap) Scenario.calm_then_gap
                  101 101 100 Cases.holding
                  ltac:(repeat constructor; vm_compute; discriminate))).
Defined.

(** ** Backtest: the loop *)

Section Loop.

Import Backtester.

Variable clock : Clock.
Variable self : Backtester.t.
Variable symbol : string.

Lemma in_remove (p x : Position) (l : list Position) : In x (remove p l) -> In x l.
Proof.
  induction l as [|y l IH]; simpl; [tauto|].
  destruct (position_eqb y p); simpl; tauto.
Qed.

Lemma length_remove (p : Position) (l : list Position) :
  (length (remove p l) <= length l)%nat.
Proof.
  induction l as [|y l IH]; simpl; [lia|].
  destruct (position_eqb y p); simpl; lia.
Qed.

(** The exit loop only removes positions and only appends trades. *)
Lemma exit_fold_shrinks (df : DataFrame) (i date : Z) (price : Q) (l : list Position) :
  forall st,
    let st' :=
      fold_left
        (fun st position =>
           match _check_exit_signal (up_to df i) position price with
           | Some reason => close_position self date price reason position st
           | None => st
           end) l st in
    (length (positions st') <= length (positions st))%nat
    /\ (forall p, In p (positions st') -> In p (positions st))
    /\ equity_curve st' = equity_curve st
    /\ ticks st' = ticks st.
Proof.
  induction l as [|p r IH]; intros st; simpl; [repeat split; auto|].
  destruct (_check_exit_signal (up_to df i) p price) as [reason|]; [|apply IH].
  destruct (IH (close_position self date price reason p st)) as (L & I & Q & T).
  simpl in L, I, Q, T. repeat split.
  - etransitivity; [exact L | apply length_remove].
  - intros x Hx. eapply in_remove, I, Hx.
  - exact Q.
  - exact T.
Qed.

Lemma check_exits_shrinks (df : DataFrame) (i date : Z) (price : Q) (st : State) :
  let st' := check_exits self df i date price st in
  (length (positions st') <= length (positions st))%nat
  /\ (forall p, In p (positions st') -> In p (positions st))
  /\ equity_curve st' = equity_curve st
  /\ ticks st' = ticks st.
Proof. unfold check_exits. apply exit_fold_shrinks. Qed.

(** What step 3 does to the state. *)
Lemma enter_signals_cases (date : Z) (st : State) :
  let signals :=
    fst (ICTTradingAgent.generate_signals clock (data_handler self) default_config symbol
           (ticks st)) in
  match enter_signals clock self symbol date st with
  | None => exists s, In s signals /\ ICTTradingAgent.s_price s == 0
  | Some st' =>
      equity_curve st' = equity_curve st
      /\ (positions st' = positions st
          \/ ((length (positions st) < 3)%nat
              /\ exists s size, In s signals
                                /\ positions st' = positions st ++ [position_of self date s size]))
  end.
Proof.
  intros signals. unfold enter_signals.
  destruct (_ <? 3)%Z eqn:C; [|split; [reflexivity | left; reflexivity]].
  apply Z.ltb_lt in C. unfold signals.
  destruct (ICTTradingAgent.generate_signals _ _ _ _ _) as [l t']. cbn [fst].
  rewrite slice_first. destruct l as [|s r]; [split; [reflexivity | left; reflexivity]|].
  unfold admit_signal.
  destruct (Py.Qge_bool _ _); [|split; [reflexivity | left; reflexivity]].
  unfold _calculate_position_size. cbn [capital].
  destruct (Qle_bool _ 0); [cbn; split; [reflexivity | left; reflexivity]|].
  destruct (Qeq_bool (ICTTradingAgent.s_price s) 0) eqn:Z.
  - exists s. split; [left; reflexivity | apply Qeq_bool_iff, Z].
  - destruct (0 <? _)%Z; [|split; [reflexivity | left; reflexivity]].
    unfold open_position. cbn [capital positions trades equity_curve ticks].
    destruct (Qle_bool _ _); cbn; (split; [reflexivity|]); [right | left; reflexivity].
    split; [lia|]. eexists s, _. split; [left; reflexivity | reflexivity].
Qed.

End Loop.

Lemma range_cons (a b : Z) : (a < b)%Z -> Py.range a b = a :: Py.range (a + 1) b.
Proof.
  intros H. unfold Py.range.
  replace (Z.to_nat (b - a)) with (S (Z.to_nat (b - (a + 1)))) by lia.
  simpl. f_equal; [lia|].
  rewrite <- seq_shift, map_map. apply map_ext. intros k. lia.
Qed.

Lemma range_nil (a b : Z) : (b <= a)%Z -> Py.range a b = [].
Proof.
  intros H. unfold Py.range. replace (Z.to_nat (b - a)) with 0%nat by lia. reflexivity.
Qed.

(** The rows from index [n] on, read through [iloc]. *)
Lemma iloc_range (df : DataFrame) (n : nat) :
  map (iloc df) (Py.range (Z.of_nat n) (len df)) = skipn n (rows df).
Proof.
  unfold len, iloc, Py.item. remember (length (rows df) - n)%nat as k eqn:K.
  revert n K. induction k as [|k IH]; intros n K.
  - rewrite range_nil by lia. rewrite skipn_all2 by lia. reflexivity.
  - rewrite range_cons by lia. simpl map. rewrite Nat2Z.id.
    replace (Z.of_nat n + 1)%Z with (Z.of_nat (S n)) by lia.
    rewrite (IH (S n)) by lia.
    assert (Hn : (n < length (rows df))%nat) by lia.
    clear -Hn. revert n Hn. induction (rows df) as [|x l IHl]; intros n Hn; simpl in *; [lia|].
    destruct n as [|n]; [reflexivity|]. apply IHl. lia.
Qed.

Section LoopFacts.

Import Backtester.

Variable clock : Clock.
Variable self : Backtester.t.
Variable symbol : string.
Variable df : DataFrame.

(** One iteration: a dated equity sample, at most one more position. *)
Lemma step_facts (i : Z) (st st' : State) :
  step clock self symbol df i st = Some st' ->
  map date (equity_curve st') = map date (equity_curve st) ++ [timestamp (iloc df i)]
  /\ ((length (positions st) <= 3)%nat -> (length (positions st') <= 3)%nat).
Proof.
  unfold step. intros H.
  set (st1 := record_equity (timestamp (iloc df i)) (Close (iloc df i)) st) in *.
  set (st2 := check_exits self df i (timestamp (iloc df i)) (Close (iloc df i)) st1) in *.
  destruct (check_exits_shrinks self df i (timestamp (iloc df i)) (Close (iloc df i)) st1)
    as (L & _ & Q & _). fold st2 in L, Q.
  pose proof (enter_signals_cases clock self symbol (timestamp (iloc df i)) st2) as C.
  rewrite H in C. destruct C as (Q' & P).
  split.
  - rewrite Q', Q. unfold st1, record_equity. cbn [equity_curve].
    rewrite map_app. reflexivity.
  - intros L3. assert (L1 : length (positions st1) = length (positions st)) by reflexivity.
    destruct P as [-> | (Lt & s & size & _ & ->)]; [lia|].
    rewrite length_app. simpl. lia.
Qed.

Lemma loop_facts (indices : list Z) :
  forall st st',
    loop clock self symbol df indices st = Some st' ->
    map date (equity_curve st')
    = map date (equity_curve st) ++ map (fun i => timestamp (iloc df i)) indices
    /\ ((length (positions st) <= 3)%nat -> (length (positions st') <= 3)%nat).
Proof.
  induction indices as [|i r IH]; intros st st' H; simpl in H.
  - injection H as <-. rewrite app_nil_r. auto.
  - destruct (step clock self symbol df i st) as [st1|] eqn:S; [|discriminate].
    destruct (step_facts i st st1 S) as (E1 & P1).
    destruct (IH st1 st' H) as (E2 & P2).
    split; [|auto]. rewrite E2, E1, <- app_assoc. reflexivity.
Qed.

(** X19.  The backtest never holds more than three positions: whatever
    the bars and the provider, the state after any iteration has at most
    three open positions. *)
Theorem at_most_three_positions (i : Z) (st : State) :
  state_after clock self symbol df i = Some st ->
  (length (positions st) <= 3)%nat.
Proof.
  unfold state_after. intros H. apply loop_facts in H. destruct H as [_ H].
  apply H. simpl. lia.
Qed.

(** Every iteration returns when no signal has a zero price. *)
Lemma loop_returns (indices : list Z) :
  (forall t s, In s (fst (ICTTradingAgent.generate_signals clock (data_handler self)
                            default_config symbol t)) ->
               ~ ICTTradingAgent.s_price s == 0) ->
  forall st, exists st', loop clock self symbol df indices st = Some st'.
Proof.
  intros Hp. induction indices as [|i r IH]; intros st; simpl; [eexists; reflexivity|].
  unfold step.
  set (st2 := check_exits _ _ _ _ _ _).
  pose proof (enter_signals_cases clock self symbol (timestamp (iloc df i)) st2) as C.
  destruct (enter_signals clock self symbol (timestamp (iloc df i)) st2) as [st3|].
  - apply IH.
  - destruct C as (s & Hin & Z). exfalso. apply (Hp _ s Hin Z).
Qed.

End LoopFacts.

(** ** Backtest: whole runs *)

(** The trend does not depend on the wall clock. *)
Lemma trend_any_time clock1 clock2 dh cfg symbol t1 t2 :
  ICTTradingAgent.trend_of (fst (ICTTradingAgent.analyze_market_structure clock1 dh cfg symbol t1))
  = ICTTradingAgent.trend_of
      (fst (ICTTradingAgent.analyze_market_structure clock2 dh cfg symbol t2)).
Proof.
  unfold ICTTradingAgent.analyze_market_structure. destruct (empty _); reflexivity.
Qed.

(** On sound bars every signal has a positive price, and a bullish signal
    has its stop at or below its target. *)
Lemma signal_prices clock dh cfg symbol t s :
  sound_bars (get_price_data dh symbol (lookback_period cfg)) ->
  In s (fst (ICTTradingAgent.generate_signals clock dh cfg symbol t)) ->
  0 < ICTTradingAgent.s_price s
  /\ (ICTTradingAgent.s_direction s = "BULLISH"%string ->
      ICTTradingAgent.s_stop_loss s <= ICTTradingAgent.s_take_profit s).
Proof.
  intros Hs Hin. apply generate_signals_unfold in Hin.
  destruct Hin as (p & O & D & P & S & T & _). rewrite D, P, S, T.
  apply (pattern_prices _ Hs cfg p).
  destruct O as [[O _] | [O _]]; [left | right]; exact O.
Qed.

Section Runs.

Import Backtester.

Variable clock : Clock.
Variable self : Backtester.t.
Variable symbol : string.

(** X20.  A completed backtest records exactly one equity sample for
    each bar from index 100 on, dated with that bar's timestamp and in
    the order of the bars; with at most 100 bars it records none, makes
    no trade and returns the initial capital. *)
Theorem equity_curve_dates (start_date end_date interval : string) (result : Result) :
  let df := get_historical_data (data_handler self) symbol start_date end_date interval in
  run_backtest clock self symbol start_date end_date interval = Completed result ->
  map date (r_equity_curve result) = map timestamp (skipn 100 (rows df))
  /\ ((len df <= 100)%Z ->
      r_trades result = [] /\ final_capital result = initial_capital self).
Proof.
  intros df. unfold run_backtest. fold df. destruct (empty df); [discriminate|].
  destruct (loop clock self symbol df (Py.range 100 (len df)) (initial_state self))
    as [st|] eqn:L; [|discriminate].
  intros [= <-]. cbn [r_equity_curve r_trades final_capital]. split.
  - assert (Q : equity_curve (close_remaining self df st) = equity_curve st).
    { unfold close_remaining. generalize (positions st) as l. intros l. revert st L.
      clear. intros st _. revert st.
      induction l as [|p l IH]; intros st; simpl; [reflexivity|]. rewrite IH. reflexivity. }
    rewrite Q. apply loop_facts in L. destruct L as [E _]. rewrite E.
    cbn [initial_state equity_curve map app].
    rewrite <- (iloc_range df 100), map_map. reflexivity.
  - intros Hn. rewrite range_nil in L by lia. simpl in L. injection L as <-.
    split; reflexivity.
Qed.

(** X21.  When the bars that the provider serves to the agent have
    positive lows that are not above their highs, the trading loop of
    [run_backtest] never raises: every signal has a positive price, so
    the position sizing never divides by zero.  (The metrics that the
    function derives afterwards from the trade log and the equity curve
    are not part of [Result].) *)
Theorem backtest_completes (start_date end_date interval : string) :
  sound_bars (get_price_data (data_handler self) symbol (lookback_period default_config)) ->
  run_backtest clock self symbol start_date end_date interval <> Raised.
Proof.
  intros Hs. unfold run_backtest. destruct (empty _); [discriminate|].
  destruct (loop_returns clock self symbol
              (get_historical_data (data_handler self) symbol start_date end_date interval)
              (Py.range 100 (len (get_historical_data (data_handler self) symbol start_date
                                    end_date interval)))) with (st := initial_state self)
    as [st' E].
  - intros t s Hin Z. destruct (signal_prices _ _ _ _ _ _ Hs Hin) as [P _].
    rewrite Z in P. discriminate.
  - rewrite E. discriminate.
Qed.

(** In an uptrend one iteration leaves at most one position, which the
    next iteration closes. *)
Lemma uptrend_step (df : DataFrame) (i : Z) (st st' : State) :
  sound_bars (get_price_data (data_handler self) symbol (lookback_period default_config)) ->
  ICTTradingAgent.trend_of
    (fst (ICTTradingAgent.analyze_market_structure clock (data_handler self) default_config
            symbol 0%nat))
  = "UPTREND"%string ->
  Forall closes_at_once (positions st) ->
  step clock self symbol df i st = Some st' ->
  Forall closes_at_once (positions st') /\ (length (positions st') <= 1)%nat.
Proof.
  intros Hs Ht Hall H. unfold step in H.
  set (st1 := record_equity (timestamp (iloc df i)) (Close (iloc df i)) st) in *.
  set (st2 := check_exits self df i (timestamp (iloc df i)) (Close (iloc df i)) st1) in *.
  assert (P2 : positions st2 = []).
  { apply (check_exits_all self df i _ _ (positions st1) Hall st1 eq_refl). }
  pose proof (enter_signals_cases clock self symbol (timestamp (iloc df i)) st2) as C.
  rewrite H in C. destruct C as (_ & [-> | (_ & s & size & Hin & ->)]); rewrite P2.
  - split; [constructor | simpl; lia].
  - split; [|simpl; lia]. constructor; [|constructor].
    destruct (signal_prices _ _ _ _ _ _ Hs Hin) as [_ B].
    destruct (signals_direction_by_trend _ _ _ _ _ s Hin) as [[_ D] | [T _]].
    + unfold closes_at_once, position_of. cbn. rewrite D. split; [reflexivity | exact (B D)].
    + rewrite (trend_any_time _ clock _ _ _ _ 0%nat) in T. rewrite Ht in T. discriminate.
Qed.

Lemma uptrend_loop (df : DataFrame) (indices : list Z) :
  sound_bars (get_price_data (data_handler self) symbol (lookback_period default_config)) ->
  ICTTradingAgent.trend_of
    (fst (ICTTradingAgent.analyze_market_structure clock (data_handler self) default_config
            symbol 0%nat))
  = "UPTREND"%string ->
  forall st st',
    Forall closes_at_once (positions st) -> (length (positions st) <= 1)%nat ->
    loop clock self symbol df indices st = Some st' ->
    Forall closes_at_once (positions st') /\ (length (positions st') <= 1)%nat.
Proof.
  intros Hs Ht. induction indices as [|i r IH]; intros st st' Hall Hlen H; simpl in H.
  - injection H as <-. split; assumption.
  - destruct (step clock self symbol df i st) as [st1|] eqn:S; [|discriminate].
    destruct (uptrend_step df i st st1 Hs Ht Hall S) as [A B].
    exact (IH st1 st' A B H).
Qed.

(** X22.  In an uptrend the backtest holds at most one position at a
    time.  When the bars served to the agent are sound and their trend is
    an uptrend, every signal is bullish, the position it opens is not
    "LONG" and has its stop at or below its target, so the next
    iteration closes it whatever the price: after any iteration at most
    one position is open, and it is one that closes at once. *)
Theorem uptrend_holds_one_position (df : DataFrame) (i : Z) (st : State) :
  sound_bars (get_price_data (data_handler self) symbol (lookback_period default_config)) ->
  ICTTradingAgent.trend_of
    (fst (ICTTradingAgent.analyze_market_structure clock (data_handler self) default_config
            symbol 0%nat))
  = "UPTREND"%string ->
  state_after clock self symbol df i = Some st ->
  (length (positions st) <= 1)%nat /\ Forall closes_at_once (positions st).
Proof.
  intros Hs Ht H. unfold state_after in H.
  destruct (uptrend_loop df (Py.range 100 (i + 1)) Hs Ht (initial_state self) st)
    as [A B]; [constructor | simpl; lia | exact H | split; assumption].
Qed.

End Runs.

Lemma at_most_three_positions_witness :
  (length (Backtester.positions Cases.state_105) <= 3)%nat.
Proof.
  exact (at_most_three_positions Scenario.midnight
           (Scenario.backtester Scenario.calm_then_gap) "NQ=F" Scenario.calm_then_gap 105
           Cases.state_105 ltac:(vm_compute; reflexivity)).
Defined.

Lemma equity_curve_dates_witness :
  map Backtester.date (Backtester.r_equity_curve Cases.replay_result)
  = map timestamp
      (skipn 100
         (rows (get_historical_data
                  (Backtester.data_handler (Scenario.backtester Scenario.calm_then_gap))
                  "NQ=F" "2024-01-01" "2024-04-10" "1h"))).
Proof.
  exact (proj1 (equity_curve_dates Scenario.midnight
                  (Scenario.backtester Scenario.calm_then_gap) "NQ=F" "2024-01-01"
                  "2024-04-10" "1h" Cases.replay_result ltac:(vm_compute; reflexivity))).
Defined.

Lemma backtest_completes_witness :
  Backtester.run_backtest Scenario.midnight (Scenario.backtester Scenario.calm_then_gap)
    "NQ=F" "2024-01-01" "2024-04-10" "1h"
  <> Backtester.Raised.
Proof.
  exact (backtest_completes Scenario.midnight (Scenario.backtester Scenario.calm_then_gap)
           "NQ=F" "2024-01-01" "2024-04-10" "1h"
           ltac:(repeat (constructor; [vm_compute; split; [reflexivity | discriminate]|]);
                 constructor)).
Defined.

Lemma uptrend_holds_one_position_witness :
  (length (Backtester.positions Cases.state_105) <= 1)%nat
  /\ Forall closes_at_once (Backtester.positions Cases.state_105).
Proof.
  exact (uptrend_holds_one_position Scenario.midnight
           (Scenario.backtester Scenario.calm_then_gap) "NQ=F" Scenario.calm_then_gap 105
           Cases.state_105
           ltac:(repeat (constructor; [vm_compute; split; [reflexivity | discriminate]|]);
                 constructor)
           ltac:(vm_compute; reflexivity)
           ltac:(vm_compute; reflexivity)).
Defined.

(** ** Backtest: metrics *)

Section Metrics.

Import Backtester.

Lemma filter_split {A : Type} (f g : A -> bool) (l : list A) :
  (forall x, g x = negb (f x)) ->
  (length (filter f l) + length (filter g l) = length l)%nat.
Proof.
  intros H. induction l as [|x l IH]; simpl; [reflexivity|].
  rewrite H. destruct (f x); simpl; lia.
Qed.

Lemma won_or_lost (x : Q) : Qle_bool x 0 = negb (Py.Qgt_bool x 0).
Proof.
  destruct (Py.Qgt_bool x 0) eqn:G; simpl.
  - apply Qgt_bool_iff in G. apply Qle_bool_false. exact G.
  - apply Qlt_bool_false in G. apply Qle_bool_iff. exact G.
Qed.

Lemma filter_none {A : Type} (f : A -> bool) (l : list A) :
  (forall x, In x l -> f x = false) -> filter f l = [].
Proof.
  induction l as [|x l IH]; intros H; simpl; [reflexivity|].
  rewrite (H x (or_introl eq_refl)). apply IH. intros y Hy. apply H. right. exact Hy.
Qed.

Lemma filter_all {A : Type} (f : A -> bool) (l : list A) :
  (forall x, In x l -> f x = true) -> filter f l = l.
Proof.
  induction l as [|x l IH]; intros H; simpl; [reflexivity|].
  rewrite (H x (or_introl eq_refl)). f_equal. apply IH. intros y Hy. apply H. right. exact Hy.
Qed.

(** X23.  For a non-empty list of trades, [_calculate_metrics] counts
    every trade once, as winning or as losing (a break-even trade counts
    as losing): the two counts add up to the total, the win rate is the
    winning share and lies in [0, 1]; and when every trade wins, the win
    rate is 1 while the profit factor and the average loss are reported
    as 0.  The initial capital is not zero and the equity values are
    positive, so that the function's divisions by them are defined. *)
Theorem metrics_counts (self : Backtester.t) (trades : list Trade)
        (equity_curve : list EquitySample) :
  trades <> [] ->
  ~ initial_capital self == 0 ->
  Forall (fun e => 0 < equity e) equity_curve ->
  let m := _calculate_metrics self trades equity_curve in
  (exists won lost,
      winning_trades m = Some won /\ losing_trades m = Some lost
      /\ (won + lost)%Z = total_trades m
      /\ total_trades m = Z.of_nat (length trades)
      /\ win_rate m == inject_Z won / inject_Z (total_trades m))
  /\ 0 <= win_rate m <= 1
  /\ ((forall t, In t trades -> 0 < t_pnl t) ->
      win_rate m == 1 /\ profit_factor m = 0 /\ average_loss m = 0).
Proof.
  intros Hne _ _ m. unfold m, _calculate_metrics.
  destruct trades as [|t0 r] eqn:E; [contradiction|]. rewrite <- E in *.
  set (winning := filter (fun t => Py.Qgt_bool (t_pnl t) 0) trades).
  set (losing := filter (fun t => Qle_bool (t_pnl t) 0) trades).
  cbn [winning_trades losing_trades total_trades win_rate profit_factor average_loss].
  assert (S : (length winning + length losing = length trades)%nat).
  { apply filter_split. intros x. apply won_or_lost. }
  assert (N : (0 < length trades)%nat) by (rewrite E; simpl; lia).
  assert (Np : 0 < count trades).
  { unfold count. change 0 with (inject_Z 0). rewrite <- Zlt_Qlt. lia. }
  split; [|split].
  - exists (Z.of_nat (length winning)), (Z.of_nat (length losing)).
    repeat split; lia.
  - split.
    + apply Qle_shift_div_l; [exact Np|]. rewrite Qmult_0_l.
      unfold count. change 0 with (inject_Z 0). rewrite <- Zle_Qle. lia.
    + apply Qle_shift_div_r; [exact Np|]. rewrite Qmult_1_l.
      unfold count. rewrite <- Zle_Qle. lia.
  - intros Hall.
    assert (W : winning = trades).
    { apply filter_all. intros t Ht. apply Qgt_bool_iff, Hall, Ht. }
    assert (L : losing = []).
    { apply filter_none. intros t Ht. apply Qle_bool_false, Hall, Ht. }
    rewrite W, L. split; [|split; reflexivity].
    field. intros Z. rewrite Z in Np. discriminate.
Qed.

End Metrics.

Lemma metrics_counts_witness :
  0 <= Backtester.win_rate
         (Backtester._calculate_metrics (Scenario.backtester Scenario.calm_then_gap)
            (Backtester.r_trades Cases.replay_result)
            (Backtester.r_equity_curve Cases.replay_result))
  <= 1.
Proof.
  exact (proj1 (proj2 (metrics_counts (Scenario.backtester Scenario.calm_then_gap)
                         (Backtester.r_trades Cases.replay_result)
                         (Backtester.r_equity_curve Cases.replay_result)
                         ltac:(vm_compute; discriminate)
                         ltac:(vm_compute; discriminate)
                         ltac:(vm_compute; repeat constructor)))).
Defined.

(** ** Backtest: maximum drawdown *)

Section Drawdown.

Import Backtester.

Lemma decline_below_one (peak value : Q) : 0 < peak -> 0 < value -> decline peak value < 1.
Proof.
  intros Hp Hv. unfold decline. apply Qlt_shift_div_r; [assumption|]. lra.
Qed.

(** A higher peak makes the decline to the same value larger. *)
Lemma decline_mono (p q value : Q) :
  0 < p -> p <= q -> 0 < value -> decline p value <= decline q value.
Proof.
  intros Hp Hq Hv. unfold decline.
  assert (Hq0 : 0 < q) by lra.
  apply Qle_shift_div_l; [assumption|].
  assert (E : (p - value) / p * q == q - value * (q / p)) by (field; lra).
  rewrite E.
  assert (G : 1 <= q / p) by (apply Qle_shift_div_l; lra).
  assert (M : 0 <= value * (q / p - 1)) by (apply Qmult_le_0_compat; lra).
  lra.
Qed.

(** One step of the loop keeps the peak positive and above the value, and
    the maximum above the decline from the peak. *)
Lemma drawdown_step_facts (peak max_dd value : Q) :
  0 < peak -> 0 <= max_dd < 1 -> 0 < value ->
  let (peak', max_dd') := drawdown_step (peak, max_dd) value in
  0 < peak' /\ peak <= peak' /\ value <= peak'
  /\ 0 <= max_dd' < 1 /\ max_dd <= max_dd' /\ decline peak' value <= max_dd'.
Proof.
  intros Hp Hm Hv. unfold drawdown_step.
  set (peak' := if Py.Qgt_bool value peak then value else peak).
  assert (P : 0 < peak' /\ peak <= peak' /\ value <= peak').
  { unfold peak'. destruct (Py.Qgt_bool value peak) eqn:G.
    - apply Qgt_bool_iff in G. lra.
    - apply Qlt_bool_false in G. lra. }
  destruct P as (P1 & P2 & P3). split; [exact P1|]. split; [exact P2|]. split; [exact P3|].
  fold (decline peak' value).
  pose proof (decline_below_one peak' value P1 Hv) as D1.
  destruct (Py.Qgt_bool (decline peak' value) max_dd) eqn:G.
  - apply Qgt_bool_iff in G. lra.
  - apply Qlt_bool_false in G. lra.
Qed.

Lemma drawdown_fold_facts (l : list Q) :
  forall peak max_dd,
    0 < peak -> 0 <= max_dd < 1 -> Forall (fun v => 0 < v) l ->
    let r := fold_left drawdown_step l (peak, max_dd) in
    0 < fst r /\ peak <= fst r /\ 0 <= snd r < 1 /\ max_dd <= snd r.
Proof.
  induction l as [|v l IH]; intros peak m Hp Hm Hl; cbn [fold_left].
  - cbn [fst snd]. repeat split; try lra; apply Qle_refl.
  - inversion Hl as [|? ? Hv Hl']; subst.
    pose proof (drawdown_step_facts peak m v Hp Hm Hv) as S.
    destruct (drawdown_step (peak, m) v) as [peak' m'].
    destruct S as (S1 & S2 & _ & S4 & S5 & _).
    destruct (IH peak' m' S1 S4 Hl') as (A & B & C & D).
    repeat split; try lra.
Qed.

(** The fold dominates the decline from any value to any later value. *)
Lemma drawdown_fold_dominates (l1 l2 l3 : list Q) (p v : Q) :
  forall peak max_dd,
    0 < peak -> 0 <= max_dd < 1 ->
    Forall (fun x => 0 < x) (l1 ++ p :: l2 ++ v :: l3) ->
    decline p v <= snd (fold_left drawdown_step (l1 ++ p :: l2 ++ v :: l3) (peak, max_dd)).
Proof.
  intros peak m Hp Hm Hall.
  apply Forall_app in Hall. destruct Hall as [H1 Hall].
  inversion Hall as [|? ? Hpp Hall2]; subst.
  apply Forall_app in Hall2. destruct Hall2 as [H2 Hall3].
  inversion Hall3 as [|? ? Hv H3]; subst.
  rewrite fold_left_app. cbn [fold_left].
  pose proof (drawdown_fold_facts l1 peak m Hp Hm H1) as F1.
  destruct (fold_left drawdown_step l1 (peak, m)) as [pk1 m1]. cbn [fst snd] in F1.
  destruct F1 as (A1 & _ & C1 & _).
  pose proof (drawdown_step_facts pk1 m1 p A1 C1 Hpp) as S2.
  destruct (drawdown_step (pk1, m1) p) as [pk2 m2].
  destruct S2 as (A2 & _ & B2 & C2 & _).
  rewrite fold_left_app. cbn [fold_left].
  pose proof (drawdown_fold_facts l2 pk2 m2 A2 C2 H2) as F3.
  destruct (fold_left drawdown_step l2 (pk2, m2)) as [pk3 m3]. cbn [fst snd] in F3.
  destruct F3 as (A3 & B3 & C3 & _).
  pose proof (drawdown_step_facts pk3 m3 v A3 C3 Hv) as S4.
  destruct (drawdown_step (pk3, m3) v) as [pk4 m4].
  destruct S4 as (A4 & B4 & _ & C4 & _ & D4).
  pose proof (drawdown_fold_facts l3 pk4 m4 A4 C4 H3) as F5.
  destruct (fold_left drawdown_step l3 (pk4, m4)) as [pk5 m5]. cbn [fst snd] in F5 |- *.
  destruct F5 as (_ & _ & _ & D5).
  pose proof (decline_mono p pk4 v Hpp ltac:(lra) Hv). lra.
Qed.

(** A list in which no value is below an earlier one is sorted. *)
Lemma sorted_of_pairs (l : list Q) :
  (forall l1 p l2 v l3, l = l1 ++ p :: l2 ++ v :: l3 -> p <= v) ->
  StronglySorted Qle l.
Proof.
  induction l as [|x r IH]; intros H; constructor.
  - apply IH. intros l1 p l2 v l3 E. apply (H (x :: l1) p l2 v l3). rewrite E. reflexivity.
  - apply Forall_forall. intros v Hv. apply in_split in Hv. destruct Hv as (l2 & l3 & E).
    apply (H [] x l2 v l3). rewrite E. reflexivity.
Qed.

(** On values that never fall below the peak the loop records no decline. *)
Lemma drawdown_fold_sorted (l : list Q) :
  forall peak,
    0 < peak -> Forall (Qle peak) l -> StronglySorted Qle l ->
    snd (fold_left drawdown_step l (peak, 0)) = 0.
Proof.
  induction l as [|v r IH]; intros peak Hp Hall Hs; [reflexivity|].
  inversion Hall as [|? ? Hv Hr]; subst. inversion Hs as [|? ? Hs' Hvr]; subst.
  cbn [fold_left]. unfold drawdown_step at 2.
  destruct (Py.Qgt_bool v peak) eqn:G.
  - assert (D : Py.Qgt_bool ((v - v) / v) 0 = false).
    { apply Qlt_bool_false. unfold Qdiv. setoid_replace (v - v) with 0 by ring.
      rewrite Qmult_0_l. apply Qle_refl. }
    rewrite D. apply IH; [lra | exact Hvr | exact Hs'].
  - apply Qlt_bool_false in G.
    assert (D : Py.Qgt_bool ((peak - v) / peak) 0 = false).
    { apply Qlt_bool_false. apply Qdiv_nonpos; lra. }
    rewrite D. apply IH; [exact Hp | | exact Hs'].
    eapply Forall_impl; [|exact Hvr]. intros a Ha. lra.
Qed.

(** X24.  On positive equity values the maximum drawdown lies between 0
    and 1, and it is 0 exactly when the curve never falls, that is, when
    no value is below an earlier one. *)
Theorem max_drawdown_zero_iff_never_falls (equity_values : list Q) :
  Forall (fun v => 0 < v) equity_values ->
  0 <= _calculate_max_drawdown equity_values <= 1
  /\ (_calculate_max_drawdown equity_values == 0 <-> StronglySorted Qle equity_values).
Proof.
  intros Hall.
  destruct equity_values as [|first r] eqn:E.
  - split; [split; discriminate|]. split; [constructor | reflexivity].
  - rewrite <- E in *.
    assert (Hf : 0 < first) by (rewrite E in Hall; inversion Hall; assumption).
    assert (U : _calculate_max_drawdown equity_values
                = snd (fold_left drawdown_step equity_values (first, 0)))
      by (rewrite E; reflexivity).
    rewrite U. split.
    + destruct (drawdown_fold_facts equity_values first 0 Hf ltac:(lra) Hall)
        as (_ & _ & C & _). lra.
    + split.
      * intros Z. apply sorted_of_pairs. intros l1 p l2 v l3 D.
        assert (Hd : decline p v <= 0).
        { rewrite <- Z. rewrite D in Hall |- *.
          apply (drawdown_fold_dominates l1 l2 l3 p v first 0 Hf ltac:(lra) Hall). }
        assert (Hpp : 0 < p).
        { rewrite D in Hall. apply Forall_app in Hall. destruct Hall as [_ Hall].
          inversion Hall; assumption. }
        unfold decline in Hd.
        assert (X : p - v <= 0).
        { destruct (Qlt_le_dec 0 (p - v)) as [Hgt|]; [|assumption]. exfalso.
          apply (Qdiv_pos_iff _ _ Hpp) in Hgt. lra. }
        lra.
      * intros Hs. rewrite drawdown_fold_sorted; [reflexivity | exact Hf | | exact Hs].
        rewrite E in Hs |- *. inversion Hs as [|? ? _ Hr]; subst.
        constructor; [apply Qle_refl | exact Hr].
Qed.

End Drawdown.

Lemma max_drawdown_zero_iff_never_falls_witness :
  0 <= Backtester._calculate_max_drawdown Cases.equity_example <= 1.
Proof.
  exact (proj1 (max_drawdown_zero_iff_never_falls Cases.equity_example
                  ltac:(repeat constructor))).
Defined.

(** ** Performance reporter: streaks *)

Section Streaks.

Import PerformanceReporter.

Lemma streak_step_zero (st : Streaks) (pnl : Q) : pnl == 0 -> streak_step st pnl = st.
Proof.
  intros E. unfold streak_step.
  assert (G : Py.Qgt_bool pnl 0 = false) by (apply Qlt_bool_false; rewrite E; apply Qle_refl).
  assert (L : Py.Qlt_bool pnl 0 = false) by (apply Qlt_bool_false; rewrite E; apply Qle_refl).
  rewrite G, L. reflexivity.
Qed.

Lemma streak_fold_skip_zero (l : list Q) :
  forall st,
    fold_left streak_step (filter (fun p => negb (Qeq_bool p 0)) l) st
    = fold_left streak_step l st.
Proof.
  induction l as [|x l IH]; intros st; simpl; [reflexivity|].
  destruct (Qeq_bool x 0) eqn:E; simpl.
  - apply Qeq_bool_iff in E. rewrite (streak_step_zero st x E). apply IH.
  - apply IH.
Qed.

Lemma streak_step_bounds (st : Streaks) (x : Q) :
  (current_win st <= win_streak st)%nat -> (current_loss st <= loss_streak st)%nat ->
  let st' := streak_step st x in
  (current_win st' <= win_streak st')%nat /\ (current_loss st' <= loss_streak st')%nat
  /\ (win_streak st' <= win_streak st + (if Py.Qgt_bool x 0 then 1 else 0))%nat
  /\ (loss_streak st' <= loss_streak st + (if Py.Qlt_bool x 0 then 1 else 0))%nat.
Proof.
  intros Hw Hl. unfold streak_step.
  destruct (Py.Qgt_bool x 0) eqn:G.
  - assert (L : Py.Qlt_bool x 0 = false).
    { apply Qlt_bool_false. apply Qgt_bool_iff in G. lra. }
    rewrite L. cbn. lia.
  - destruct (Py.Qlt_bool x 0); cbn; lia.
Qed.

(** The longest runs are bounded by the numbers of winning and of losing
    trades. *)
Lemma streak_fold_bounds (l : list Q) :
  forall st,
    (current_win st <= win_streak st)%nat -> (current_loss st <= loss_streak st)%nat ->
    let st' := fold_left streak_step l st in
    (win_streak st' <= win_streak st + length (filter (fun p => Py.Qgt_bool p 0) l))%nat
    /\ (loss_streak st' <= loss_streak st + length (filter (fun p => Py.Qlt_bool p 0) l))%nat.
Proof.
  induction l as [|x l IH]; intros st Hw Hl; [simpl; lia|].
  destruct (streak_step_bounds st x Hw Hl) as (A & B & C & D).
  destruct (IH (streak_step st x) A B) as (E & F).
  cbn [fold_left filter].
  destruct (Py.Qgt_bool x 0), (Py.Qlt_bool x 0); cbn [length]; lia.
Qed.

(** X25.  Break-even trades are invisible to the streak counter: trades
    with a profit of zero neither extend nor end a streak, so removing
    them changes neither result; and the longest winning and losing
    streaks are at most the numbers of winning and of losing trades. *)
Theorem streaks_skip_break_even (pnl_series : list Q) :
  _calculate_streaks (filter (fun p => negb (Qeq_bool p 0)) pnl_series)
  = _calculate_streaks pnl_series
  /\ (fst (_calculate_streaks pnl_series)
      <= length (filter (fun p => Py.Qgt_bool p 0) pnl_series))%nat
  /\ (snd (_calculate_streaks pnl_series)
      <= length (filter (fun p => Py.Qlt_bool p 0) pnl_series))%nat.
Proof.
  unfold _calculate_streaks. rewrite streak_fold_skip_zero. split; [reflexivity|].
  destruct (streak_fold_bounds pnl_series (mkStreaks 0 0 0 0)) as (C & D);
    [simpl; lia | simpl; lia |]. split; assumption.
Qed.

End Streaks.
